(** * Gravitational-wave detection notebook: model and properties

    A model of [examples/gravitational_waves_detection.ipynb].  The notebook
    is glue code: it sequences calls into numpy, plotly, scikit-learn and
    giotto-tda.  The code cells are embedded statement by statement as
    transformers of the notebook's global namespace; every call into a
    library is an event of a small free monad, interpreted by an arbitrary
    library behaviour, so that the properties below hold whatever the
    libraries compute.

    Conventions of the model:
    - floating-point numbers are idealised as rationals;
    - objects are values: a method that changes its object in place
      ([fig.add_trace], [model.fit]) returns the changed object, which the
      statement binds to the same name;
    - [import] statements and the [def] of [print_scores] bind names that
      no statement rebinds, and are not statements of the model;
    - numpy, sklearn.metrics and the builtins that the properties depend on
      ([np.argmin], [np.argmax], [accuracy_score], [roc_auc_score],
      [round], indexing) are third-party code: they are defined here from
      their documentation.  All other library code is left open. *)

From Stdlib Require Import ZArith QArith Qround Qabs Lia Lqa List.
From stdpp Require Import base option list gmap strings.

Set Warnings "-register-all".

Local Open Scope string_scope.
Local Open Scope list_scope.
Local Open Scope Z_scope.

(** ** Python values handled by the notebook *)

(** Exceptions that the authored code or a library call can raise. *)
Inductive exn : Type :=
| NameError (name : string)
| TypeError (expected : string)
| ValueError (msg : string)
| IndexError (msg : string)
| LibraryError (msg : string).

Inductive result (A : Type) : Type :=
| Ok (a : A)
| Err (e : exn).
Arguments Ok {A} a.
Arguments Err {A} e.

(** Numeric arrays whose contents the notebook never inspects (point clouds,
    persistence diagrams, feature matrices).  Floating-point numbers are
    idealised as rationals. *)
Inductive ndarray : Type :=
| Num (x : Q)
| Arr (items : list ndarray).

Inductive param : Type :=
| PInt (n : Z)
| PFloat (x : Q)
| PStr (s : string)
| PBool (b : bool).

(** Estimator objects, represented by the constructor arguments that the
    notebook passes. *)
Inductive estimator : Type :=
| SingleTakensEmbedding (parameters_type : string) (n_jobs time_delay dimension stride : Z)
| PCA (n_components : Z)
| TakensEmbedding (time_delay dimension stride : Z)
| CollectionTransformer (transformer : estimator) (n_jobs : Z)
| VietorisRipsPersistence (homology_dimensions : list Z) (n_jobs : Z)
| Scaler
| PersistenceEntropy (normalize : bool) (nan_fill_value : Z)
| LogisticRegression (kwargs : list (string * param)).

Record pipeline : Type := Pipeline { steps : list (string * estimator) }.

(** A classifier object: its configuration and, once fitted, what [fit]
    learned. *)
Record model : Type := Model { config : estimator; learned : option ndarray }.

Record Scatter : Type :=
  { x : list Z; y : list Q; mode : string; name : string }.

Inductive figure : Type :=
| Subplots (rows cols : Z) (traces : list (Scatter * Z * Z))
| PointCloudPlot (point_cloud : ndarray).

(** What a cell can display as its value. *)
Inductive rich : Type :=
| YouTubeVideo (id : string) (width height : Z)
| ShownFigure (fig : figure).

(** Pieces of an f-string, and arguments of [print]. *)
Inductive piece : Type :=
| Lit (s : string)
| FmtInt (n : Z).

(** A score is a float; [NaN] is what a mean over no samples gives. *)
Inductive pyfloat : Type :=
| Real (q : Q)
| NaN.

Inductive printable : Type :=
| PrStr (s : string)
| PrFString (pieces : list piece)
| PrFloat (x : pyfloat).

(** Objects bound in the notebook's global namespace. *)
Inductive value : Type :=
| VInt (n : Z)
| VFloat (x : Q)
| VPath (p : string)
| VSignals (l : list (list Q))
| VSeries (s : list Q)
| VLabels (l : list Z)
| VArray (a : ndarray)
| VEstimator (e : estimator)
| VSteps (l : list (string * estimator))
| VPipeline (p : pipeline)
| VModel (m : model)
| VFigure (f : figure).

(** ** Library calls *)

(** The calls into external code that the notebook performs, indexed by
    the type of their result.  [open_write] stands for the file-writing
    entry points of the Python environment ([open(.., "w")], [np.save],
    [fig.write_html], ...), none of which the notebook uses. *)
Inductive call : Type -> Type :=
| display (obj : rich) : call unit
| print (args : list printable) : call unit
| make_gravitational_waves (path_to_data : string) (n_signals : Z)
    (r_min r_max : Q) (n_snr_values : Z)
    : call (list (list Q) * list (list Q) * list Z)
| make_subplots (rows cols : Z) : call figure
| add_trace (fig : figure) (trace : Scatter) (row col : Z) : call figure
| show (fig : figure) : call unit
| fit_transform (est : estimator) (X : ndarray) : call ndarray
| plot_point_cloud (point_cloud : ndarray) : call figure
| train_test_split (X : ndarray) (y : list Z) (test_size : Q) (random_state : Z)
    : call (ndarray * ndarray * list Z * list Z)
| fit (m : model) (X : ndarray) (y : list Z) : call model
| predict (m : model) (X : ndarray) : call (list Z)
| predict_proba (m : model) (X : ndarray) : call (list (list Q))
| open_write (path : string) (content : string) : call unit.

(** ** Programs *)

(** Programs over library calls.  [TryExcept] is Python's [try]/[except]:
    the handler receives the exception raised by the body. *)
Inductive prog (A : Type) : Type :=
| Ret (a : A)
| Raise (e : exn)
| Call {X : Type} (c : call X) (k : X -> prog A)
| TryExcept {B : Type} (body : prog B) (handler : exn -> prog B) (k : B -> prog A).
Arguments Ret {A} a.
Arguments Raise {A} e.
Arguments Call {A X} c k.
Arguments TryExcept {A B} body handler k.

Fixpoint bind {A B : Type} (p : prog A) (f : A -> prog B) : prog B :=
  match p with
  | Ret a => f a
  | Raise e => Raise e
  | Call c k => Call c (fun x => bind (k x) f)
  | TryExcept body h k => TryExcept body h (fun b => bind (k b) f)
  end.

Notation "x <- p ;; k" := (bind p (fun x => k))
  (at level 20, p at level 99, k at level 200, only parsing).
Notation "' pat <- p ;; k" := (bind p (fun x => match x with pat => k end))
  (at level 20, pat pattern, p at level 99, k at level 200, only parsing).

Definition call_ {X : Type} (c : call X) : prog X := Call c Ret.

Definition lift {A : Type} (r : result A) : prog A :=
  match r with
  | Ok a => Ret a
  | Err e => Raise e
  end.

(** One step of a run: a call and what the library answered. *)
Record entry : Type :=
  Entry { entry_type : Type;
          entry_call : call entry_type;
          entry_result : result entry_type }.
Arguments Entry {entry_type} entry_call entry_result.

Section Run.
Context {W : Type}.
(** The behaviour of the libraries: every call returns or raises, and may
    change the state [W] of the outside world. *)
Variable lib : forall X : Type, call X -> W -> result X * W.

Fixpoint run {A : Type} (p : prog A) (w : W) : result A * W * list entry :=
  match p with
  | Ret a => (Ok a, w, [])
  | Raise e => (Err e, w, [])
  | Call c k =>
      match lib _ c w with
      | (Ok x, w1) =>
          let '(o, w2, t) := run (k x) w1 in (o, w2, Entry c (Ok x) :: t)
      | (Err e, w1) => (Err e, w1, [Entry c (Err e)])
      end
  | TryExcept body h k =>
      let '(o1, w1, t1) := run body w in
      match o1 with
      | Ok b =>
          let '(o2, w2, t2) := run (k b) w1 in (o2, w2, t1 ++ t2)
      | Err e =>
          let '(o2, w2, t2) := run (h e) w1 in
          match o2 with
          | Ok b =>
              let '(o3, w3, t3) := run (k b) w2 in (o3, w3, t1 ++ t2 ++ t3)
          | Err e' => (Err e', w2, t1 ++ t2)
          end
      end
  end.
End Run.

(** ** Builtins and numpy *)

Definition len {A : Type} (l : list A) : Z := Z.of_nat (length l).

(** [l[i]]: negative indices count from the end, an index out of range
    raises [IndexError]. *)
Definition getitem {A : Type} (l : list A) (i : Z) : result A :=
  let j := if i <? 0 then i + len l else i in
  if j <? 0 then Err (IndexError "index out of range")
  else match l !! Z.to_nat j with
       | Some a => Ok a
       | None => Err (IndexError "index out of range")
       end.

(** [list(range(n))] *)
Definition range (n : Z) : list Z := map Z.of_nat (seq 0 (Z.to_nat n)).

Definition asarray_1d (s : list Q) : ndarray := Arr (map Num s).
Definition asarray_2d (l : list (list Q)) : ndarray := Arr (map asarray_1d l).

(** numpy, from its documentation. *)
Module np.

(** The scan of [argmin]: [best] is the least value seen so far and
    [best_i] the first index where it occurs. *)
Fixpoint argmin_from (best_i : nat) (best : Z) (i : nat) (l : list Z) : nat :=
  match l with
  | [] => best_i
  | v :: l' =>
      if v <? best then argmin_from i v (S i) l'
      else argmin_from best_i best (S i) l'
  end.

Fixpoint argmax_from (best_i : nat) (best : Z) (i : nat) (l : list Z) : nat :=
  match l with
  | [] => best_i
  | v :: l' =>
      if best <? v then argmax_from i v (S i) l'
      else argmax_from best_i best (S i) l'
  end.

(** [np.argmin(a)]: the index of the minimum; of its first occurrence
    when it occurs several times; [ValueError] on an empty array. *)
Definition argmin (a : list Z) : result Z :=
  match a with
  | [] => Err (ValueError "attempt to get argmin of an empty sequence")
  | v :: l => Ok (Z.of_nat (argmin_from 0 v 1 l))
  end.

Definition argmax (a : list Z) : result Z :=
  match a with
  | [] => Err (ValueError "attempt to get argmax of an empty sequence")
  | v :: l => Ok (Z.of_nat (argmax_from 0 v 1 l))
  end.

End np.

(** ** sklearn.metrics *)

(** sklearn.metrics, from its documentation. *)
Module metrics.

Definition matches (a b : list Z) : nat :=
  length (List.filter (fun p => Z.eqb (fst p) (snd p)) (combine a b)).

(** [accuracy_score(y_true, y_pred)]: the fraction of positions where the
    two vectors agree; [ValueError] when their lengths differ. *)
Definition accuracy_score (y_true y_pred : list Z) : result pyfloat :=
  if negb (length y_true =? length y_pred)%nat then
    Err (ValueError "Found input variables with inconsistent numbers of samples")
  else match length y_true with
       | O => Ok NaN
       | S n => Ok (Real (Z.of_nat (matches y_true y_pred) # Pos.of_succ_nat n))
       end.

(** Insertion of a sample into a list sorted by decreasing score. *)
Fixpoint insert_desc (p : bool * Q) (l : list (bool * Q)) : list (bool * Q) :=
  match l with
  | [] => [p]
  | q :: l' => if Qle_bool (snd q) (snd p) then p :: l else q :: insert_desc p l'
  end.

Definition sort_desc (l : list (bool * Q)) : list (bool * Q) :=
  foldr insert_desc [] l.

(** The points (false positives, true positives) of the ROC curve: one
    for each distinct score, taken as threshold, over the samples sorted
    by decreasing score. *)
Fixpoint clf_curve (fps tps : Z) (l : list (bool * Q)) : list (Z * Z) :=
  match l with
  | [] => []
  | (positive, s) :: l' =>
      let fps' := if positive then fps else fps + 1 in
      let tps' := if positive then tps + 1 else tps in
      match l' with
      | [] => [(fps', tps')]
      | (_, s') :: _ =>
          if Qeq_bool s s' then clf_curve fps' tps' l'
          else (fps', tps') :: clf_curve fps' tps' l'
      end
  end.

(** The trapezoidal rule, [np.trapz(y, x)], on a list of points (x, y). *)
Fixpoint trapz (pts : list (Q * Q)) : Q :=
  match pts with
  | (x1, y1) :: (((x2, y2) :: _) as rest) =>
      ((x2 - x1) * ((y1 + y2) / 2) + trapz rest)%Q
  | _ => 0%Q
  end.

Definition distinct (l : list Z) : list Z := remove_dups l.

(** [roc_auc_score(y_true, y_score)] with its default arguments: for
    binary targets, the area under the ROC curve, by the trapezoidal rule.
    The greater of the two labels is the positive class.  [ValueError]
    unless exactly two classes are present in [y_true] and the lengths
    agree.  (sklearn also drops the points of the curve that lie on a
    segment between their neighbours, which leaves the area as it is.) *)
Definition roc_auc_score (y_true : list Z) (y_score : list Q) : result pyfloat :=
  match distinct y_true with
  | [a; b] =>
      if negb (length y_true =? length y_score)%nat then
        Err (ValueError "Found input variables with inconsistent numbers of samples")
      else
        let pos_label := Z.max a b in
        let samples := combine (map (Z.eqb pos_label) y_true) y_score in
        let pts := (0, 0) :: clf_curve 0 0 (sort_desc samples) in
        let '(N, P) := List.last pts (0, 0) in
        let fpr_tpr := map (fun p => (inject_Z (fst p) / inject_Z N, inject_Z (snd p) / inject_Z P)%Q) pts in
        Ok (Real (trapz fpr_tpr))
  | [] | [_] =>
      Err (ValueError "Only one class present in y_true. ROC AUC score is not defined in that case.")
  | _ => Err (ValueError "multi_class must be in ('ovo', 'ovr')")
  end.

End metrics.

(** The nearest integer, ties to the even one. *)
Definition round_half_even (q : Q) : Z :=
  let n := Qnum q in
  let d := Z.pos (Qden q) in
  let f := n / d in
  let r := 2 * (n mod d) in
  if r <? d then f
  else if d <? r then f + 1
  else if Z.even f then f else f + 1.

(** [round(v, ndigits)], for [ndigits >= 0]: the nearest multiple of
    [10^-ndigits], ties to the even one. *)
Definition round (v : pyfloat) (ndigits : Z) : pyfloat :=
  match v with
  | NaN => NaN
  | Real q =>
      let scale := inject_Z (10 ^ ndigits) in
      Real (inject_Z (round_half_even (q * scale)) / scale)%Q
  end.

(** ** The global namespace *)

Abbreviation globals := (gmap string value).

Definition as_int (v : value) : option Z := match v with VInt n => Some n | _ => None end.
Definition as_float (v : value) : option Q := match v with VFloat q => Some q | _ => None end.
Definition as_path (v : value) : option string := match v with VPath p => Some p | _ => None end.
Definition as_signals (v : value) : option (list (list Q)) := match v with VSignals l => Some l | _ => None end.
Definition as_series (v : value) : option (list Q) := match v with VSeries l => Some l | _ => None end.
Definition as_labels (v : value) : option (list Z) := match v with VLabels l => Some l | _ => None end.
Definition as_array (v : value) : option ndarray := match v with VArray a => Some a | _ => None end.
Definition as_estimator (v : value) : option estimator := match v with VEstimator e => Some e | _ => None end.
Definition as_steps (v : value) : option (list (string * estimator)) := match v with VSteps l => Some l | _ => None end.
Definition as_pipeline (v : value) : option pipeline := match v with VPipeline p => Some p | _ => None end.
Definition as_model (v : value) : option model := match v with VModel m => Some m | _ => None end.
Definition as_figure (v : value) : option figure := match v with VFigure f => Some f | _ => None end.

(** Reading a name: [NameError] when it is unbound, [TypeError] when the
    object bound to it is not of the kind the operation needs. *)
Definition load {A : Type} (proj : value -> option A) (kind : string)
    (g : globals) (x : string) : prog A :=
  match g !! x with
  | None => Raise (NameError x)
  | Some v =>
      match proj v with
      | Some a => Ret a
      | None => Raise (TypeError kind)
      end
  end.

Definition get_int (g : globals) (x : string) := load as_int "int" g x.
Definition get_float (g : globals) (x : string) := load as_float "float" g x.
Definition get_path (g : globals) (x : string) := load as_path "Path" g x.
Definition get_signals (g : globals) (x : string) := load as_signals "list of arrays" g x.
Definition get_series (g : globals) (x : string) := load as_series "array" g x.
Definition get_labels (g : globals) (x : string) := load as_labels "array of labels" g x.
Definition get_array (g : globals) (x : string) := load as_array "ndarray" g x.
Definition get_estimator (g : globals) (x : string) := load as_estimator "estimator" g x.
Definition get_steps (g : globals) (x : string) := load as_steps "list of steps" g x.
Definition get_pipeline (g : globals) (x : string) := load as_pipeline "Pipeline" g x.
Definition get_model (g : globals) (x : string) := load as_model "classifier" g x.
Definition get_figure (g : globals) (x : string) := load as_figure "Figure" g x.

(** ** Statements *)

Definition stmt : Type := globals -> prog globals.

(** [x = e] *)
Definition assign (x : string) (e : globals -> prog value) : stmt :=
  fun g => v <- e g;; Ret (<[x := v]> g).

Fixpoint bind_names (xs : list string) (vs : list value) (g : globals) : result globals :=
  match xs, vs with
  | [], [] => Ok g
  | x :: xs', v :: vs' => bind_names xs' vs' (<[x := v]> g)
  | _ :: _, [] => Err (ValueError "not enough values to unpack")
  | [], _ :: _ => Err (ValueError "too many values to unpack")
  end.

(** [x1, ..., xn = e] *)
Definition unpack (xs : list string) (e : globals -> prog (list value)) : stmt :=
  fun g => vs <- e g;; lift (bind_names xs vs g).

(** An expression statement: the value is dropped. *)
Definition expr {A : Type} (e : globals -> prog A) : stmt :=
  fun g => _ <- e g;; Ret g.

(** The last expression of a cell: Jupyter displays its value. *)
Definition cell_value (e : globals -> prog rich) : stmt :=
  fun g => v <- e g;; _ <- call_ (display v);; Ret g.

(** A method call [x.m(..)] that changes the object bound to [x] in place:
    afterwards [x] names the changed object. *)
Definition in_place (x : string) (e : globals -> prog value) : stmt := assign x e.

Fixpoint exec (ss : list stmt) (g : globals) : prog globals :=
  match ss with
  | [] => Ret g
  | s :: ss' => g' <- s g;; exec ss' g'
  end.

Fixpoint for_each {A : Type} (l : list A) (body : A -> prog unit) : prog unit :=
  match l with
  | [] => Ret tt
  | a :: l' => _ <- body a;; for_each l' body
  end.

(** ** giotto-tda *)

(** Modelled from the spec: [gtda.pipeline.Pipeline] is not among the
    sources.  "Linear pipeline chaining": [fit_transform] of a pipeline
    applies [fit_transform] of each step, in order, to the output of the
    step before. *)
Fixpoint fit_transform_steps (l : list (string * estimator)) (X : ndarray) : prog ndarray :=
  match l with
  | [] => Ret X
  | (_, est) :: l' => Xt <- call_ (fit_transform est X);; fit_transform_steps l' Xt
  end.

Definition pipeline_fit_transform (p : pipeline) (X : ndarray) : prog ndarray :=
  fit_transform_steps (steps p) X.

(** ** The notebook, cell by cell *)

(** [YouTubeVideo("Y3eR49ogsF0", width=600, height=400)] *)
Definition cell_video_1 : list stmt :=
  [ cell_value (fun _ => Ret (YouTubeVideo "Y3eR49ogsF0" 600 400)) ].

Definition cell_video_2 : list stmt :=
  [ cell_value (fun _ => Ret (YouTubeVideo "QyDcTbR-kEA" 600 400)) ].

Definition cell_generate : list stmt :=
  [ assign "R" (fun _ => Ret (VFloat (65 # 100)));
    assign "n_signals" (fun _ => Ret (VInt 100));
    assign "DATA" (fun _ => Ret (VPath "./data"));
    unpack ["noisy_signals"; "gw_signals"; "labels"] (fun g =>
      DATA <- get_path g "DATA";;
      n_signals <- get_int g "n_signals";;
      r_min <- get_float g "R";;
      r_max <- get_float g "R";;
      '(noisy, gw, lab) <- call_ (make_gravitational_waves DATA n_signals r_min r_max 1);;
      Ret [VSignals noisy; VSignals gw; VLabels lab]);
    expr (fun g =>
      noisy_signals <- get_signals g "noisy_signals";;
      call_ (print [PrFString [Lit "Number of noisy signals: "; FmtInt (len noisy_signals)]]));
    expr (fun g =>
      noisy_signals <- get_signals g "noisy_signals";;
      first <- lift (getitem noisy_signals 0);;
      call_ (print [PrFString [Lit "Number of timesteps per series: "; FmtInt (len first)]])) ].

(** [go.Scatter(x=list(range(len(ts))), y=ts, mode="lines", name=..)] *)
Definition line_trace (ts : list Q) (name : string) : Scatter :=
  {| x := range (len ts); y := ts; mode := "lines"; name := name |}.

Definition cell_visualise : list stmt :=
  [ (* get the index corresponding to the first pure noise time series *)
    assign "background_idx" (fun g =>
      labels <- get_labels g "labels";;
      i <- lift (np.argmin labels);; Ret (VInt i));
    (* get the index corresponding to the first noise + gravitational wave time series *)
    assign "signal_idx" (fun g =>
      labels <- get_labels g "labels";;
      i <- lift (np.argmax labels);; Ret (VInt i));
    assign "ts_noise" (fun g =>
      noisy_signals <- get_signals g "noisy_signals";;
      background_idx <- get_int g "background_idx";;
      ts <- lift (getitem noisy_signals background_idx);; Ret (VSeries ts));
    assign "ts_background" (fun g =>
      noisy_signals <- get_signals g "noisy_signals";;
      signal_idx <- get_int g "signal_idx";;
      ts <- lift (getitem noisy_signals signal_idx);; Ret (VSeries ts));
    assign "ts_signal" (fun g =>
      gw_signals <- get_signals g "gw_signals";;
      signal_idx <- get_int g "signal_idx";;
      ts <- lift (getitem gw_signals signal_idx);; Ret (VSeries ts));
    assign "fig" (fun _ => fig <- call_ (make_subplots 1 2);; Ret (VFigure fig));
    in_place "fig" (fun g =>
      fig <- get_figure g "fig";;
      ts_noise <- get_series g "ts_noise";;
      fig' <- call_ (add_trace fig (line_trace ts_noise "noise") 1 1);;
      Ret (VFigure fig'));
    in_place "fig" (fun g =>
      fig <- get_figure g "fig";;
      ts_background <- get_series g "ts_background";;
      fig' <- call_ (add_trace fig (line_trace ts_background "background") 1 2);;
      Ret (VFigure fig'));
    in_place "fig" (fun g =>
      fig <- get_figure g "fig";;
      ts_signal <- get_series g "ts_signal";;
      fig' <- call_ (add_trace fig (line_trace ts_signal "signal") 1 2);;
      Ret (VFigure fig'));
    expr (fun g => fig <- get_figure g "fig";; call_ (show fig)) ].

(** [embedder = SingleTakensEmbedding(parameters_type="search", n_jobs=6,
    time_delay=embedding_time_delay, dimension=embedding_dimension,
    stride=stride)] *)
Definition new_single_embedder : stmt :=
  assign "embedder" (fun g =>
    time_delay <- get_int g "embedding_time_delay";;
    dimension <- get_int g "embedding_dimension";;
    stride <- get_int g "stride";;
    Ret (VEstimator (SingleTakensEmbedding "search" 6 time_delay dimension stride))).

Definition cell_embed_gw : list stmt :=
  [ assign "embedding_dimension" (fun _ => Ret (VInt 30));
    assign "embedding_time_delay" (fun _ => Ret (VInt 30));
    assign "stride" (fun _ => Ret (VInt 5));
    new_single_embedder;
    assign "y_gw_embedded" (fun g =>
      embedder <- get_estimator g "embedder";;
      gw_signals <- get_signals g "gw_signals";;
      s <- lift (getitem gw_signals 0);;
      Y <- call_ (fit_transform embedder (asarray_1d s));; Ret (VArray Y)) ].

Definition cell_pca_gw : list stmt :=
  [ assign "pca" (fun _ => Ret (VEstimator (PCA 3)));
    assign "y_gw_embedded_pca" (fun g =>
      pca <- get_estimator g "pca";;
      y_gw_embedded <- get_array g "y_gw_embedded";;
      Y <- call_ (fit_transform pca y_gw_embedded);; Ret (VArray Y));
    cell_value (fun g =>
      y_gw_embedded_pca <- get_array g "y_gw_embedded_pca";;
      fig <- call_ (plot_point_cloud y_gw_embedded_pca);; Ret (ShownFigure fig)) ].

Definition cell_embed_noise : list stmt :=
  [ assign "embedding_dimension" (fun _ => Ret (VInt 30));
    assign "embedding_time_delay" (fun _ => Ret (VInt 30));
    assign "stride" (fun _ => Ret (VInt 5));
    new_single_embedder;
    assign "y_noise_embedded" (fun g =>
      embedder <- get_estimator g "embedder";;
      noisy_signals <- get_signals g "noisy_signals";;
      background_idx <- get_int g "background_idx";;
      s <- lift (getitem noisy_signals background_idx);;
      Y <- call_ (fit_transform embedder (asarray_1d s));; Ret (VArray Y));
    assign "pca" (fun _ => Ret (VEstimator (PCA 3)));
    assign "y_noise_embedded_pca" (fun g =>
      pca <- get_estimator g "pca";;
      y_noise_embedded <- get_array g "y_noise_embedded";;
      Y <- call_ (fit_transform pca y_noise_embedded);; Ret (VArray Y));
    cell_value (fun g =>
      y_noise_embedded_pca <- get_array g "y_noise_embedded_pca";;
      fig <- call_ (plot_point_cloud y_noise_embedded_pca);; Ret (ShownFigure fig)) ].

Definition cell_pipeline : list stmt :=
  [ assign "embedding_dimension" (fun _ => Ret (VInt 200));
    assign "embedding_time_delay" (fun _ => Ret (VInt 10));
    assign "stride" (fun _ => Ret (VInt 10));
    assign "embedder" (fun g =>
      time_delay <- get_int g "embedding_time_delay";;
      dimension <- get_int g "embedding_dimension";;
      stride <- get_int g "stride";;
      Ret (VEstimator (TakensEmbedding time_delay dimension stride)));
    assign "batch_pca" (fun _ => Ret (VEstimator (CollectionTransformer (PCA 3) (-1))));
    assign "persistence" (fun _ => Ret (VEstimator (VietorisRipsPersistence [0; 1] (-1))));
    assign "scaling" (fun _ => Ret (VEstimator Scaler));
    assign "entropy" (fun _ => Ret (VEstimator (PersistenceEntropy true (-10))));
    assign "steps" (fun g =>
      embedder <- get_estimator g "embedder";;
      batch_pca <- get_estimator g "batch_pca";;
      persistence <- get_estimator g "persistence";;
      scaling <- get_estimator g "scaling";;
      entropy <- get_estimator g "entropy";;
      Ret (VSteps [("embedder", embedder);
                   ("pca", batch_pca);
                   ("persistence", persistence);
                   ("scaling", scaling);
                   ("entropy", entropy)]));
    assign "topological_transfomer" (fun g =>
      steps <- get_steps g "steps";; Ret (VPipeline (Pipeline steps))) ].

Definition cell_features : list stmt :=
  [ assign "features" (fun g =>
      topological_transfomer <- get_pipeline g "topological_transfomer";;
      noisy_signals <- get_signals g "noisy_signals";;
      F <- pipeline_fit_transform topological_transfomer (asarray_2d noisy_signals);;
      Ret (VArray F)) ].

Definition cell_split : list stmt :=
  [ unpack ["X_train"; "X_valid"; "y_train"; "y_valid"] (fun g =>
      features <- get_array g "features";;
      labels <- get_labels g "labels";;
      '(X_train, X_valid, y_train, y_valid) <-
        call_ (train_test_split features labels (1 # 10) 42);;
      Ret [VArray X_train; VArray X_valid; VLabels y_train; VLabels y_valid]) ].

(** [predict_proba(X)[:, j]], on the array given by its rows.  The width
    of an array without rows is not represented: for it the result is the
    empty vector, which is what numpy returns when the array has more than
    [j] columns, as an array of class probabilities has for [j = 1]. *)
Definition column (j : Z) (rows : list (list Q)) : result (list Q) :=
  foldr (fun row acc =>
           match getitem row j, acc with
           | Ok v, Ok l => Ok (v :: l)
           | Err e, _ => Err e
           | _, Err e => Err e
           end) (Ok []) rows.

(** [print_scores(fitted_model)].  [X_train], [y_train], [X_valid] and
    [y_valid] are globals, read when the function is called; the items of
    the dict [res] are computed in the order in which they are written,
    all four before the first line is printed. *)
Definition print_scores (fitted_model : model) (g : globals) : prog unit :=
  X_train <- get_array g "X_train";;
  pred <- call_ (predict fitted_model X_train);;
  y_train <- get_labels g "y_train";;
  acc_train <- lift (metrics.accuracy_score pred y_train);;
  y_train <- get_labels g "y_train";;
  X_train <- get_array g "X_train";;
  proba <- call_ (predict_proba fitted_model X_train);;
  score <- lift (column 1 proba);;
  auc_train <- lift (metrics.roc_auc_score y_train score);;
  X_valid <- get_array g "X_valid";;
  pred <- call_ (predict fitted_model X_valid);;
  y_valid <- get_labels g "y_valid";;
  acc_valid <- lift (metrics.accuracy_score pred y_valid);;
  y_valid <- get_labels g "y_valid";;
  X_valid <- get_array g "X_valid";;
  proba <- call_ (predict_proba fitted_model X_valid);;
  score <- lift (column 1 proba);;
  auc_valid <- lift (metrics.roc_auc_score y_valid score);;
  let res := [ ("Accuracy on train:", acc_train);
               ("ROC AUC on train:", auc_train);
               ("Accuracy on valid:", acc_valid);
               ("ROC AUC on valid:", auc_valid) ] in
  for_each res (fun '(k, v) => call_ (print [PrStr k; PrFloat (round v 3)])).

(** [print_scores(model)] *)
Definition call_print_scores : stmt :=
  expr (fun g => model <- get_model g "model";; print_scores model g).

Definition cell_train : list stmt :=
  [ assign "model" (fun _ => Ret (VModel (Model (LogisticRegression []) None)));
    in_place "model" (fun g =>
      model <- get_model g "model";;
      X_train <- get_array g "X_train";;
      y_train <- get_labels g "y_train";;
      fitted <- call_ (fit model X_train y_train);; Ret (VModel fitted));
    call_print_scores ].

Definition notebook : list stmt :=
  cell_video_1 ++ cell_video_2 ++ cell_generate ++ cell_visualise ++
  cell_embed_gw ++ cell_pca_gw ++ cell_embed_noise ++ cell_pipeline ++
  cell_features ++ cell_split ++ cell_train.

(** ** The data generator *)

Module generate_datasets.

(** Modelled from the spec: what is drawn at random for one series, whether
    a gravitational wave is embedded ("with probability 0.5") and the
    Gaussian noise. *)
Record draw : Type := Draw { present : bool; noise : list Q }.

(** Modelled from the spec: the SNR range parameters give the values of
    the coefficient R, [n_snr_values] values from [r_min] to [r_max], taken
    in turn. *)
Definition snr_coefficient (r_min r_max : Q) (n_snr_values : Z) (j : nat) : Q :=
  if n_snr_values <=? 1 then r_min
  else (r_min + inject_Z (Z.of_nat j mod n_snr_values)
                * ((r_max - r_min) / inject_Z (n_snr_values - 1)))%Q.

(** Modelled from the spec: the notebook's text has epsilon = 10^-19. *)
Definition epsilon : Q := 1 # (10 ^ 19).

(** Modelled from the spec: the notebook's text has
    s = g + epsilon * (1 / R) * xi for a series with a wave; a series
    without is the noise alone. *)
Definition noisy_series (R : Q) (g : list Q) (d : draw) : list Q :=
  let scaled := map (fun xi => epsilon * (1 / R) * xi)%Q (noise d) in
  if present d then zip_with Qplus g scaled else scaled.

(** Modelled from the spec: "a binary label per series". *)
Definition label (d : draw) : Z := if present d then 1 else 0.

(** Modelled from the spec: [data/generate_datasets.py] is not among the
    sources.  The generator takes a path, a signal count and the SNR
    range parameters, and returns three parallel collections: the noisy
    time series, the ground-truth gravitational-wave signals and one
    binary label per series.  [reference] is the set of gravitational
    wave signals read under the path and [rnd] the random draws. *)
Definition make_gravitational_waves (reference : list (list Q)) (rnd : nat -> draw)
    (n_signals : Z) (r_min r_max : Q) (n_snr_values : Z)
    : result (list (list Q) * list (list Q) * list Z) :=
  match reference with
  | [] => Err (ValueError "no reference signal")
  | g0 :: _ =>
      let js := seq 0 (Z.to_nat n_signals) in
      let g j := nth (j mod length reference) reference g0 in
      Ok (map (fun j => noisy_series (snr_coefficient r_min r_max n_snr_values j) (g j) (rnd j)) js,
          map g js,
          map (fun j => label (rnd j)) js)
  end.

End generate_datasets.

(** What a library returns for the generator call is what the generator
    above returns, for some reference set and some random draws. *)
Definition implements_generator {W : Type}
    (lib : forall X : Type, call X -> W -> result X * W) : Prop :=
  forall path n r_min r_max k w out,
    fst (lib _ (make_gravitational_waves path n r_min r_max k) w) = Ok out ->
    exists reference rnd,
      generate_datasets.make_gravitational_waves reference rnd n r_min r_max k = Ok out.

(** ** A small executable library *)

(** A deterministic stand-in for the libraries, used to run the notebook
    on concrete data. *)
Module reference.

Record world : Type :=
  World { files : gmap string (list (list Q));
          seed : nat;
          stdout : list (list printable);
          shown : list rich;
          written : list (string * string) }.

Definition initial : world :=
  {| files := {[ "./data" := [[1; 2; 1; 0]; [0; 1; 2; 1]]%Q ]};
     seed := 0; stdout := []; shown := []; written := [] |}.

(** A world in which the data directory is missing. *)
Definition no_data : world :=
  {| files := ∅; seed := 0; stdout := []; shown := []; written := [] |}.

(** A fitted classifier and a namespace with a small split. *)
Definition fitted_model : model :=
  {| config := LogisticRegression []; learned := Some (Arr []) |}.

Definition small_split : gmap string value :=
  list_to_map
    [ ("X_train", VArray (Arr [Arr [Num 1]; Arr [Num 0]; Arr [Num (3 # 4)]; Arr [Num (1 # 4)]]));
      ("y_train", VLabels [1; 0; 0; 1]);
      ("X_valid", VArray (Arr [Arr [Num (1 # 3)]; Arr [Num (2 # 3)]]));
      ("y_valid", VLabels [0; 1]);
      ("model", VModel fitted_model) ].

Definition rnd (seed : nat) (j : nat) : generate_datasets.draw :=
  {| generate_datasets.present := Nat.odd (seed + j);
     generate_datasets.noise := [inject_Z (Z.of_nat j); 1; 0; 1]%Q |}.

Definition first_number (a : ndarray) : Q :=
  match a with
  | Arr (Num q :: _) => q
  | _ => 0%Q
  end.

Definition rows (a : ndarray) : list ndarray :=
  match a with
  | Arr l => l
  | Num _ => []
  end.

Definition lib (X : Type) (c : call X) (w : world) : result X * world :=
  match c in call X return result X * world with
  | display obj =>
      (Ok tt, {| files := files w; seed := seed w; stdout := stdout w;
                 shown := shown w ++ [obj]; written := written w |})
  | print args =>
      (Ok tt, {| files := files w; seed := seed w; stdout := stdout w ++ [args];
                 shown := shown w; written := written w |})
  | make_gravitational_waves path n r_min r_max k =>
      match files w !! path with
      | None => (Err (LibraryError "FileNotFoundError"), w)
      | Some ref =>
          (generate_datasets.make_gravitational_waves ref (rnd (seed w)) n r_min r_max k,
           {| files := files w; seed := S (seed w); stdout := stdout w;
              shown := shown w; written := written w |})
      end
  | make_subplots r c => (Ok (Subplots r c []), w)
  | add_trace fig tr row col =>
      match fig with
      | Subplots r c ts => (Ok (Subplots r c (ts ++ [(tr, row, col)])), w)
      | PointCloudPlot _ => (Err (LibraryError "no subplot grid"), w)
      end
  | show fig =>
      (Ok tt, {| files := files w; seed := seed w; stdout := stdout w;
                 shown := shown w ++ [ShownFigure fig]; written := written w |})
  | fit_transform est X =>
      match est with
      | LogisticRegression _ => (Err (LibraryError "not a transformer"), w)
      | _ => (Ok X, w)
      end
  | plot_point_cloud pc => (Ok (PointCloudPlot pc), w)
  | train_test_split X y test_size random_state =>
      let n := length y in
      let n_train := (n - Z.to_nat (Qceiling (test_size * inject_Z (Z.of_nat n))))%nat in
      (Ok (Arr (take n_train (rows X)), Arr (drop n_train (rows X)),
           take n_train y, drop n_train y), w)
  | fit m X y => (Ok {| config := config m; learned := Some X |}, w)
  | predict m X =>
      match learned m with
      | None => (Err (LibraryError "NotFittedError"), w)
      | Some _ =>
          (Ok (map (fun r => if Qle_bool (1 # 2) (first_number r) then 1 else 0) (rows X)), w)
      end
  | predict_proba m X =>
      match learned m with
      | None => (Err (LibraryError "NotFittedError"), w)
      | Some _ =>
          (Ok (map (fun r => [1 - first_number r; first_number r]%Q) (rows X)), w)
      end
  | open_write path content =>
      (Ok tt, {| files := files w; seed := seed w; stdout := stdout w;
                 shown := shown w; written := written w ++ [(path, content)] |})
  end.

End reference.

(** ** What a complete run consists of *)

(** What [print_scores] reads and computes when nothing raises. *)
Record scores : Type :=
  { X_train : ndarray; X_valid : ndarray; y_train : list Z; y_valid : list Z;
    pred_train : list Z; proba_train : list (list Q); score_train : list Q;
    acc_train : pyfloat; auc_train : pyfloat;
    pred_valid : list Z; proba_valid : list (list Q); score_valid : list Q;
    acc_valid : pyfloat; auc_valid : pyfloat }.

(** The answers of the libraries, and the results of the builtins, in a
    run of the notebook in which nothing raises. *)
Record answers : Type :=
  { noisy : list (list Q); gw : list (list Q); lab : list Z;
    first_series : list Q;
    background_idx : Z; signal_idx : Z;
    ts_noise : list Q; ts_background : list Q; ts_signal : list Q;
    fig0 : figure; fig1 : figure; fig2 : figure; fig3 : figure;
    gw0 : list Q; Y_gw : ndarray; Y_gw_pca : ndarray; plot_gw : figure;
    Y_noise : ndarray; Y_noise_pca : ndarray; plot_noise : figure;
    clouds : ndarray; clouds_pca : ndarray; diagrams : ndarray;
    scaled : ndarray; features : ndarray;
    fitted : model;
    sc : scores }.

Definition the_pipeline : pipeline :=
  Pipeline [ ("embedder", TakensEmbedding 10 200 10);
             ("pca", CollectionTransformer (PCA 3) (-1));
             ("persistence", VietorisRipsPersistence [0; 1] (-1));
             ("scaling", Scaler);
             ("entropy", PersistenceEntropy true (-10)) ].

Definition unfitted_model : model := Model (LogisticRegression []) None.

(** The metrics as [print_scores] computes them. *)
Definition scores_computed (s : scores) : Prop :=
  metrics.accuracy_score (pred_train s) (y_train s) = Ok (acc_train s) /\
  column 1 (proba_train s) = Ok (score_train s) /\
  metrics.roc_auc_score (y_train s) (score_train s) = Ok (auc_train s) /\
  metrics.accuracy_score (pred_valid s) (y_valid s) = Ok (acc_valid s) /\
  column 1 (proba_valid s) = Ok (score_valid s) /\
  metrics.roc_auc_score (y_valid s) (score_valid s) = Ok (auc_valid s).

(** The results of the builtins and of the numpy and sklearn.metrics
    functions. *)
Definition pure_results (r : answers) : Prop :=
  getitem (noisy r) 0 = Ok (first_series r) /\
  np.argmin (lab r) = Ok (background_idx r) /\
  np.argmax (lab r) = Ok (signal_idx r) /\
  getitem (noisy r) (background_idx r) = Ok (ts_noise r) /\
  getitem (noisy r) (signal_idx r) = Ok (ts_background r) /\
  getitem (gw r) (signal_idx r) = Ok (ts_signal r) /\
  getitem (gw r) 0 = Ok (gw0 r) /\
  scores_computed (sc r).

Definition generation_trace (r : answers) : list entry :=
  [ Entry (display (YouTubeVideo "Y3eR49ogsF0" 600 400)) (Ok tt);
    Entry (display (YouTubeVideo "QyDcTbR-kEA" 600 400)) (Ok tt);
    Entry (make_gravitational_waves "./data" 100 (65 # 100) (65 # 100) 1)
          (Ok (noisy r, gw r, lab r));
    Entry (print [PrFString [Lit "Number of noisy signals: "; FmtInt (len (noisy r))]]) (Ok tt);
    Entry (print [PrFString [Lit "Number of timesteps per series: ";
                             FmtInt (len (first_series r))]]) (Ok tt) ].

Definition visualisation_trace (r : answers) : list entry :=
  [ Entry (make_subplots 1 2) (Ok (fig0 r));
    Entry (add_trace (fig0 r) (line_trace (ts_noise r) "noise") 1 1) (Ok (fig1 r));
    Entry (add_trace (fig1 r) (line_trace (ts_background r) "background") 1 2) (Ok (fig2 r));
    Entry (add_trace (fig2 r) (line_trace (ts_signal r) "signal") 1 2) (Ok (fig3 r));
    Entry (show (fig3 r)) (Ok tt);
    Entry (fit_transform (SingleTakensEmbedding "search" 6 30 30 5) (asarray_1d (gw0 r)))
          (Ok (Y_gw r));
    Entry (fit_transform (PCA 3) (Y_gw r)) (Ok (Y_gw_pca r));
    Entry (plot_point_cloud (Y_gw_pca r)) (Ok (plot_gw r));
    Entry (display (ShownFigure (plot_gw r))) (Ok tt);
    Entry (fit_transform (SingleTakensEmbedding "search" 6 30 30 5) (asarray_1d (ts_noise r)))
          (Ok (Y_noise r));
    Entry (fit_transform (PCA 3) (Y_noise r)) (Ok (Y_noise_pca r));
    Entry (plot_point_cloud (Y_noise_pca r)) (Ok (plot_noise r));
    Entry (display (ShownFigure (plot_noise r))) (Ok tt) ].

Definition pipeline_trace (r : answers) : list entry :=
  [ Entry (fit_transform (TakensEmbedding 10 200 10) (asarray_2d (noisy r))) (Ok (clouds r));
    Entry (fit_transform (CollectionTransformer (PCA 3) (-1)) (clouds r)) (Ok (clouds_pca r));
    Entry (fit_transform (VietorisRipsPersistence [0; 1] (-1)) (clouds_pca r)) (Ok (diagrams r));
    Entry (fit_transform Scaler (diagrams r)) (Ok (scaled r));
    Entry (fit_transform (PersistenceEntropy true (-10)) (scaled r)) (Ok (features r)) ].

Definition training_trace (r : answers) : list entry :=
  [ Entry (train_test_split (features r) (lab r) (1 # 10) 42)
          (Ok (X_train (sc r), X_valid (sc r), y_train (sc r), y_valid (sc r)));
    Entry (fit unfitted_model (X_train (sc r)) (y_train (sc r))) (Ok (fitted r)) ].

Definition scoring_trace (m : model) (s : scores) : list entry :=
  [ Entry (predict m (X_train s)) (Ok (pred_train s));
    Entry (predict_proba m (X_train s)) (Ok (proba_train s));
    Entry (predict m (X_valid s)) (Ok (pred_valid s));
    Entry (predict_proba m (X_valid s)) (Ok (proba_valid s)) ].

Definition printed_lines (s : scores) : list (list printable) :=
  [ [PrStr "Accuracy on train:"; PrFloat (round (acc_train s) 3)];
    [PrStr "ROC AUC on train:"; PrFloat (round (auc_train s) 3)];
    [PrStr "Accuracy on valid:"; PrFloat (round (acc_valid s) 3)];
    [PrStr "ROC AUC on valid:"; PrFloat (round (auc_valid s) 3)] ].

Definition printing_trace (s : scores) : list entry :=
  map (fun line => Entry (print line) (Ok tt)) (printed_lines s).

Definition trace_of (r : answers) : list entry :=
  generation_trace r ++ visualisation_trace r ++ pipeline_trace r ++
  training_trace r ++ scoring_trace (fitted r) (sc r) ++ printing_trace (sc r).

(** The names bound when the notebook has run, with the objects they are
    bound to. *)
Definition namespace_of (r : answers) : list (string * value) :=
  [ ("R", VFloat (65 # 100)); ("n_signals", VInt 100); ("DATA", VPath "./data");
    ("noisy_signals", VSignals (noisy r)); ("gw_signals", VSignals (gw r));
    ("labels", VLabels (lab r));
    ("background_idx", VInt (background_idx r)); ("signal_idx", VInt (signal_idx r));
    ("ts_noise", VSeries (ts_noise r)); ("ts_background", VSeries (ts_background r));
    ("ts_signal", VSeries (ts_signal r)); ("fig", VFigure (fig3 r));
    ("embedding_dimension", VInt 200); ("embedding_time_delay", VInt 10);
    ("stride", VInt 10); ("embedder", VEstimator (TakensEmbedding 10 200 10));
    ("y_gw_embedded", VArray (Y_gw r)); ("pca", VEstimator (PCA 3));
    ("y_gw_embedded_pca", VArray (Y_gw_pca r));
    ("y_noise_embedded", VArray (Y_noise r));
    ("y_noise_embedded_pca", VArray (Y_noise_pca r));
    ("batch_pca", VEstimator (CollectionTransformer (PCA 3) (-1)));
    ("persistence", VEstimator (VietorisRipsPersistence [0; 1] (-1)));
    ("scaling", VEstimator Scaler);
    ("entropy", VEstimator (PersistenceEntropy true (-10)));
    ("steps", VSteps (steps the_pipeline));
    ("topological_transfomer", VPipeline the_pipeline);
    ("features", VArray (features r));
    ("X_train", VArray (X_train (sc r))); ("X_valid", VArray (X_valid (sc r)));
    ("y_train", VLabels (y_train (sc r))); ("y_valid", VLabels (y_valid (sc r)));
    ("model", VModel (fitted r)) ].

(** [g] binds the name [fst b] to the object [snd b]. *)
Definition binds (g : globals) (b : string * value) : Prop :=
  g !! fst b = Some (snd b).

(** ** Observations on runs *)

Definition outcome {A W : Type} (r : result A * W * list entry) : result A := fst (fst r).
Definition trace {A W : Type} (r : result A * W * list entry) : list entry := snd r.

(** The exception a step ended with, if it raised. *)
Definition raised (e : entry) : option exn :=
  match entry_result e with
  | Ok _ => None
  | Err x => Some x
  end.

(** A run returned. *)
Definition returns {A W : Type} (r : result A * W * list entry) : bool :=
  match outcome r with
  | Ok _ => true
  | Err _ => false
  end.

(** The namespace a run of statements ends with. *)
Definition final {W : Type} (r : result globals * W * list entry) : globals :=
  match outcome r with
  | Ok g => g
  | Err _ => ∅
  end.

(** [uses φ p]: the program [p] contains no [try]/[except], and every call
    it can make, whatever the libraries answer, satisfies [φ]. *)
Fixpoint uses (φ : forall X : Type, call X -> Prop) {A : Type} (p : prog A) : Prop :=
  match p with
  | Ret _ => True
  | Raise _ => True
  | Call c k => φ _ c /\ forall x, uses φ (k x)
  | TryExcept _ _ _ => False
  end.

Definition any_call (X : Type) (c : call X) : Prop := True.

Definition handler_free {A : Type} (p : prog A) : Prop := uses any_call p.

(** What a call does to the world outside the process. *)
Inductive effect : Type :=
| Computes
| Prints
| Plots
| ShowsVideo
| Reads (path : string)
| Writes (path : string).

Definition effect_of {X : Type} (c : call X) : effect :=
  match c with
  | display (YouTubeVideo _ _ _) => ShowsVideo
  | display (ShownFigure _) => Plots
  | show _ => Plots
  | print _ => Prints
  | make_gravitational_waves path _ _ _ _ => Reads path
  | open_write path _ => Writes path
  | _ => Computes
  end.

(** In memory, or printed text, or a displayed plot, or a read under
    [data]. *)
Definition printed_or_plotted (data : string) (e : effect) : Prop :=
  match e with
  | Computes | Prints | Plots => True
  | Reads path => path = data
  | ShowsVideo | Writes _ => False
  end.

(** In memory, or output -- printed text, a displayed plot, a displayed
    video --, or a read under [data]. *)
Definition in_memory_or_output (data : string) (e : effect) : Prop :=
  match e with
  | Computes | Prints | Plots | ShowsVideo => True
  | Reads path => path = data
  | Writes _ => False
  end.

(** The generator call as the notebook writes it. *)
Definition generator_call_as_written {X : Type} (c : call X) : Prop :=
  match c with
  | make_gravitational_waves path n r_min r_max k =>
      path = "./data" /\ n = 100 /\ r_min = (65 # 100)%Q /\ r_max = (65 # 100)%Q /\ k = 1
  | _ => True
  end.

Definition as_written (X : Type) (c : call X) : Prop :=
  in_memory_or_output "./data" (effect_of c) /\ generator_call_as_written c.

(** Calls that neither read nor write a file. *)
Definition quiet (X : Type) (c : call X) : Prop :=
  match effect_of c with
  | Writes _ | Reads _ => False
  | _ => True
  end.

(** What the generator returned, for each of its calls in a trace. *)
Definition generated (e : entry) : option (list (list Q) * list (list Q) * list Z) :=
  match entry_call e in call X return result X -> option _ with
  | make_gravitational_waves _ _ _ _ _ =>
      fun r => match r with Ok x => Some x | Err _ => None end
  | _ => fun _ => None
  end (entry_result e).

(** The estimators whose [fit_transform] was called, in order. *)
Definition fit_transformed (e : entry) : option estimator :=
  match entry_call e with
  | fit_transform est _ => Some est
  | _ => None
  end.

(** The lines printed, in order. *)
Definition printed (e : entry) : option (list printable) :=
  match entry_call e with
  | print args => Some args
  | _ => None
  end.

(** Calls that ask a fitted model for predictions, or print. *)
Definition observes (X : Type) (c : call X) : Prop :=
  match c with
  | predict _ _ | predict_proba _ _ | print _ => True
  | _ => False
  end.

(** ** The order of the operations *)

Inductive stage : Type :=
| Generation
| Embedding
| Pca
| Persistence
| EntropyScaling
| Split
| LogReg
| Plotting.

Fixpoint estimator_stage (est : estimator) : stage :=
  match est with
  | SingleTakensEmbedding _ _ _ _ _ | TakensEmbedding _ _ _ => Embedding
  | PCA _ => Pca
  | CollectionTransformer inner _ => estimator_stage inner
  | VietorisRipsPersistence _ _ => Persistence
  | Scaler | PersistenceEntropy _ _ => EntropyScaling
  | LogisticRegression _ => LogReg
  end.

(** The stage a call belongs to; printing, the videos and file writes are
    none of the stages. *)
Definition stage_of (e : entry) : option stage :=
  match entry_call e with
  | make_gravitational_waves _ _ _ _ _ => Some Generation
  | fit_transform est _ => Some (estimator_stage est)
  | train_test_split _ _ _ _ => Some Split
  | fit _ _ _ | predict _ _ | predict_proba _ _ => Some LogReg
  | make_subplots _ _ | add_trace _ _ _ _ | show _ | plot_point_cloud _ => Some Plotting
  | display (ShownFigure _) => Some Plotting
  | display (YouTubeVideo _ _ _) => None
  | print _ => None
  | open_write _ _ => None
  end.

Definition stage_eqb (a b : stage) : bool :=
  match a, b with
  | Generation, Generation | Embedding, Embedding | Pca, Pca
  | Persistence, Persistence | EntropyScaling, EntropyScaling
  | Split, Split | LogReg, LogReg | Plotting, Plotting => true
  | _, _ => false
  end.

(** Consecutive steps of the same stage count as one. *)
Fixpoint squash (l : list stage) : list stage :=
  match l with
  | a :: ((b :: _) as l') => if stage_eqb a b then squash l' else a :: squash l'
  | _ => l
  end.

Definition stages (t : list entry) : list stage := squash (omap stage_of t).

(** The order as the specification lists it. *)
Definition listed_order : list stage :=
  [Generation; Embedding; Pca; Persistence; EntropyScaling; Split; LogReg; Plotting].

(** The order in which the notebook proceeds. *)
Definition notebook_order : list stage :=
  [Generation; Plotting;
   Embedding; Pca; Plotting;
   Embedding; Pca; Plotting;
   Embedding; Pca; Persistence; EntropyScaling;
   Split; LogReg].

(** ** Labels and scores *)

Definition binary (l : Z) : Prop := l = 0 \/ l = 1.

(** The three collections are bound, have the same length, and every label
    is 0 or 1. *)
Definition parallel_binary (g : globals) : Prop :=
  exists noisy gw lab,
    g !! "noisy_signals" = Some (VSignals noisy) /\
    g !! "gw_signals" = Some (VSignals gw) /\
    g !! "labels" = Some (VLabels lab) /\
    length noisy = length gw /\ length gw = length lab /\
    Forall binary lab.

(** The statements up to and including the call of the generator. *)
Definition generation_point : nat := 6.

(** The selection of the visualisation cell is what its comments say:
    [background_idx] is a pure-noise series, [signal_idx] one with a wave. *)
Definition valid_selection (labels : list Z) (background_idx signal_idx : Z) : Prop :=
  getitem labels background_idx = Ok 0 /\ getitem labels signal_idx = Ok 1.

Definition in_unit_interval (v : pyfloat) : Prop :=
  match v with
  | Real q => (0 <= q <= 1)%Q
  | NaN => False
  end.

(** A statement leaves the binding of [x] as it is. *)
Definition preserves (x : string) (s : stmt) : Prop :=
  forall (W : Type) (lib : forall X : Type, call X -> W -> result X * W)
         (w : W) (g g' : globals) (w' : W) (t : list entry),
    run lib (s g) w = (Ok g', w', t) -> g' !! x = g !! x.

(** [print_scores] with the arguments of [accuracy_score] in the order of
    its signature, (y_true, y_pred). *)
Definition print_scores_conventional (fitted_model : model) (g : globals) : prog unit :=
  X_train <- get_array g "X_train";;
  pred <- call_ (predict fitted_model X_train);;
  y_train <- get_labels g "y_train";;
  acc_train <- lift (metrics.accuracy_score y_train pred);;
  y_train <- get_labels g "y_train";;
  X_train <- get_array g "X_train";;
  proba <- call_ (predict_proba fitted_model X_train);;
  score <- lift (column 1 proba);;
  auc_train <- lift (metrics.roc_auc_score y_train score);;
  X_valid <- get_array g "X_valid";;
  pred <- call_ (predict fitted_model X_valid);;
  y_valid <- get_labels g "y_valid";;
  acc_valid <- lift (metrics.accuracy_score y_valid pred);;
  y_valid <- get_labels g "y_valid";;
  X_valid <- get_array g "X_valid";;
  proba <- call_ (predict_proba fitted_model X_valid);;
  score <- lift (column 1 proba);;
  auc_valid <- lift (metrics.roc_auc_score y_valid score);;
  let res := [ ("Accuracy on train:", acc_train);
               ("ROC AUC on train:", auc_train);
               ("Accuracy on valid:", acc_valid);
               ("ROC AUC on valid:", auc_valid) ] in
  for_each res (fun '(k, v) => call_ (print [PrStr k; PrFloat (round v 3)])).

(** ** The ROC curve *)

(** Each point is, in both coordinates, at least the one before. *)
Fixpoint monotone (p : Z * Z) (l : list (Z * Z)) : Prop :=
  match l with
  | [] => True
  | q :: l' => fst p <= fst q /\ snd p <= snd q /\ monotone q l'
  end.

(** Abscissas do not decrease, ordinates are between 0 and 1. *)
Fixpoint ascending (x : Q) (l : list (Q * Q)) : Prop :=
  match l with
  | [] => True
  | (x', y') :: l' => (x <= x')%Q /\ (0 <= y' <= 1)%Q /\ ascending x' l'
  end.

(** A point of the curve as rates: false positives over negatives, true
    positives over positives. *)
Definition scale (N P : Z) (p : Z * Z) : Q * Q :=
  (inject_Z (fst p) / inject_Z N, inject_Z (snd p) / inject_Z P)%Q.

(** A printed score is between 0 and 1. *)
Definition score_printed (a : printable) : Prop :=
  match a with
  | PrFloat v => in_unit_interval v
  | _ => True
  end.

(** ** First occurrences *)

(** [r] is the first index at which the least value of [a] occurs. *)
Definition first_index_of_min (a : list Z) (r : nat) : Prop :=
  exists m, a !! r = Some m /\ Forall (fun x => m <= x) a /\
            forall j y, (j < r)%nat -> a !! j = Some y -> m < y.

(** [r] is the first index at which the greatest value of [a] occurs. *)
Definition first_index_of_max (a : list Z) (r : nat) : Prop :=
  exists m, a !! r = Some m /\ Forall (fun x => x <= m) a /\
            forall j y, (j < r)%nat -> a !! j = Some y -> y < m.

(** ** What a call of [print_scores] shows *)

(** [v'] is [v] rounded to 3 decimal places: a multiple of 1/1000 at most
    1/2000 away from [v].  On a tie either neighbour is. *)
Definition rounded_3 (v v' : pyfloat) : Prop :=
  match v with
  | Real q =>
      exists n : Z,
        v' = Real (inject_Z n / 1000)%Q /\ (Qabs (q - inject_Z n / 1000) <= 1 # 2000)%Q
  | NaN => v' = NaN
  end.

(** The four lines of [print_scores], for the four values. *)
Definition score_lines (acc_train auc_train acc_valid auc_valid : pyfloat)
    : list (list printable) :=
  [ [PrStr "Accuracy on train:"; PrFloat acc_train];
    [PrStr "ROC AUC on train:"; PrFloat auc_train];
    [PrStr "Accuracy on valid:"; PrFloat acc_valid];
    [PrStr "ROC AUC on valid:"; PrFloat auc_valid] ].

(** Prints that returned. *)
Definition prints_of (lines : list (list printable)) : list entry :=
  map (fun line => Entry (print line) (Ok tt)) lines.

(** The run [t] of a call of [print_scores] on the model [m] in the
    namespace [g]: four requests for predictions to [m], on the arrays
    bound to [X_train] and [X_valid]; then four prints, of the accuracy and
    of the ROC AUC on train and on valid, computed from the answers to
    these requests and from the labels bound to [y_train] and [y_valid],
    each rounded to 3 decimal places. *)
Definition observed_scores (m : model) (g : globals) (t : list entry) : Prop :=
  exists (s : scores) (a b c d : pyfloat),
    t = scoring_trace m s ++ prints_of (score_lines a b c d) /\
    Forall (binds g) [ ("X_train", VArray (X_train s)); ("y_train", VLabels (y_train s));
                       ("X_valid", VArray (X_valid s)); ("y_valid", VLabels (y_valid s)) ] /\
    scores_computed s /\
    rounded_3 (acc_train s) a /\ rounded_3 (auc_train s) b /\
    rounded_3 (acc_valid s) c /\ rounded_3 (auc_valid s) d.

(** ** The sequence of the calls *)

(** A call without the data it is applied to: the library function, and
    the estimator, the name and the place of the curve, or the video. *)
Inductive operation : Type :=
| OVideo (id : string)
| ODisplayFigure
| OPrint
| OGenerate
| OMakeSubplots
| OAddTrace (name : string) (row col : Z)
| OShow
| OFitTransform (est : estimator)
| OPlotPointCloud
| OSplit
| OFit
| OPredict
| OPredictProba
| OWrite.

Definition operation_of {X : Type} (c : call X) : operation :=
  match c with
  | display (YouTubeVideo id _ _) => OVideo id
  | display (ShownFigure _) => ODisplayFigure
  | print _ => OPrint
  | make_gravitational_waves _ _ _ _ _ => OGenerate
  | make_subplots _ _ => OMakeSubplots
  | add_trace _ tr row col => OAddTrace (name tr) row col
  | show _ => OShow
  | fit_transform est _ => OFitTransform est
  | plot_point_cloud _ => OPlotPointCloud
  | train_test_split _ _ _ _ => OSplit
  | fit _ _ _ => OFit
  | predict _ _ => OPredict
  | predict_proba _ _ => OPredictProba
  | open_write _ _ => OWrite
  end.

(** The operations of a run, in order. *)
Definition operations (t : list entry) : list operation :=
  map (fun e => operation_of (entry_call e)) t.

(** The calls that the cells make, read from top to bottom. *)
Definition notebook_operations : list operation :=
  [ OVideo "Y3eR49ogsF0"; OVideo "QyDcTbR-kEA";
    OGenerate; OPrint; OPrint;
    OMakeSubplots; OAddTrace "noise" 1 1; OAddTrace "background" 1 2;
    OAddTrace "signal" 1 2; OShow;
    OFitTransform (SingleTakensEmbedding "search" 6 30 30 5); OFitTransform (PCA 3);
    OPlotPointCloud; ODisplayFigure;
    OFitTransform (SingleTakensEmbedding "search" 6 30 30 5); OFitTransform (PCA 3);
    OPlotPointCloud; ODisplayFigure;
    OFitTransform (TakensEmbedding 10 200 10);
    OFitTransform (CollectionTransformer (PCA 3) (-1));
    OFitTransform (VietorisRipsPersistence [0; 1] (-1));
    OFitTransform Scaler;
    OFitTransform (PersistenceEntropy true (-10));
    OSplit; OFit;
    OPredict; OPredictProba; OPredict; OPredictProba;
    OPrint; OPrint; OPrint; OPrint ].

(** [follows l p]: the program [p] contains no [try]/[except], and
    whatever the libraries answer, the calls that it makes are, one after
    the other, the operations of [l], from the first one on. *)
Fixpoint follows (l : list operation) {A : Type} (p : prog A) {struct p} : Prop :=
  match p with
  | Ret _ => True
  | Raise _ => True
  | Call c k =>
      match l with
      | [] => False
      | o :: l' => operation_of c = o /\ forall x, follows l' (k x)
      end
  | TryExcept _ _ _ => False
  end.

(** ** The exceptions of the notebook's own operations *)

(** [raises P p]: the program [p] contains no [try]/[except], and every
    exception that it raises itself, whatever the libraries answer,
    satisfies [P]. *)
Fixpoint raises (P : exn -> Prop) {A : Type} (p : prog A) : Prop :=
  match p with
  | Ret _ => True
  | Raise e => P e
  | Call c k => forall x, raises P (k x)
  | TryExcept _ _ _ => False
  end.

(** The exceptions of indexing, and of numpy and sklearn.metrics on data
    they are not defined for. *)
Definition index_or_value_error (e : exn) : Prop :=
  match e with
  | IndexError _ | ValueError _ => True
  | _ => False
  end.

(** ** Predictions and printed lines *)

(** A line is printed: the call, whether or not it returns. *)
Definition is_print (e : entry) : Prop := printed e <> None.

(** Exactly two classes occur in [y]. *)
Definition two_classes (y : list Z) : Prop := length (metrics.distinct y) = 2%nat.

(** The library answers the requests for the predictions of [m] on [X]
    with one label, and one row of at least two probabilities, for each of
    [n] samples. *)
Definition predicts {W : Type} (lib : forall X : Type, call X -> W -> result X * W)
    (m : model) (X : ndarray) (n : nat) : Prop :=
  forall w : W,
    (exists p, fst (lib _ (predict m X) w) = Ok p /\ length p = n) /\
    (exists P, fst (lib _ (predict_proba m X) w) = Ok P /\ length P = n /\
               Forall (fun row => (2 <= length row)%nat) P).

(** [print] does not raise. *)
Definition print_returns {W : Type} (lib : forall X : Type, call X -> W -> result X * W) : Prop :=
  forall (args : list printable) (w : W), fst (lib _ (print args) w) = Ok tt.

(** The two lines that the generation cell prints. *)
Definition count_lines (n_series n_timesteps : Z) : list (list printable) :=
  [ [PrFString [Lit "Number of noisy signals: "; FmtInt n_series]];
    [PrFString [Lit "Number of timesteps per series: "; FmtInt n_timesteps]] ].

(** ** Curves *)

(** A curve is plotted against the index of its samples: as many
    abscissas as ordinates, the abscissas being 0, 1, 2, ... *)
Definition indexed (tr : Scatter) : Prop :=
  length (x tr) = length (y tr) /\
  forall i : nat, (i < length (y tr))%nat -> x tr !! i = Some (Z.of_nat i).

(** The curves added to a figure are lines over the sample index. *)
Definition adds_indexed_lines (X : Type) (c : call X) : Prop :=
  match c with
  | add_trace _ tr _ _ => indexed tr /\ mode tr = "lines"
  | _ => True
  end.

(** ** Cells *)

(** The number of statements up to and including the two prints of the
    generation cell. *)
Definition after_counts : nat := 8.

(** The number of statements up to and including the first statement of
    the visualisation cell, [background_idx = np.argmin(labels)]. *)
Definition after_argmin : nat := 9.

(** The cells that start from data of earlier cells, each with the first
    name that it reads. *)
Definition first_reads : list (list stmt * string) :=
  [ (cell_visualise, "labels");
    (cell_embed_gw, "gw_signals");
    (cell_pca_gw, "y_gw_embedded");
    (cell_features, "topological_transfomer");
    (cell_split, "features");
    (cell_train, "X_train") ].

(** ** Libraries, and the shape of their answers *)

(** The libraries [lib], except that the generator returns [out]. *)
Definition with_generated {W : Type} (out : list (list Q) * list (list Q) * list Z)
    (lib : forall X : Type, call X -> W -> result X * W)
    (X : Type) (c : call X) (w : W) : result X * W :=
  match c in call X return result X * W -> result X * W with
  | make_gravitational_waves _ _ _ _ _ => fun _ => (Ok out, w)
  | _ => fun r => r
  end (lib X c w).

(** The number of samples of an array: the length of its first axis. *)
Definition n_samples (a : ndarray) : nat :=
  match a with
  | Arr items => length items
  | Num _ => 0
  end.

(** An answer of the shape that the notebook relies on: the generator
    returns three collections of the same length, not empty;
    [train_test_split] returns as many labels as samples on each side, and
    both classes on each side; [predict] returns one label, and
    [predict_proba] one row of at least two probabilities, for every
    sample.  Nothing is asked of the other answers. *)
Definition well_shaped (e : entry) : Prop :=
  match entry_call e in call X return result X -> Prop with
  | make_gravitational_waves _ _ _ _ _ => fun r =>
      match r with
      | Ok (noisy, gw, lab) =>
          lab <> [] /\ length noisy = length lab /\ length gw = length lab
      | Err _ => True
      end
  | train_test_split _ _ _ _ => fun r =>
      match r with
      | Ok (X_tr, X_va, y_tr, y_va) =>
          two_classes y_tr /\ two_classes y_va /\
          n_samples X_tr = length y_tr /\ n_samples X_va = length y_va
      | Err _ => True
      end
  | predict _ X => fun r =>
      match r with
      | Ok p => length p = n_samples X
      | Err _ => True
      end
  | predict_proba _ X => fun r =>
      match r with
      | Ok P => length P = n_samples X /\ Forall (fun row => (2 <= length row)%nat) P
      | Err _ => True
      end
  | _ => fun _ => True
  end (entry_result e).

(** The call returned, with an answer that is [well_shaped]: decided. *)
Definition answered_in_shape (e : entry) : bool :=
  match entry_call e in call X return result X -> bool with
  | make_gravitational_waves _ _ _ _ _ => fun r =>
      match r with
      | Ok (noisy, gw, lab) =>
          negb (length lab =? 0)%nat && (length noisy =? length lab)%nat
          && (length gw =? length lab)%nat
      | Err _ => false
      end
  | train_test_split _ _ _ _ => fun r =>
      match r with
      | Ok (X_tr, X_va, y_tr, y_va) =>
          (length (metrics.distinct y_tr) =? 2)%nat && (length (metrics.distinct y_va) =? 2)%nat
          && (n_samples X_tr =? length y_tr)%nat && (n_samples X_va =? length y_va)%nat
      | Err _ => false
      end
  | predict _ X => fun r =>
      match r with
      | Ok p => (length p =? n_samples X)%nat
      | Err _ => false
      end
  | predict_proba _ X => fun r =>
      match r with
      | Ok P => (length P =? n_samples X)%nat && forallb (fun row => (2 <=? length row)%nat) P
      | Err _ => false
      end
  | _ => fun r => match r with Ok _ => true | Err _ => false end
  end (entry_result e).

(** ** The namespace a run starts from *)

(** The bindings [l], the latest first, made in the namespace [g]. *)
Definition inserts (l : list (string * value)) (g : globals) : globals :=
  foldr (fun b acc => <[fst b := snd b]> acc) g l.

(** The latest binding of [x] in [l]. *)
Fixpoint assoc (x : string) (l : list (string * value)) : option value :=
  match l with
  | [] => None
  | (y, v) :: l' => if String.eqb x y then Some v else assoc x l'
  end.

(** Two programs that make the same calls and raise the same exceptions,
    and return results related by [R]. *)
Inductive sim {A B : Type} (R : A -> B -> Prop) : prog A -> prog B -> Prop :=
| sim_Ret (a : A) (b : B) : R a b -> sim R (Ret a) (Ret b)
| sim_Raise (e : exn) : sim R (Raise e) (Raise e)
| sim_Call (X : Type) (c : call X) (k : X -> prog A) (k' : X -> prog B) :
    (forall x : X, sim R (k x) (k' x)) -> sim R (Call c k) (Call c k').

(** The same bindings, made in [g] and in the empty namespace. *)
Definition same_bindings (g : globals) (g1 g0 : globals) : Prop :=
  exists l, g1 = inserts l g /\ g0 = inserts l ∅.

(** * Properties *)

(** ** Symbolic execution *)

Ltac expose H :=
  unfold notebook, cell_video_1, cell_video_2, cell_generate, cell_visualise,
    cell_embed_gw, cell_pca_gw, cell_embed_noise, cell_pipeline, cell_features,
    cell_split, cell_train, call_print_scores, new_single_embedder in H;
  unfold print_scores, pipeline_fit_transform,
    get_int, get_float, get_path, get_signals, get_series, get_labels, get_array,
    get_estimator, get_steps, get_pipeline, get_model, get_figure in H.

(** Reads of names in a namespace whose names are all known. *)
Ltac eval_loads H :=
  repeat match type of H with
  | context [load ?p ?k ?g ?x] =>
      let r := eval vm_compute in (load p k g x) in
      change (load p k g x) with r in H
  end.

Ltac reduce H :=
  cbn [bind lift call_ assign unpack expr cell_value in_place exec for_each
       fit_transform_steps bind_names app run steps] in H.

Ltac simp H := repeat (progress (eval_loads H; reduce H)).

(** One step of a run that does not raise: the next library call, or the
    next builtin, returns. *)
Ltac step lib H :=
  simp H;
  match type of H with
  | context [lib ?X ?c ?w] =>
      destruct (lib X c w) as [[?|?] ?] eqn:?; [ | discriminate H]
  | context [match ?v with pair _ _ => _ end] => is_var v; destruct v
  | context [lift ?r] => destruct r eqn:?; [ | discriminate H]
  end.

Lemma Ok_inj {A : Type} (a b : A) : Ok a = Ok b -> a = b.
Proof. intros [= ->]. reflexivity. Qed.

(** The outcome, the namespace and the trace of a run that returned. *)
Ltac finished H :=
  repeat match goal with u : unit |- _ => destruct u end;
  let Ht := fresh "Ht" in
  let Hg := fresh "Hg" in
  pose proof (f_equal snd H) as Ht; cbn [snd] in Ht;
  pose proof (f_equal (fun x => fst (fst x)) H) as Hg; cbn [snd fst] in Hg;
  clear H;
  repeat match goal with E : Ok _ = Ok _ |- _ => apply Ok_inj in E end;
  subst.

(** A run of the whole notebook in which nothing raises: its trace and the
    final namespace, in terms of the answers it received. *)
Lemma notebook_run {W : Type} (lib : forall X : Type, call X -> W -> result X * W)
    (w : W) (g : globals) (w' : W) (t : list entry) :
  run lib (exec notebook ∅) w = (Ok g, w', t) ->
  exists r : answers,
    t = trace_of r /\ Forall (binds g) (namespace_of r) /\ pure_results r.
Proof.
  intros H. expose H.
  repeat step lib H. simp H.
  finished H.
  unshelve eexists;
    [econstructor; try match goal with |- scores => econstructor end; shelve | ].
  split; [reflexivity | split].
  - repeat constructor; vm_compute; exact eq_refl.
  - unfold pure_results, scores_computed; cbn; repeat split; eassumption.
Qed.

(** ** Programs and runs *)

Lemma run_bind {W A B : Type} (lib : forall X : Type, call X -> W -> result X * W)
    (p : prog A) (f : A -> prog B) (w : W) :
  run lib (bind p f) w =
  match run lib p w with
  | (Ok a, w1, t1) => let '(o, w2, t2) := run lib (f a) w1 in (o, w2, t1 ++ t2)
  | (Err e, w1, t1) => (Err e, w1, t1)
  end.
Proof.
  revert B f w. induction p as [A a | A e | A X c k IH | A C body IHb h IHh k IHk];
    intros B f w; cbn [bind run].
  - destruct (run lib (f a) w) as [[o w2] t2]. reflexivity.
  - reflexivity.
  - destruct (lib X c w) as [[x | e] w1]; [ | reflexivity].
    rewrite IH. destruct (run lib (k x) w1) as [[[a | e] w2] t2]; [ | reflexivity].
    destruct (run lib (f a) w2) as [[o w3] t3]. reflexivity.
  - destruct (run lib body w) as [[[b | e] w1] t1].
    + rewrite IHk. destruct (run lib (k b) w1) as [[[a | e] w2] t2]; [ | reflexivity].
      destruct (run lib (f a) w2) as [[o w3] t3]. rewrite app_assoc. reflexivity.
    + destruct (run lib (h e) w1) as [[[b | e'] w2] t2]; [ | reflexivity].
      rewrite IHk. destruct (run lib (k b) w2) as [[[a | e'] w3] t3]; [ | reflexivity].
      destruct (run lib (f a) w3) as [[o w4] t4]. rewrite !app_assoc. reflexivity.
Qed.

Lemma run_exec_app {W : Type} (lib : forall X : Type, call X -> W -> result X * W)
    (l1 l2 : list stmt) (g : globals) (w : W) :
  run lib (exec (l1 ++ l2) g) w =
  match run lib (exec l1 g) w with
  | (Ok g1, w1, t1) => let '(o, w2, t2) := run lib (exec l2 g1) w1 in (o, w2, t1 ++ t2)
  | (Err e, w1, t1) => (Err e, w1, t1)
  end.
Proof.
  revert g w. induction l1 as [|s l1 IH]; intros g w; cbn [app exec].
  - cbn [run]. destruct (run lib (exec l2 g) w) as [[o w2] t2]. reflexivity.
  - rewrite !run_bind. destruct (run lib (s g) w) as [[[g1 | e] w1] t1]; [ | reflexivity].
    rewrite IH. destruct (run lib (exec l1 g1) w1) as [[[g2 | e] w2] t2]; [ | reflexivity].
    destruct (run lib (exec l2 g2) w2) as [[o w3] t3]. rewrite app_assoc. reflexivity.
Qed.

Lemma uses_bind φ {A B : Type} (p : prog A) (f : A -> prog B) :
  uses φ p -> (forall a, uses φ (f a)) -> uses φ (bind p f).
Proof.
  revert B f. induction p as [A a | A e | A X c k IH | A C body IHb h IHh k IHk];
    intros B f Hp Hf; cbn [bind uses] in *; auto.
  destruct Hp as [Hc Hk]. split; auto.
Qed.

(** What follows a program that uses [φ] may be replaced. *)
Lemma uses_bind_mono φ {A B : Type} (p : prog A) (f f' : A -> prog B) :
  uses φ (bind p f) -> (forall a, uses φ (f a) -> uses φ (f' a)) -> uses φ (bind p f').
Proof.
  revert B f f'. induction p as [A a | A e | A X c k IH | A C body IHb h IHh k IHk];
    intros B f f' Hp Hf; cbn [bind uses] in *; auto.
  destruct Hp as [Hc Hk]. split; [exact Hc | ]. intros x. eapply IH; eauto.
Qed.

Lemma uses_load φ {A : Type} (proj : value -> option A) kind (g : globals) x :
  uses φ (load proj kind g x).
Proof.
  unfold load. destruct (g !! x) as [v|]; [destruct (proj v)|]; exact I.
Qed.

Lemma uses_lift φ {A : Type} (r : result A) : uses φ (lift r).
Proof. destruct r; exact I. Qed.

Lemma uses_call_ (φ : forall X : Type, call X -> Prop) {X : Type} (c : call X) :
  φ X c -> uses φ (call_ c).
Proof. intros H. split; [exact H | intros; exact I]. Qed.

Lemma uses_exec φ (ss : list stmt) :
  Forall (fun s : stmt => forall g, uses φ (s g)) ss -> forall g, uses φ (exec ss g).
Proof.
  induction 1 as [|s ss Hs _ IH]; intros g; cbn [exec].
  - exact I.
  - apply uses_bind; auto.
Qed.

Lemma uses_exec_app φ (l1 l2 : list stmt) (g : globals) :
  uses φ (exec l1 g) -> (forall g', uses φ (exec l2 g')) -> uses φ (exec (l1 ++ l2) g).
Proof.
  revert g. induction l1 as [|s l1 IH]; intros g H1 H2; cbn [app exec] in *.
  - apply H2.
  - eapply uses_bind_mono; [exact H1 | ]. intros g' Hg'. cbn beta in *. auto.
Qed.

Lemma uses_fit_transform_steps (φ : forall X : Type, call X -> Prop) l X :
  (forall est Y, φ _ (fit_transform est Y)) -> uses φ (fit_transform_steps l X).
Proof.
  intros H. revert X. induction l as [|[n est] l IH]; intros X; cbn [fit_transform_steps].
  - exact I.
  - apply uses_bind; [apply uses_call_, H | apply IH].
Qed.

Lemma uses_for_each φ {A : Type} (l : list A) (body : A -> prog unit) :
  (forall a, uses φ (body a)) -> uses φ (for_each l body).
Proof.
  intros H. induction l; cbn [for_each]; [exact I | apply uses_bind; auto].
Qed.

(** A call of a program that has no handler, whatever it is, is in the
    trace of every run. *)
Lemma uses_trace φ {W A : Type} (lib : forall X : Type, call X -> W -> result X * W)
    (p : prog A) (w : W) :
  uses φ p -> Forall (fun e => φ _ (entry_call e)) (trace (run lib p w)).
Proof.
  revert w. induction p as [A a | A e | A X c k IH | A C body IHb h IHh k IHk];
    intros w Hp; cbn [uses run] in *.
  - constructor.
  - constructor.
  - destruct Hp as [Hc Hk]. destruct (lib X c w) as [[x | e] w1].
    + specialize (IH x w1 (Hk x)). destruct (run lib (k x) w1) as [[o w2] t].
      constructor; [exact Hc | exact IH].
    + constructor; [exact Hc | constructor].
  - destruct Hp.
Qed.

(** In a program without handler, a step that raises ends the run, with
    the exception it raised. *)
Lemma uses_propagate φ {W A : Type} (lib : forall X : Type, call X -> W -> result X * W)
    (p : prog A) (w : W) (i : nat) (e : exn) :
  uses φ p ->
  trace (run lib p w) !! i ≫= raised = Some e ->
  outcome (run lib p w) = Err e /\ S i = length (trace (run lib p w)).
Proof.
  revert w i. induction p as [A a | A e' | A X c k IH | A C body IHb h IHh k IHk];
    intros w i Hp Hi; cbn [uses run] in *.
  - discriminate Hi.
  - discriminate Hi.
  - destruct Hp as [Hc Hk]. destruct (lib X c w) as [[x | e'] w1].
    + specialize (IH x w1). destruct (run lib (k x) w1) as [[o w2] t].
      destruct i as [|i]; [discriminate Hi | ].
      destruct (IH i (Hk x) Hi) as [Ho Hl]. split; [exact Ho | ].
      cbn in *. congruence.
    + destruct i as [|i]; [ | discriminate Hi].
      cbn in Hi. injection Hi as ->. split; reflexivity.
  - destruct Hp.
Qed.

(** In a program without handler, a run that returns has no failed step. *)
Lemma uses_returned φ {W A : Type} (lib : forall X : Type, call X -> W -> result X * W)
    (p : prog A) (w : W) (a : A) :
  uses φ p -> outcome (run lib p w) = Ok a ->
  Forall (fun e => raised e = None) (trace (run lib p w)).
Proof.
  revert w. induction p as [A a' | A e' | A X c k IH | A C body IHb h IHh k IHk];
    intros w Hp Ho; cbn [uses run] in *.
  - constructor.
  - constructor.
  - destruct Hp as [Hc Hk]. destruct (lib X c w) as [[x | e'] w1].
    + specialize (IH x a w1 (Hk x)). destruct (run lib (k x) w1) as [[o w2] t].
      constructor; [reflexivity | apply IH, Ho].
    + discriminate Ho.
  - destruct Hp.
Qed.

Ltac uses_step :=
  match goal with
  | |- uses _ (bind _ _) => apply uses_bind; [ | intros ]
  | |- uses _ (load _ _ _ _) => apply uses_load
  | |- uses _ (lift _) => apply uses_lift
  | |- uses _ (call_ _) => apply uses_call_
  | |- uses _ (Ret _) => exact I
  | |- uses _ (fit_transform_steps _ _) => apply uses_fit_transform_steps; intros
  | |- uses _ (for_each _ _) => apply uses_for_each; intros
  | |- uses _ (match ?a with pair _ _ => _ end) => destruct a
  end.

(** What a displayed value is decides the effect of displaying it. *)
Ltac by_display :=
  unfold quiet;
  try match goal with
      | |- context [effect_of (display ?r)] => destruct r
      end.

Ltac uses_stmt :=
  intros;
  unfold call_print_scores, in_place, new_single_embedder;
  unfold assign, unpack, expr, cell_value, print_scores,
    pipeline_fit_transform,
    get_int, get_float, get_path, get_signals, get_series, get_labels, get_array,
    get_estimator, get_steps, get_pipeline, get_model, get_figure;
  repeat uses_step.

(** Every statement of the notebook, in every namespace, is free of
    handlers and makes no call that writes a file. *)
Lemma notebook_statements (φ : forall X : Type, call X -> Prop) :
  (forall X (c : call X),
     match effect_of c with Writes _ => False | _ => True end -> φ X c) ->
  Forall (fun s : stmt => forall g, uses φ (s g)) notebook.
Proof.
  intros Hφ.
  unfold notebook, cell_video_1, cell_video_2, cell_generate, cell_visualise,
    cell_embed_gw, cell_pca_gw, cell_embed_noise, cell_pipeline, cell_features,
    cell_split, cell_train.
  cbn [app].
  repeat (constructor;
    [solve [uses_stmt;
            try (apply Hφ; by_display; exact I)] | ]).
  constructor.
Qed.

(** ** The statements after the generation *)

Ltac expose_notebook :=
  unfold generation_point, notebook, cell_video_1, cell_video_2, cell_generate,
    cell_visualise, cell_embed_gw, cell_pca_gw, cell_embed_noise, cell_pipeline,
    cell_features, cell_split, cell_train;
  cbn [app firstn skipn].

(** After the generation no statement calls the generator or writes. *)
Lemma later_statements (φ : forall X : Type, call X -> Prop) :
  (forall X (c : call X), quiet X c -> φ X c) ->
  Forall (fun s : stmt => forall g, uses φ (s g)) (drop generation_point notebook).
Proof.
  intros Hφ. expose_notebook.
  repeat (constructor;
    [solve [uses_stmt;
            try (apply Hφ; by_display; exact I)] | ]).
  constructor.
Qed.

Ltac eval_loads_goal :=
  repeat match goal with
  | |- context [load ?p ?k ?g ?x] =>
      let r := eval vm_compute in (load p k g x) in
      change (load p k g x) with r
  end.

Ltac reduce_goal :=
  cbn [bind lift call_ assign unpack expr cell_value in_place exec for_each
       fit_transform_steps bind_names app uses steps].

(** Up to the generation: the two videos are displayed and the generator
    is called as written. *)
Lemma first_statements : uses as_written (exec (take generation_point notebook) ∅).
Proof.
  expose_notebook.
  unfold get_int, get_float, get_path, get_signals.
  repeat (progress (eval_loads_goal; reduce_goal)).
  split; [repeat split | intros []].
  split; [repeat split | intros []].
  split; [repeat split | intros [[noisy gw] lab]].
  exact I.
Qed.

Lemma notebook_as_written : uses as_written (exec notebook ∅).
Proof.
  rewrite <- (take_drop generation_point notebook).
  apply uses_exec_app; [exact first_statements | ].
  apply uses_exec, later_statements.
  intros X c Hc. destruct c; try destruct Hc; repeat split.
  by_display; exact I.
Qed.

Lemma returns_run {A W : Type} (r : result A * W * list entry) :
  returns r = true -> exists a, r = (Ok a, snd (fst r), trace r).
Proof.
  destruct r as [[[a | e] w] t]; [ | discriminate]. intros _. exists a. reflexivity.
Qed.

Lemma final_run {W : Type} (g : globals) (w : W) (t : list entry) :
  final (Ok g, w, t) = g.
Proof. reflexivity. Qed.

Lemma generator_parallel reference rnd n r_min r_max k noisy gw lab :
  generate_datasets.make_gravitational_waves reference rnd n r_min r_max k
  = Ok (noisy, gw, lab) ->
  length noisy = Z.to_nat n /\ length gw = Z.to_nat n /\ length lab = Z.to_nat n /\
  Forall binary lab.
Proof.
  unfold generate_datasets.make_gravitational_waves.
  destruct reference as [|g0 reference]; [discriminate | ].
  intros [= <- <- <-]. rewrite !length_map, !length_seq.
  repeat split. apply Forall_forall. intros l Hl.
  apply list_elem_of_In, in_map_iff in Hl. destruct Hl as (j & <- & _).
  unfold generate_datasets.label, binary. destruct (generate_datasets.present (rnd j)); auto.
Qed.

(** C2. The generator is called with the data path, the number of signals
    and the SNR range parameters ([r_min], [r_max], [n_snr_values]), once
    in a run that returns, and its result is unpacked into the three names;
    what the generator returns are three collections of the same length. *)
Theorem C2_generator_call :
  (forall (W : Type) (lib : forall X : Type, call X -> W -> result X * W) (w : W),
     Forall (fun e => generator_call_as_written (entry_call e))
            (trace (run lib (exec notebook ∅) w))) /\
  (forall (W : Type) (lib : forall X : Type, call X -> W -> result X * W) (w : W),
     returns (run lib (exec notebook ∅) w) = true ->
     exists noisy gw lab,
       omap generated (trace (run lib (exec notebook ∅) w)) = [(noisy, gw, lab)] /\
       Forall (binds (final (run lib (exec notebook ∅) w)))
              [ ("noisy_signals", VSignals noisy);
                ("gw_signals", VSignals gw);
                ("labels", VLabels lab) ]) /\
  (forall reference rnd n r_min r_max k noisy gw lab,
     generate_datasets.make_gravitational_waves reference rnd n r_min r_max k
     = Ok (noisy, gw, lab) ->
     length noisy = length gw /\ length gw = length lab).
Proof.
  split; [ | split].
  - intros W lib w.
    eapply Forall_impl; [apply (uses_trace as_written), notebook_as_written | ].
    intros e [_ He]. exact He.
  - intros W lib w Hret.
    destruct (returns_run _ Hret) as [g Hrun].
    destruct (notebook_run lib w g _ _ Hrun) as (r & Ht & Hg & _).
    rewrite Hrun, final_run. cbn [trace snd]. rewrite Ht.
    exists (noisy r), (gw r), (lab r). split; [reflexivity | ].
    unfold namespace_of in Hg. rewrite !Forall_cons in Hg. rewrite !Forall_cons. tauto.
  - intros reference rnd n r_min r_max k noisy gw lab H.
    apply generator_parallel in H. lia.
Qed.

Lemma C2_witness :
  (exists noisy gw lab,
     omap generated (trace (run reference.lib (exec notebook ∅) reference.initial))
     = [(noisy, gw, lab)] /\
     Forall (binds (final (run reference.lib (exec notebook ∅) reference.initial)))
            [ ("noisy_signals", VSignals noisy);
              ("gw_signals", VSignals gw);
              ("labels", VLabels lab) ]) /\
  (length [[1.0000000000000000000]; [0.0000000000000000000]]%Q = length [[1]; [1]]%Q /\
   length [[1]; [1]]%Q = length [1; 0]).
Proof.
  split.
  - apply (proj1 (proj2 C2_generator_call) _ reference.lib reference.initial).
    vm_compute. reflexivity.
  - apply (proj2 (proj2 C2_generator_call) [[1]]%Q
             (fun j => generate_datasets.Draw (Nat.even j) [0%Q]) 2 1%Q 1%Q 1).
    vm_compute. reflexivity.
Defined.

(** C6. The notebook contains no exception handler; in every run, from
    every namespace and whatever the libraries do, a call that raises is
    the last step of the run and the run ends with the very exception
    that the call raised; and a run that returns had no call that raised:
    no error is converted, suppressed or replaced. *)
Theorem C6_exceptions_propagate :
  (forall g : globals, handler_free (exec notebook g)) /\
  (forall (W : Type) (lib : forall X : Type, call X -> W -> result X * W) (w : W)
          (g : globals) (i : nat) (e : exn),
     trace (run lib (exec notebook g) w) !! i ≫= raised = Some e ->
     outcome (run lib (exec notebook g) w) = Err e /\
     S i = length (trace (run lib (exec notebook g) w))) /\
  (forall (W : Type) (lib : forall X : Type, call X -> W -> result X * W) (w : W)
          (g : globals),
     returns (run lib (exec notebook g) w) = true ->
     Forall (fun e => raised e = None) (trace (run lib (exec notebook g) w))).
Proof.
  assert (H : forall g : globals, handler_free (exec notebook g)).
  { apply uses_exec, notebook_statements. intros; exact I. }
  split; [exact H | split].
  - intros W lib w g i e Hi. eapply uses_propagate; [apply H | exact Hi].
  - intros W lib w g Hret. unfold returns in Hret.
    destruct (outcome (run lib (exec notebook g) w)) as [g' | e] eqn:Ho;
      [ | discriminate Hret].
    eapply uses_returned; [apply H | exact Ho].
Qed.

Lemma C6_witness :
  (outcome (run reference.lib (exec notebook ∅) reference.no_data)
   = Err (LibraryError "FileNotFoundError") /\
   3%nat = length (trace (run reference.lib (exec notebook ∅) reference.no_data))) /\
  Forall (fun e => raised e = None)
         (trace (run reference.lib (exec notebook ∅) reference.initial)).
Proof.
  split.
  - apply (proj1 (proj2 C6_exceptions_propagate) _ reference.lib reference.no_data ∅ 2%nat).
    vm_compute. reflexivity.
  - apply (proj2 (proj2 C6_exceptions_propagate) _ reference.lib reference.initial ∅).
    vm_compute. reflexivity.
Defined.

(** C7, as the notebook has it.  Whatever the libraries do, every step of
    every run computes in memory, prints, displays a plot or a video,
    or is the generator reading under the data directory
    ["./data"]: no step writes a file. *)
Theorem C7_no_persisted_state
    (W : Type) (lib : forall X : Type, call X -> W -> result X * W) (w : W) :
  Forall (fun e => in_memory_or_output "./data" (effect_of (entry_call e)))
         (trace (run lib (exec notebook ∅) w)).
Proof.
  eapply Forall_impl; [apply (uses_trace as_written), notebook_as_written | ].
  intros e [He _]. exact He.
Qed.

(** Printed text and displayed plots are not the only outputs: the first
    step of a run displays a video. *)
Lemma C7_counterexample :
  ~ Forall (fun e => printed_or_plotted "./data" (effect_of (entry_call e)))
           (trace (run reference.lib (exec notebook ∅) reference.initial)).
Proof.
  intros H. rewrite Forall_lookup in H.
  apply (H 0%nat (Entry (display (YouTubeVideo "Y3eR49ogsF0" 600 400)) (Ok tt))).
  vm_compute. reflexivity.
Qed.

(** ** Statements that leave a name alone *)

Lemma preserves_assign (x y : string) (e : globals -> prog value) :
  x <> y -> preserves x (assign y e).
Proof.
  intros Hxy W lib w g g' w' t H. unfold assign in H. rewrite run_bind in H.
  destruct (run lib (e g) w) as [[[v | err] w1] t1]; [ | discriminate H].
  cbn [run] in H. injection H as <- _ _. apply lookup_insert_ne. congruence.
Qed.

Lemma bind_names_other (x : string) (xs : list string) (vs : list value) (g g' : globals) :
  x ∉ xs -> bind_names xs vs g = Ok g' -> g' !! x = g !! x.
Proof.
  revert vs g. induction xs as [|y xs IH]; intros [|v vs] g Hx H; cbn [bind_names] in H;
    try discriminate H.
  - injection H as <-. reflexivity.
  - apply not_elem_of_cons in Hx as [Hxy Hx].
    rewrite (IH _ _ Hx H). apply lookup_insert_ne. congruence.
Qed.

Lemma preserves_unpack (x : string) (xs : list string) (e : globals -> prog (list value)) :
  x ∉ xs -> preserves x (unpack xs e).
Proof.
  intros Hx W lib w g g' w' t H. unfold unpack in H. rewrite run_bind in H.
  destruct (run lib (e g) w) as [[[vs | err] w1] t1]; [ | discriminate H].
  destruct (bind_names xs vs g) as [g1 | err] eqn:Hb; cbn [lift run] in H;
    [ | discriminate H].
  injection H as <- _ _. eapply bind_names_other; eauto.
Qed.

Lemma run_expr {W A : Type} (lib : forall X : Type, call X -> W -> result X * W)
    (e : globals -> prog A) (g g' : globals) (w w' : W) (t : list entry) :
  run lib (expr e g) w = (Ok g', w', t) -> g' = g.
Proof.
  unfold expr. rewrite run_bind.
  destruct (run lib (e g) w) as [[[v | err] w1] t1]; [ | discriminate].
  cbn [run]. intros [= <- _ _]. reflexivity.
Qed.

Lemma preserves_expr (x : string) {A : Type} (e : globals -> prog A) :
  preserves x (expr e).
Proof. intros W lib w g g' w' t H. apply run_expr in H. subst g'. reflexivity. Qed.

Lemma preserves_cell_value (x : string) (e : globals -> prog rich) :
  preserves x (cell_value e).
Proof.
  intros W lib w g g' w' t H. unfold cell_value in H. rewrite run_bind in H.
  destruct (run lib (e g) w) as [[[v | err] w1] t1]; [ | discriminate H].
  rewrite run_bind in H.
  destruct (run lib (call_ (display v)) w1) as [[[u | err] w2] t2]; [ | discriminate H].
  cbn [run] in H. injection H as <- _ _. reflexivity.
Qed.

Lemma preserves_exec (x : string) (ss : list stmt) :
  Forall (preserves x) ss ->
  forall (W : Type) (lib : forall X : Type, call X -> W -> result X * W)
         (w : W) (g g' : globals) (w' : W) (t : list entry),
    run lib (exec ss g) w = (Ok g', w', t) -> g' !! x = g !! x.
Proof.
  induction 1 as [|s ss Hs _ IH]; intros W lib w g g' w' t H; cbn [exec] in H.
  - cbn [run] in H. injection H as <- _ _. reflexivity.
  - rewrite run_bind in H.
    destruct (run lib (s g) w) as [[[g1 | err] w1] t1] eqn:Hs1; [ | discriminate H].
    destruct (run lib (exec ss g1) w1) as [[o w2] t2] eqn:Hs2.
    injection H as -> _ _.
    rewrite (IH _ _ _ _ _ _ _ Hs2). eapply Hs, Hs1.
Qed.

Ltac preserves_stmt :=
  unfold call_print_scores, in_place, new_single_embedder;
  first [ apply preserves_assign; discriminate
        | apply preserves_unpack; rewrite !not_elem_of_cons; repeat split;
          first [discriminate | apply not_elem_of_nil]
        | apply preserves_expr
        | apply preserves_cell_value ].

(** After the generation no statement binds one of the three names. *)
Lemma later_preserve (x : string) :
  x ∈ ["noisy_signals"; "gw_signals"; "labels"] ->
  Forall (preserves x) (drop generation_point notebook).
Proof.
  intros Hx. rewrite !elem_of_cons in Hx.
  destruct Hx as [-> | [-> | [-> | Hx]]]; [ | | | inversion Hx];
    expose_notebook; repeat (constructor; [solve [preserves_stmt] | ]); constructor.
Qed.

(** The namespace just after the generation. *)
Lemma generation_run {W : Type} (lib : forall X : Type, call X -> W -> result X * W)
    (w : W) (g : globals) (w' : W) (t : list entry) :
  run lib (exec (take generation_point notebook) ∅) w = (Ok g, w', t) ->
  exists noisy gw lab w0,
    fst (lib _ (make_gravitational_waves "./data" 100 (65 # 100) (65 # 100) 1) w0)
    = Ok (noisy, gw, lab) /\
    g !! "noisy_signals" = Some (VSignals noisy) /\
    g !! "gw_signals" = Some (VSignals gw) /\
    g !! "labels" = Some (VLabels lab).
Proof.
  intros H. unfold generation_point in H. expose H. cbn [firstn app] in H.
  repeat step lib H. simp H. finished H.
  match goal with
  | E : lib _ (make_gravitational_waves _ _ _ _ _) ?w0 = (Ok (?a, ?b, ?c), _) |- _ =>
      exists a, b, c, w0; rewrite E
  end.
  repeat split; vm_compute; exact eq_refl.
Qed.

(** C3. Whenever the library's generator is the generator, at every point
    of the run after the generation -- after that statement and after each
    later one -- the three names are bound to collections of the same
    length, and every label is 0 or 1. *)
Theorem C3_parallel_binary_invariant
    (W : Type) (lib : forall X : Type, call X -> W -> result X * W) (w : W) (n : nat) :
  implements_generator lib ->
  (generation_point <= n)%nat ->
  returns (run lib (exec (take n notebook) ∅) w) = true ->
  parallel_binary (final (run lib (exec (take n notebook) ∅) w)).
Proof.
  intros Hgen Hn Hret.
  destruct (returns_run _ Hret) as [g Hrun]. rewrite Hrun, final_run.
  replace n with (generation_point + (n - generation_point))%nat in Hrun by lia.
  rewrite <- take_take_drop, run_exec_app in Hrun.
  destruct (run lib (exec (take generation_point notebook) ∅) w)
    as [[[g0 | err] w0] t0] eqn:H0; [ | discriminate Hrun].
  destruct (run lib (exec (take (n - generation_point) (drop generation_point notebook)) g0) w0)
    as [[o1 w1] t1] eqn:H1.
  assert (o1 = Ok g) as -> by congruence.
  destruct (generation_run lib w g0 w0 t0 H0) as (noisy & gw & lab & w2 & Hcall & Hn1 & Hn2 & Hn3).
  destruct (Hgen _ _ _ _ _ _ _ Hcall) as (reference & rnd & Hmodel).
  apply generator_parallel in Hmodel as (L1 & L2 & L3 & Hbin).
  assert (Hkeep : forall x, x ∈ ["noisy_signals"; "gw_signals"; "labels"] -> g !! x = g0 !! x).
  { intros x Hx. eapply preserves_exec; [ | exact H1].
    apply Forall_take, later_preserve, Hx. }
  exists noisy, gw, lab.
  rewrite !Hkeep by (rewrite !elem_of_cons; auto).
  repeat split; auto; congruence.
Qed.

Lemma reference_implements_generator : implements_generator reference.lib.
Proof.
  intros path n r_min r_max k w out H. cbn [reference.lib] in H.
  destruct (reference.files w !! path) as [ref | ]; [ | discriminate H].
  exists ref, (reference.rnd (reference.seed w)). exact H.
Defined.

Lemma C3_witness :
  parallel_binary (final (run reference.lib (exec (take 30 notebook) ∅) reference.initial)).
Proof.
  apply (C3_parallel_binary_invariant _ reference.lib reference.initial 30).
  - exact reference_implements_generator.
  - unfold generation_point. lia.
  - vm_compute. reflexivity.
Defined.

(** C1. In a run that returns, the five transformers -- TakensEmbedding,
    PCA on each point cloud, VietorisRipsPersistence, Scaler and
    PersistenceEntropy -- are the steps of the one Pipeline bound to
    [topological_transfomer]; its [fit_transform] is applied once, to the
    noisy signals, each step to the output of the step before, and gives
    [features]; then a LogisticRegression constructed without arguments is
    fitted on the training part of the split of these features, and the
    accuracy and the ROC AUC, on the training and on the validation part,
    are printed. *)
Theorem C1_pipeline_and_classifier
    (W : Type) (lib : forall X : Type, call X -> W -> result X * W) (w : W) :
  returns (run lib (exec notebook ∅) w) = true ->
  exists (r : answers) (before : list entry),
    trace (run lib (exec notebook ∅) w)
    = before ++ pipeline_trace r ++ training_trace r
             ++ scoring_trace (fitted r) (sc r) ++ printing_trace (sc r) /\
    omap fit_transformed (trace (run lib (exec notebook ∅) w))
    = [ SingleTakensEmbedding "search" 6 30 30 5; PCA 3;
        SingleTakensEmbedding "search" 6 30 30 5; PCA 3 ] ++ (steps the_pipeline).*2 /\
    Forall (binds (final (run lib (exec notebook ∅) w)))
           [ ("noisy_signals", VSignals (noisy r));
             ("topological_transfomer", VPipeline the_pipeline);
             ("features", VArray (features r)) ] /\
    scores_computed (sc r).
Proof.
  intros Hret.
  destruct (returns_run _ Hret) as [g Hrun].
  destruct (notebook_run lib w g _ _ Hrun) as (r & Ht & Hg & Hpure).
  rewrite Hrun, final_run. cbn [trace snd]. rewrite Ht.
  exists r, (generation_trace r ++ visualisation_trace r).
  split; [unfold trace_of; rewrite <- !app_assoc; reflexivity | ].
  split; [reflexivity | ].
  split; [ | apply Hpure].
  unfold namespace_of in Hg. rewrite !Forall_cons in Hg. rewrite !Forall_cons. tauto.
Qed.

Lemma C1_witness :
  exists (r : answers) (before : list entry),
    trace (run reference.lib (exec notebook ∅) reference.initial)
    = before ++ pipeline_trace r ++ training_trace r
             ++ scoring_trace (fitted r) (sc r) ++ printing_trace (sc r) /\
    omap fit_transformed (trace (run reference.lib (exec notebook ∅) reference.initial))
    = [ SingleTakensEmbedding "search" 6 30 30 5; PCA 3;
        SingleTakensEmbedding "search" 6 30 30 5; PCA 3 ] ++ (steps the_pipeline).*2 /\
    Forall (binds (final (run reference.lib (exec notebook ∅) reference.initial)))
           [ ("noisy_signals", VSignals (noisy r));
             ("topological_transfomer", VPipeline the_pipeline);
             ("features", VArray (features r)) ] /\
    scores_computed (sc r).
Proof.
  apply (C1_pipeline_and_classifier _ reference.lib reference.initial).
  vm_compute. reflexivity.
Defined.

(** C4, as the notebook has it.  In a run that returns, the operations
    occur in this order: generation; plotting of the raw series; twice,
    embedding of one series, PCA and plotting of the point cloud; then the
    embedding, PCA, persistent homology, and scaling and entropy of the
    pipeline; the train/test split; the fit and the predictions of the
    logistic regression.  The inputs of each step are outputs of earlier
    steps: the run is [trace_of r], where the series plotted and embedded
    are those that indexing selects in the collections that the generator
    returned -- the first gravitational-wave signal, and the noisy series
    at the indices that [np.argmin] and [np.argmax] give on the labels --,
    every other argument is the answer of an earlier call, and the scores
    printed are computed from the predictions. *)
Theorem C4_order_of_operations
    (W : Type) (lib : forall X : Type, call X -> W -> result X * W) (w : W) :
  returns (run lib (exec notebook ∅) w) = true ->
  stages (trace (run lib (exec notebook ∅) w)) = notebook_order /\
  exists r : answers,
    trace (run lib (exec notebook ∅) w) = trace_of r /\ pure_results r.
Proof.
  intros Hret.
  destruct (returns_run _ Hret) as [g Hrun].
  destruct (notebook_run lib w g _ _ Hrun) as (r & Ht & _ & Hpure).
  rewrite Hrun. cbn [trace snd]. rewrite Ht.
  split; [reflexivity | exists r; split; [reflexivity | exact Hpure]].
Qed.

Lemma C4_witness :
  stages (trace (run reference.lib (exec notebook ∅) reference.initial)) = notebook_order /\
  exists r : answers,
    trace (run reference.lib (exec notebook ∅) reference.initial) = trace_of r /\
    pure_results r.
Proof.
  apply (C4_order_of_operations _ reference.lib reference.initial).
  vm_compute. reflexivity.
Defined.

(** The order in which the specification lists the operations is not the
    order of a run: plotting comes before the first embedding. *)
Lemma C4_counterexample :
  stages (trace (run reference.lib (exec notebook ∅) reference.initial)) <> listed_order.
Proof. vm_compute. discriminate. Qed.

(** ** [print_scores] *)

Lemma run_load {W A B : Type} (lib : forall X : Type, call X -> W -> result X * W)
    (proj : value -> option A) (kind : string) (g : globals) (x : string)
    (f : A -> prog B) (w : W) :
  run lib (bind (load proj kind g x) f) w =
  match g !! x ≫= proj with
  | Some a => run lib (f a) w
  | None =>
      (Err (match g !! x with None => NameError x | Some _ => TypeError kind end), w, [])
  end.
Proof.
  unfold load. destruct (g !! x) as [v | ]; cbn; [ | reflexivity].
  destruct (proj v); reflexivity.
Qed.

Lemma lookup_as_array (g : globals) (x : string) (a : ndarray) :
  g !! x ≫= as_array = Some a -> g !! x = Some (VArray a).
Proof. destruct (g !! x) as [[] | ]; cbn; congruence. Qed.

Lemma lookup_as_labels (g : globals) (x : string) (l : list Z) :
  g !! x ≫= as_labels = Some l -> g !! x = Some (VLabels l).
Proof. destruct (g !! x) as [[] | ]; cbn; congruence. Qed.

(** One step of a run, in a namespace that is not known. *)
Ltac step_in lib H :=
  cbn [bind lift call_ for_each run app] in H;
  match type of H with
  | context [run lib (bind (load ?p ?k ?g ?x) ?f) ?w] =>
      rewrite (run_load lib p k g x f w) in H;
      first [ match goal with E : g !! x ≫= p = _ |- _ => rewrite E in H end
            | destruct (g !! x ≫= p) eqn:?; [ | discriminate H] ]
  | context [lib ?X ?c ?w] =>
      destruct (lib X c w) as [[?|?] ?] eqn:?; [ | discriminate H]
  | context [lift ?r] => destruct r eqn:?; [ | discriminate H]
  end.

(** A call of [print_scores] that returns. *)
Lemma print_scores_run {W : Type} (lib : forall X : Type, call X -> W -> result X * W)
    (m : model) (g : globals) (w : W) (u : unit) (w' : W) (t : list entry) :
  run lib (print_scores m g) w = (Ok u, w', t) ->
  exists s : scores,
    t = scoring_trace m s ++ printing_trace s /\
    Forall (binds g) [ ("X_train", VArray (X_train s)); ("y_train", VLabels (y_train s));
                       ("X_valid", VArray (X_valid s)); ("y_valid", VLabels (y_valid s)) ] /\
    scores_computed s.
Proof.
  intros H. unfold print_scores, get_array, get_labels in H.
  repeat step_in lib H.
  cbn [bind lift call_ for_each run app] in H.
  repeat match goal with u : unit |- _ => destruct u end.
  pose proof (f_equal snd H) as Ht; cbn [snd] in Ht. clear H. subst t.
  repeat match goal with
         | E : _ !! _ ≫= as_array = Some _ |- _ => apply lookup_as_array in E
         | E : _ !! _ ≫= as_labels = Some _ |- _ => apply lookup_as_labels in E
         end.
  unshelve eexists; [econstructor; shelve | ].
  split; [reflexivity | split].
  - repeat constructor; cbn; eassumption.
  - unfold scores_computed; cbn; repeat split; eassumption.
Qed.

Lemma print_scores_observes (m : model) (g : globals) : uses observes (print_scores m g).
Proof.
  unfold print_scores, get_array, get_labels. repeat uses_step; exact I.
Qed.

(** ** Rounding *)

Lemma round_half_even_close (q : Q) : (Qabs (q - inject_Z (round_half_even q)) <= 1 # 2)%Q.
Proof.
  destruct q as [n d]. unfold round_half_even. cbn [Qnum Qden].
  pose proof (Z.div_mod n (Z.pos d) ltac:(lia)) as Hdm.
  pose proof (Z.mod_pos_bound n (Z.pos d) ltac:(lia)) as Hm.
  set (f := n / Z.pos d) in *. set (r := n mod Z.pos d) in *.
  apply Qabs_Qle_condition.
  destruct (Z.ltb_spec (2 * r) (Z.pos d)); [ | destruct (Z.ltb_spec (Z.pos d) (2 * r));
    [ | destruct (Z.even f)]];
    unfold Qle, Qminus, Qplus, Qopp, inject_Z; cbn [Qnum Qden]; split; nia.
Qed.

Lemma round_3_decimals (q : Q) :
  exists n : Z,
    round (Real q) 3 = Real (inject_Z n / 1000)%Q /\
    (Qabs (q - inject_Z n / 1000) <= 1 # 2000)%Q.
Proof.
  exists (round_half_even (q * 1000)%Q). split; [reflexivity | ].
  pose proof (round_half_even_close (q * 1000)%Q) as H.
  apply Qabs_Qle_condition in H. apply Qabs_Qle_condition.
  set (n := inject_Z (round_half_even (q * 1000)%Q)) in *.
  unfold Qdiv. change (/ 1000)%Q with (1 # 1000)%Q.
  split; lra.
Qed.

Lemma round_in_unit_interval (v : pyfloat) :
  in_unit_interval v -> in_unit_interval (round v 3).
Proof.
  destruct v as [q | ]; [ | intros []]. intros [H0 H1].
  pose proof (round_half_even_close (q * 1000)%Q) as H.
  apply Qabs_Qle_condition in H.
  change (round (Real q) 3)
    with (Real (inject_Z (round_half_even (q * 1000)%Q) * (1 # 1000))%Q).
  set (n := round_half_even (q * 1000)%Q) in *.
  assert (Hlo : (- (1 # 2) <= inject_Z n)%Q) by lra.
  assert (Hhi : (inject_Z n <= 1000 + (1 # 2))%Q) by lra.
  unfold Qle in Hlo, Hhi. cbn in Hlo, Hhi.
  cbn [in_unit_interval]. unfold Qle, Qmult, inject_Z. cbn. lia.
Qed.

(** ** Accuracy *)

Lemma matches_le (a b : list Z) : (metrics.matches a b <= length a)%nat.
Proof.
  unfold metrics.matches.
  pose proof (List.filter_length_le (fun p : Z * Z => Z.eqb (fst p) (snd p)) (combine a b)).
  rewrite length_combine in H. lia.
Qed.

Lemma matches_sym (a b : list Z) : metrics.matches a b = metrics.matches b a.
Proof.
  unfold metrics.matches. revert b.
  induction a as [|x a IH]; intros [|y b]; cbn [combine List.filter fst snd]; try reflexivity.
  rewrite (Z.eqb_sym y x).
  destruct (Z.eqb x y); cbn [length]; rewrite IH; reflexivity.
Qed.

Lemma accuracy_score_sym (a b : list Z) :
  metrics.accuracy_score a b = metrics.accuracy_score b a.
Proof.
  unfold metrics.accuracy_score. rewrite (Nat.eqb_sym (length b) (length a)).
  destruct (Nat.eqb_spec (length a) (length b)) as [Hl | Hl]; cbn [negb]; [ | reflexivity].
  rewrite <- Hl, matches_sym. reflexivity.
Qed.

Lemma accuracy_score_lengths (a b : list Z) (v : pyfloat) :
  metrics.accuracy_score a b = Ok v -> length a = length b.
Proof.
  unfold metrics.accuracy_score.
  destruct (Nat.eqb_spec (length a) (length b)); cbn [negb]; [auto | discriminate].
Qed.

Lemma accuracy_score_range (a b : list Z) (v : pyfloat) :
  metrics.accuracy_score a b = Ok v -> a <> [] -> in_unit_interval v.
Proof.
  unfold metrics.accuracy_score. intros H Ha.
  destruct (negb _); [discriminate H | ].
  pose proof (matches_le a b) as Hle.
  destruct (length a) as [|n] eqn:Hl.
  - destruct a; [congruence | discriminate Hl].
  - injection H as <-. cbn [in_unit_interval]. unfold Qle. cbn [Qnum Qden]. lia.
Qed.

(** ** Area under the ROC curve *)

Lemma clf_curve_monotone (l : list (bool * Q)) (fps tps : Z) (p : Z * Z) :
  fst p <= fps -> snd p <= tps -> monotone p (metrics.clf_curve fps tps l).
Proof.
  revert fps tps p. induction l as [|[positive s] l IH]; intros fps tps p Hf Ht;
    cbn [metrics.clf_curve monotone]; [exact I | ].
  destruct l as [|[c s'] l].
  - cbn [monotone fst snd]. destruct positive; repeat split; lia.
  - destruct (Qeq_bool s s').
    + apply IH; destruct positive; lia.
    + cbn [monotone fst snd]. repeat split; try (destruct positive; lia).
      apply IH; cbn [fst snd]; lia.
Qed.

Lemma monotone_last (l : list (Z * Z)) (p d : Z * Z) :
  monotone p l ->
  fst p <= fst (List.last (p :: l) d) /\ snd p <= snd (List.last (p :: l) d) /\
  Forall (fun q => fst q <= fst (List.last (p :: l) d) /\ snd q <= snd (List.last (p :: l) d)) l.
Proof.
  revert p. induction l as [|q l IH]; intros p H.
  - cbn. repeat split; try lia. constructor.
  - destruct H as (Hf & Hs & H). destruct (IH q H) as (Hf' & Hs' & Hall).
    change (List.last (p :: q :: l) d) with (List.last (q :: l) d).
    repeat split; try lia. constructor; [split; lia | exact Hall].
Qed.

Lemma last_default {A : Type} (l : list A) (a d d' : A) :
  List.last (a :: l) d = List.last (a :: l) d'.
Proof.
  revert a. induction l as [|b l IH]; intros a; [reflexivity | ].
  change (List.last (b :: l) d = List.last (b :: l) d'). apply IH.
Qed.

Lemma trapz_bounds (l : list (Q * Q)) (x y : Q) :
  (0 <= y <= 1)%Q -> ascending x l ->
  (0 <= metrics.trapz ((x, y) :: l))%Q /\
  (metrics.trapz ((x, y) :: l) <= fst (List.last ((x, y) :: l) (x, y)) - x)%Q.
Proof.
  revert x y. induction l as [|[x' y'] l IH]; intros x y Hy Hl.
  - cbn. split; lra.
  - destruct Hl as (Hx & Hy' & Hl). destruct (IH x' y' Hy' Hl) as [IH0 IH1].
    change (List.last ((x, y) :: (x', y') :: l) (x, y))
      with (List.last ((x', y') :: l) (x, y)).
    rewrite (last_default l (x', y') (x, y) (x', y')).
    change (metrics.trapz ((x, y) :: (x', y') :: l))
      with ((x' - x) * ((y + y') / 2) + metrics.trapz ((x', y') :: l))%Q.
    set (T := metrics.trapz ((x', y') :: l)) in *.
    set (xl := fst (List.last ((x', y') :: l) (x', y'))) in *.
    set (h := ((y + y') / 2)%Q).
    assert (Hh : (0 <= h <= 1)%Q).
    { unfold h, Qdiv. change (/ 2)%Q with (1 # 2)%Q. split; lra. }
    assert (H1 : (0 <= (x' - x) * h)%Q) by (apply Qmult_le_0_compat; lra).
    assert (H2 : (0 <= (x' - x) * (1 - h))%Q) by (apply Qmult_le_0_compat; lra).
    split; [lra | ]. 
    assert (H3 : ((x' - x) * (1 - h) == (x' - x) - (x' - x) * h)%Q) by ring.
    rewrite H3 in H2. lra.
Qed.

Lemma ratio_le (a b n : Z) : 0 <= a -> a <= b -> b <= n ->
  (0 <= inject_Z a / inject_Z n)%Q /\ (inject_Z a / inject_Z n <= inject_Z b / inject_Z n)%Q /\
  (inject_Z b / inject_Z n <= 1)%Q.
Proof.
  intros Ha Hab Hbn.
  destruct (Z.eq_dec n 0) as [-> | Hn].
  - assert (a = 0) by lia. assert (b = 0) by lia. subst. cbn. repeat split; discriminate.
  - assert (0 < n) by lia. destruct n as [|n|n]; try lia.
    unfold Qdiv, Qinv, Qmult, Qle, inject_Z. cbn [Qnum Qden]. repeat split; nia.
Qed.

Lemma scale_ascending (N P : Z) (l : list (Z * Z)) (p : Z * Z) :
  monotone p l -> 0 <= fst p -> 0 <= snd p ->
  Forall (fun q => fst q <= N /\ snd q <= P) l ->
  ascending (fst (scale N P p)) (map (scale N P) l).
Proof.
  revert p. induction l as [|q l IH]; intros p Hm Hf Hs Hall; [exact I | ].
  destruct Hm as (Hfq & Hsq & Hm). apply Forall_cons in Hall as [[HqN HqP] Hall].
  cbn [map ascending scale fst snd].
  repeat split.
  - apply (ratio_le (fst p) (fst q) N); lia.
  - apply (ratio_le (snd q) (snd q) P); lia.
  - apply (ratio_le (snd q) (snd q) P); lia.
  - apply (IH q); auto; lia.
Qed.

Lemma last_map {A B : Type} (f : A -> B) (l : list A) (a d : A) :
  List.last (map f (a :: l)) (f d) = f (List.last (a :: l) d).
Proof.
  revert a. induction l as [|b l IH]; intros a; [reflexivity | ].
  change (List.last (map f (b :: l)) (f d) = f (List.last (b :: l) d)). apply IH.
Qed.

Lemma roc_auc_score_range (y_true : list Z) (y_score : list Q) (v : pyfloat) :
  metrics.roc_auc_score y_true y_score = Ok v -> y_true <> [] /\ in_unit_interval v.
Proof.
  unfold metrics.roc_auc_score, metrics.distinct.
  destruct (remove_dups y_true) as [|a [|b [|c l]]] eqn:Hd; try discriminate.
  destruct (negb _); [discriminate | ].
  set (curve := metrics.clf_curve 0 0 _).
  destruct (List.last ((0, 0) :: curve) (0, 0)) as [N P] eqn:Hlast.
  intros [= <-]. split; [intros ->; discriminate Hd | ].
  pose proof (clf_curve_monotone
                (metrics.sort_desc (combine (map (Z.eqb (Z.max a b)) y_true) y_score))
                0 0 (0, 0) ltac:(cbn; lia) ltac:(cbn; lia)) as Hm.
  fold curve in Hm.
  destruct (monotone_last curve (0, 0) (0, 0) Hm) as (HN & HP & Hall).
  rewrite Hlast in HN, HP, Hall. cbn [fst snd] in HN, HP, Hall.
  change (map _ ((0, 0) :: curve)) with (scale N P (0, 0) :: map (scale N P) curve).
  pose (x0 := (inject_Z 0 / inject_Z N)%Q). pose (y0 := (inject_Z 0 / inject_Z P)%Q).
  assert (Hy0 : (0 <= y0 <= 1)%Q) by (split; apply (ratio_le 0 0 P); lia).
  assert (Hx0 : (0 <= x0)%Q) by (apply (ratio_le 0 0 N); lia).
  pose proof (scale_ascending N P curve (0, 0) Hm ltac:(cbn; lia) ltac:(cbn; lia) Hall) as Hasc.
  change (fst (scale N P (0, 0))) with x0 in Hasc.
  destruct (trapz_bounds _ x0 y0 Hy0 Hasc) as [H0 H1].
  change ((x0, y0) :: map (scale N P) curve)
    with (map (scale N P) ((0, 0) :: curve)) in H1.
  change (x0, y0) with (scale N P (0, 0)) in H1.
  rewrite last_map, Hlast in H1. cbn [scale fst snd] in H1.
  assert (HxN : (inject_Z N / inject_Z N <= 1)%Q) by (apply (ratio_le N N N); lia).
  change (map (scale N P) ((0, 0) :: curve)) with ((x0, y0) :: map (scale N P) curve) in H1.
  change (in_unit_interval (Real (metrics.trapz ((x0, y0) :: map (scale N P) curve)))).
  unfold in_unit_interval.
  set (T := metrics.trapz ((x0, y0) :: map (scale N P) curve)) in *.
  split; lra.
Qed.

Lemma scores_in_unit_interval (s : scores) :
  scores_computed s ->
  Forall in_unit_interval [acc_train s; auc_train s; acc_valid s; auc_valid s].
Proof.
  intros (Ha1 & _ & Hr1 & Ha2 & _ & Hr2).
  apply roc_auc_score_range in Hr1 as [Hy1 Hr1].
  apply roc_auc_score_range in Hr2 as [Hy2 Hr2].
  pose proof (accuracy_score_lengths _ _ _ Ha1) as Hl1.
  pose proof (accuracy_score_lengths _ _ _ Ha2) as Hl2.
  repeat constructor; auto.
  - apply (accuracy_score_range _ _ _ Ha1). intros E. rewrite E in Hl1.
    destruct (y_train s); [congruence | discriminate Hl1].
  - apply (accuracy_score_range _ _ _ Ha2). intros E. rewrite E in Hl2.
    destruct (y_valid s); [congruence | discriminate Hl2].
Qed.

(** C5. Whatever the fitted model and the split, the four values that a
    call of [print_scores] prints -- accuracy and ROC AUC, on train and on
    valid, each rounded -- lie between 0 and 1, as do the four metrics
    before rounding. *)
Theorem C5_metrics_in_unit_interval
    (W : Type) (lib : forall X : Type, call X -> W -> result X * W) (w : W)
    (m : model) (g : globals) :
  returns (run lib (print_scores m g) w) = true ->
  exists s : scores,
    scores_computed s /\
    omap printed (trace (run lib (print_scores m g) w)) = printed_lines s /\
    Forall in_unit_interval [acc_train s; auc_train s; acc_valid s; auc_valid s] /\
    Forall (Forall score_printed) (printed_lines s).
Proof.
  intros Hret. destruct (returns_run _ Hret) as [u Hrun].
  destruct (print_scores_run lib m g w u _ _ Hrun) as (s & Ht & _ & Hs).
  rewrite Hrun. cbn [trace snd]. rewrite Ht.
  exists s. split; [exact Hs | ]. split; [reflexivity | ].
  pose proof (scores_in_unit_interval s Hs) as Hall.
  split; [exact Hall | ].
  rewrite !Forall_cons in Hall. destruct Hall as (H1 & H2 & H3 & H4 & _).
  unfold printed_lines.
  repeat constructor; cbn [score_printed]; apply round_in_unit_interval; assumption.
Qed.

Lemma C5_witness :
  exists s : scores,
    scores_computed s /\
    omap printed (trace (run reference.lib (print_scores reference.fitted_model reference.small_split)
                             reference.initial))
    = printed_lines s /\
    Forall in_unit_interval [acc_train s; auc_train s; acc_valid s; auc_valid s] /\
    Forall (Forall score_printed) (printed_lines s).
Proof.
  apply (C5_metrics_in_unit_interval _ reference.lib reference.initial).
  vm_compute. reflexivity.
Defined.

(** ** The order of the arguments of [accuracy_score] *)

Lemma run_bind_ext {W A B : Type} (lib : forall X : Type, call X -> W -> result X * W)
    (p : prog A) (f f' : A -> prog B) (w : W) :
  (forall a w1, run lib (f a) w1 = run lib (f' a) w1) ->
  run lib (bind p f) w = run lib (bind p f') w.
Proof.
  intros H. rewrite !run_bind.
  destruct (run lib p w) as [[[a | e] w1] t1]; [ | reflexivity].
  rewrite H. reflexivity.
Qed.

(** C8. [print_scores] passes the predictions first and the true labels
    second to [accuracy_score], whose signature is (y_true, y_pred); the
    accuracy of two vectors does not depend on their order, so every run of
    [print_scores] is the run of the conventional call: the same steps,
    the same lines, the same outcome. *)
Theorem C8_accuracy_symmetric :
  (forall a b : list Z, metrics.accuracy_score a b = metrics.accuracy_score b a) /\
  (forall (W : Type) (lib : forall X : Type, call X -> W -> result X * W) (w : W)
          (m : model) (g : globals),
     run lib (print_scores m g) w = run lib (print_scores_conventional m g) w).
Proof.
  split; [exact accuracy_score_sym | ].
  intros W lib w m g. unfold print_scores, print_scores_conventional.
  repeat first
    [ match goal with
      | |- run _ (bind (lift (metrics.accuracy_score ?a ?b)) _) _
           = run _ (bind (lift (metrics.accuracy_score ?b ?a)) _) _ =>
          rewrite (accuracy_score_sym a b)
      end
    | apply run_bind_ext; intros ].
  reflexivity.
Qed.

(** The statement [print_scores(model)] is a call of [print_scores] on
    the object bound to [model]. *)
Lemma call_print_scores_run {W : Type} (lib : forall X : Type, call X -> W -> result X * W)
    (g g' : globals) (w w' : W) (t : list entry) :
  run lib (call_print_scores g) w = (Ok g', w', t) ->
  g' = g /\
  exists m : model,
    g !! "model" = Some (VModel m) /\ run lib (print_scores m g) w = (Ok tt, w', t).
Proof.
  intros H. split; [eapply run_expr, H | ].
  unfold call_print_scores, expr, get_model in H.
  rewrite run_bind, run_load in H.
  destruct (g !! "model") as [[] | ] eqn:Hm; cbn [mbind option_bind as_model] in H;
    try discriminate H.
  exists m. split; [reflexivity | ].
  destruct (run lib (print_scores m g) w) as [[[[] | e] w1] t1]; [ | discriminate H].
  cbn [run] in H. injection H as _ <- <-. rewrite app_nil_r. reflexivity.
Qed.

Lemma rounded_3_round (v : pyfloat) : rounded_3 v (round v 3).
Proof. destruct v as [q | ]; [apply round_3_decimals | reflexivity]. Qed.

(** A call of [print_scores] that returns is a run as [observed_scores]
    has it. *)
Lemma print_scores_observed {W : Type} (lib : forall X : Type, call X -> W -> result X * W)
    (m : model) (g : globals) (w : W) (u : unit) (w' : W) (t : list entry) :
  run lib (print_scores m g) w = (Ok u, w', t) -> observed_scores m g t.
Proof.
  intros Hrun.
  destruct (print_scores_run lib m g w u _ _ Hrun) as (s & Ht & Hg & Hs).
  exists s, (round (acc_train s) 3), (round (auc_train s) 3),
    (round (acc_valid s) 3), (round (auc_valid s) 3).
  split; [exact Ht | ]. split; [exact Hg | ]. split; [exact Hs | ].
  repeat split; apply rounded_3_round.
Qed.

(** C10. A call of [print_scores] is an observer.  The statement
    [print_scores(model)] leaves the namespace as it is -- the fitted
    model, [X_train], [X_valid], [y_train] and [y_valid] with it -- and
    each of its four requests is made to the object bound to [model], the
    same for the last as for the first.  A call asks the model for
    predictions and prints, and calls nothing else.  When it returns, its
    run consists of the four requests for predictions, on the arrays bound
    to [X_train] and [X_valid], and of exactly four prints: train accuracy,
    train ROC AUC, valid accuracy and valid ROC AUC, in this order, each
    computed from the answers to these requests and the labels bound to
    [y_train] and [y_valid], and rounded to 3 decimal places. *)
Theorem C10_print_scores_observer
    (W : Type) (lib : forall X : Type, call X -> W -> result X * W) (w : W) (g : globals) :
  (returns (run lib (call_print_scores g) w) = true ->
   final (run lib (call_print_scores g) w) = g /\
   exists m : model,
     g !! "model" = Some (VModel m) /\
     observed_scores m g (trace (run lib (call_print_scores g) w))) /\
  (forall m : model,
     Forall (fun e => observes _ (entry_call e)) (trace (run lib (print_scores m g) w))) /\
  (forall m : model,
     returns (run lib (print_scores m g) w) = true ->
     observed_scores m g (trace (run lib (print_scores m g) w)) /\
     length (omap printed (trace (run lib (print_scores m g) w))) = 4%nat).
Proof.
  split; [ | split].
  - intros Hret. destruct (returns_run _ Hret) as [g' Hrun].
    rewrite Hrun, final_run. cbn [trace snd].
    destruct (call_print_scores_run lib _ _ _ _ _ Hrun) as (-> & m & Hm & Hm_run).
    split; [reflexivity | ]. exists m. split; [exact Hm | ].
    eapply print_scores_observed, Hm_run.
  - intros m. apply uses_trace, print_scores_observes.
  - intros m Hret. destruct (returns_run _ Hret) as [u Hrun].
    pose proof (print_scores_observed lib m g w u _ _ Hrun) as Hobs.
    rewrite Hrun. cbn [trace snd]. split; [exact Hobs | ].
    destruct Hobs as (s & a & b & c & d & -> & _). reflexivity.
Qed.

Lemma C10_witness :
  (final (run reference.lib (call_print_scores reference.small_split) reference.initial)
   = reference.small_split /\
   exists m : model,
     reference.small_split !! "model" = Some (VModel m) /\
     observed_scores m reference.small_split
       (trace (run reference.lib (call_print_scores reference.small_split)
                   reference.initial))) /\
  (observed_scores reference.fitted_model reference.small_split
     (trace (run reference.lib (print_scores reference.fitted_model reference.small_split)
                 reference.initial)) /\
   length (omap printed (trace (run reference.lib
                                    (print_scores reference.fitted_model reference.small_split)
                                    reference.initial))) = 4%nat).
Proof.
  split.
  - apply (proj1 (C10_print_scores_observer _ reference.lib reference.initial
                    reference.small_split)).
    vm_compute. reflexivity.
  - apply (proj2 (proj2 (C10_print_scores_observer _ reference.lib reference.initial
                    reference.small_split))).
    vm_compute. reflexivity.
Defined.

(** ** argmin and argmax *)

Lemma argmin_from_spec (l pre : list Z) (best_i : nat) (best : Z) :
  pre !! best_i = Some best ->
  Forall (fun x => best <= x) pre ->
  (forall j y, (j < best_i)%nat -> pre !! j = Some y -> best < y) ->
  first_index_of_min (pre ++ l) (np.argmin_from best_i best (length pre) l).
Proof.
  revert pre best_i best. induction l as [|v l IH]; intros pre best_i best Hb Hall Hfirst;
    cbn [np.argmin_from].
  - rewrite app_nil_r. exists best. auto.
  - pose proof (lookup_lt_Some _ _ _ Hb) as Hlt.
    replace (pre ++ v :: l) with ((pre ++ [v]) ++ l) by (rewrite <- app_assoc; reflexivity).
    replace (S (length pre)) with (length (pre ++ [v])) by (rewrite length_app; cbn; lia).
    destruct (Z.ltb_spec v best) as [Hv | Hv]; apply IH.
    + rewrite lookup_app_r, Nat.sub_diag by lia. reflexivity.
    + apply Forall_app. split; [ | repeat constructor; lia].
      eapply Forall_impl; [exact Hall | ]. cbn. intros; lia.
    + intros j y Hj Hy. rewrite lookup_app_l in Hy by lia.
      rewrite Forall_lookup in Hall. specialize (Hall _ _ Hy). cbn in Hall. lia.
    + rewrite lookup_app_l by lia. exact Hb.
    + apply Forall_app. split; [exact Hall | repeat constructor; lia].
    + intros j y Hj Hy. rewrite lookup_app_l in Hy by lia. eauto.
Qed.

Lemma argmax_from_opp (l : list Z) (best_i : nat) (best : Z) (i : nat) :
  np.argmax_from best_i best i l = np.argmin_from best_i (- best) i (map Z.opp l).
Proof.
  revert best_i best i. induction l as [|v l IH]; intros best_i best i;
    cbn [np.argmax_from np.argmin_from map]; [reflexivity | ].
  destruct (Z.ltb_spec best v), (Z.ltb_spec (- v) (- best)); try lia; apply IH.
Qed.

Lemma argmin_spec (a : list Z) (i : Z) :
  np.argmin a = Ok i -> exists r, i = Z.of_nat r /\ first_index_of_min a r.
Proof.
  destruct a as [|v l]; [discriminate | ]. intros [= <-].
  eexists. split; [reflexivity | ].
  apply (argmin_from_spec l [v] 0 v); [reflexivity | repeat constructor; lia | intros; lia].
Qed.

Lemma argmax_spec (a : list Z) (i : Z) :
  np.argmax a = Ok i -> exists r, i = Z.of_nat r /\ first_index_of_max a r.
Proof.
  destruct a as [|v l]; [discriminate | ]. intros [= <-].
  eexists. split; [reflexivity | ]. rewrite argmax_from_opp.
  destruct (argmin_from_spec (map Z.opp l) [- v] 0 (- v)) as (m & Hm & Hall & Hfirst);
    [reflexivity | repeat constructor; lia | intros; lia | ].
  change ([- v] ++ map Z.opp l) with (map Z.opp (v :: l)) in *.
  set (r := np.argmin_from 0 (- v) (length [- v]) (map Z.opp l)) in *.
  change (length [- v]) with 1%nat in r.
  rewrite list_lookup_fmap in Hm.
  destruct ((v :: l) !! r) as [x | ] eqn:Hx; [ | discriminate Hm].
  injection Hm as <-. exists x. split; [exact Hx | split].
  - rewrite Forall_fmap in Hall. eapply Forall_impl; [exact Hall | ]. cbn. intros; lia.
  - intros j y Hj Hy. specialize (Hfirst j (- y) Hj).
    rewrite list_lookup_fmap, Hy in Hfirst. specialize (Hfirst eq_refl). lia.
Qed.

Lemma getitem_nat {A : Type} (l : list A) (r : nat) (x : A) :
  l !! r = Some x -> getitem l (Z.of_nat r) = Ok x.
Proof.
  intros H. unfold getitem.
  assert (Hr : (Z.of_nat r <? 0) = false) by (apply Z.ltb_ge; lia).
  cbv zeta. rewrite !Hr, Nat2Z.id, H. reflexivity.
Qed.

(** C9. For labels that are all 0 or 1: when both a 0 and a 1 occur,
    [np.argmin] is the least index with label 0 and [np.argmax] the least
    index with label 1, so that the selection of the visualisation cell is
    valid; when the labels are not empty and all equal, both are 0 and the
    selection is not valid.  In a run that returns, [background_idx] and
    [signal_idx] are bound to these indices and the three plotted series
    are the ones at these indices. *)
Theorem C9_argmin_argmax :
  (forall labels : list Z,
     Forall binary labels -> 0 ∈ labels -> 1 ∈ labels ->
     exists i j : nat,
       np.argmin labels = Ok (Z.of_nat i) /\
       labels !! i = Some 0 /\ (forall k, (k < i)%nat -> labels !! k <> Some 0) /\
       np.argmax labels = Ok (Z.of_nat j) /\
       labels !! j = Some 1 /\ (forall k, (k < j)%nat -> labels !! k <> Some 1) /\
       valid_selection labels (Z.of_nat i) (Z.of_nat j)) /\
  (forall labels : list Z,
     labels <> [] -> (forall a b, a ∈ labels -> b ∈ labels -> a = b) ->
     np.argmin labels = Ok 0 /\ np.argmax labels = Ok 0 /\
     ~ valid_selection labels 0 0) /\
  (forall (W : Type) (lib : forall X : Type, call X -> W -> result X * W) (w : W),
     returns (run lib (exec notebook ∅) w) = true ->
     exists r : answers,
       np.argmin (lab r) = Ok (background_idx r) /\
       np.argmax (lab r) = Ok (signal_idx r) /\
       getitem (noisy r) (background_idx r) = Ok (ts_noise r) /\
       getitem (noisy r) (signal_idx r) = Ok (ts_background r) /\
       getitem (gw r) (signal_idx r) = Ok (ts_signal r) /\
       Forall (binds (final (run lib (exec notebook ∅) w)))
              [ ("labels", VLabels (lab r));
                ("background_idx", VInt (background_idx r));
                ("signal_idx", VInt (signal_idx r));
                ("ts_noise", VSeries (ts_noise r));
                ("ts_background", VSeries (ts_background r));
                ("ts_signal", VSeries (ts_signal r)) ]).
Proof.
  split; [ | split].
  - intros labels Hbin H0 H1.
    destruct (np.argmin labels) as [i | e] eqn:Hmin;
      [ | destruct labels; [inversion H0 | discriminate Hmin]].
    destruct (np.argmax labels) as [j | e] eqn:Hmax;
      [ | destruct labels; [inversion H0 | discriminate Hmax]].
    destruct (argmin_spec _ _ Hmin) as (ri & -> & m & Hm & Hall & Hfirst).
    destruct (argmax_spec _ _ Hmax) as (rj & -> & M & HM & Hall' & Hfirst').
    rewrite Forall_forall in Hall, Hall', Hbin.
    assert (m = 0) as ->.
    { pose proof (Hall _ H0). pose proof (Hbin m (list_elem_of_lookup_2 _ _ _ Hm)) as [-> | ->]; lia. }
    assert (M = 1) as ->.
    { pose proof (Hall' _ H1). pose proof (Hbin M (list_elem_of_lookup_2 _ _ _ HM)) as [-> | ->]; lia. }
    exists ri, rj. repeat split; auto.
    + intros k Hk E. specialize (Hfirst _ _ Hk E). lia.
    + intros k Hk E. specialize (Hfirst' _ _ Hk E). lia.
    + apply getitem_nat, Hm.
    + apply getitem_nat, HM.
  - intros labels Hne Heq.
    destruct labels as [|v l]; [congruence | ].
    assert (Hr : forall r y, (v :: l) !! r = Some y -> y = v).
    { intros r y Hy. apply (Heq y v); [eapply list_elem_of_lookup_2, Hy | left]. }
    destruct (np.argmin (v :: l)) as [i | e] eqn:Hmin; [ | discriminate Hmin].
    destruct (np.argmax (v :: l)) as [j | e] eqn:Hmax; [ | discriminate Hmax].
    destruct (argmin_spec _ _ Hmin) as (ri & -> & m & Hm & _ & Hfirst).
    destruct (argmax_spec _ _ Hmax) as (rj & -> & M & HM & _ & Hfirst').
    assert (ri = 0%nat) as ->.
    { destruct ri as [|ri]; [reflexivity | ].
      specialize (Hfirst 0%nat v ltac:(lia) eq_refl). rewrite (Hr _ _ Hm) in Hfirst. lia. }
    assert (rj = 0%nat) as ->.
    { destruct rj as [|rj]; [reflexivity | ].
      specialize (Hfirst' 0%nat v ltac:(lia) eq_refl). rewrite (Hr _ _ HM) in Hfirst'. lia. }
    repeat split. intros [Ha Hb]. cbn in Ha, Hb. congruence.
  - intros W lib w Hret.
    destruct (returns_run _ Hret) as [g Hrun].
    destruct (notebook_run lib w g _ _ Hrun) as (r & _ & Hg & Hpure).
    rewrite Hrun, final_run. exists r.
    destruct Hpure as (_ & H1 & H2 & H3 & H4 & H5 & _).
    repeat (split; [assumption | ]).
    unfold namespace_of in Hg. rewrite !Forall_cons in Hg. rewrite !Forall_cons. tauto.
Qed.

Lemma C9_witness :
  (exists i j : nat,
     np.argmin [1; 1; 0; 1; 0] = Ok (Z.of_nat i) /\
     [1; 1; 0; 1; 0] !! i = Some 0 /\ (forall k, (k < i)%nat -> [1; 1; 0; 1; 0] !! k <> Some 0) /\
     np.argmax [1; 1; 0; 1; 0] = Ok (Z.of_nat j) /\
     [1; 1; 0; 1; 0] !! j = Some 1 /\ (forall k, (k < j)%nat -> [1; 1; 0; 1; 0] !! k <> Some 1) /\
     valid_selection [1; 1; 0; 1; 0] (Z.of_nat i) (Z.of_nat j)) /\
  (np.argmin [1; 1; 1] = Ok 0 /\ np.argmax [1; 1; 1] = Ok 0 /\
   ~ valid_selection [1; 1; 1] 0 0) /\
  (exists r : answers,
     np.argmin (lab r) = Ok (background_idx r) /\
     np.argmax (lab r) = Ok (signal_idx r) /\
     getitem (noisy r) (background_idx r) = Ok (ts_noise r) /\
     getitem (noisy r) (signal_idx r) = Ok (ts_background r) /\
     getitem (gw r) (signal_idx r) = Ok (ts_signal r) /\
     Forall (binds (final (run reference.lib (exec notebook ∅) reference.initial)))
            [ ("labels", VLabels (lab r));
              ("background_idx", VInt (background_idx r));
              ("signal_idx", VInt (signal_idx r));
              ("ts_noise", VSeries (ts_noise r));
              ("ts_background", VSeries (ts_background r));
              ("ts_signal", VSeries (ts_signal r)) ]).
Proof.
  split; [ | split].
  - apply (proj1 C9_argmin_argmax [1; 1; 0; 1; 0]).
    + repeat constructor; unfold binary; lia.
    + rewrite !elem_of_cons. auto.
    + rewrite !elem_of_cons. auto.
  - apply (proj1 (proj2 C9_argmin_argmax) [1; 1; 1]).
    + discriminate.
    + intros a b Ha Hb. rewrite !elem_of_cons, !elem_of_nil in Ha, Hb. intuition congruence.
  - apply (proj2 (proj2 C9_argmin_argmax) _ reference.lib reference.initial).
    vm_compute. reflexivity.
Defined.

(** * Further properties *)

(** The notebook as a program of calls. *)
Ltac expose_goal :=
  unfold notebook, cell_video_1, cell_video_2, cell_generate, cell_visualise,
    cell_embed_gw, cell_pca_gw, cell_embed_noise, cell_pipeline, cell_features,
    cell_split, cell_train, call_print_scores, new_single_embedder;
  unfold print_scores, pipeline_fit_transform,
    get_int, get_float, get_path, get_signals, get_series, get_labels, get_array,
    get_estimator, get_steps, get_pipeline, get_model, get_figure.

(** ** The sequence of the calls *)

(** The operations of a run of a program that follows [l] are an initial
    part of [l]. *)
Lemma follows_trace {W A : Type} (lib : forall X : Type, call X -> W -> result X * W)
    (p : prog A) (w : W) (l : list operation) :
  follows l p -> operations (trace (run lib p w)) `prefix_of` l.
Proof.
  revert w l. induction p as [A a | A e | A X c k IH | A C body IHb h IHh k IHk];
    intros w l Hp; cbn [follows run] in *.
  - apply prefix_nil.
  - apply prefix_nil.
  - destruct l as [|o l]; [destruct Hp | ]. destruct Hp as [Hc Hk].
    destruct (lib X c w) as [[x | e] w1].
    + specialize (IH x w1 l (Hk x)). destruct (run lib (k x) w1) as [[o' w2] t].
      subst o. apply prefix_cons, IH.
    + subst o. apply prefix_cons, prefix_nil.
  - destruct Hp.
Qed.

(** One step of the notebook: the next call is the next operation, from
    whatever the builtin before it returned. *)
Ltac follows_step :=
  repeat (progress (eval_loads_goal;
    cbn [bind lift call_ assign unpack expr cell_value in_place exec for_each
         fit_transform_steps bind_names app follows steps]));
  match goal with
  | |- True => exact I
  | |- _ /\ _ => split; [reflexivity | intros ?]
  | |- context [match ?v with pair _ _ => _ end] => is_var v; destruct v
  | |- context [lift ?r] => destruct r
  end.

Lemma notebook_follows : follows notebook_operations (exec notebook ∅).
Proof.
  unfold notebook_operations.
  expose_goal.
  repeat follows_step.
Qed.

(** X1. The notebook is straight-line code: whatever the libraries
    answer, the operations of a run -- which library function is called,
    with which estimator, curve name or video -- are an initial part of one
    fixed sequence of 33 operations, and all of it when the run returns. *)
Theorem X1_fixed_sequence_of_calls
    (W : Type) (lib : forall X : Type, call X -> W -> result X * W) (w : W) :
  operations (trace (run lib (exec notebook ∅) w)) `prefix_of` notebook_operations /\
  (returns (run lib (exec notebook ∅) w) = true ->
   operations (trace (run lib (exec notebook ∅) w)) = notebook_operations).
Proof.
  split.
  - apply follows_trace, notebook_follows.
  - intros Hret. destruct (returns_run _ Hret) as [g Hrun].
    destruct (notebook_run lib w g _ _ Hrun) as (r & Ht & _ & _).
    rewrite Hrun. cbn [trace snd]. rewrite Ht. reflexivity.
Qed.

Lemma X1_witness :
  operations (trace (run reference.lib (exec notebook ∅) reference.initial))
  = notebook_operations.
Proof.
  apply (proj2 (X1_fixed_sequence_of_calls _ reference.lib reference.initial)).
  vm_compute. reflexivity.
Defined.

(** ** The second column, and when the scores are defined *)

Lemma getitem_1 {A : Type} (row : list A) :
  getitem row 1 = match row !! 1%nat with
                  | Some a => Ok a
                  | None => Err (IndexError "index out of range")
                  end.
Proof. reflexivity. Qed.

Lemma column_cons (row : list Q) (rows : list (list Q)) :
  column 1 (row :: rows) =
  match row !! 1%nat, column 1 rows with
  | Some v, Ok l => Ok (v :: l)
  | None, _ => Err (IndexError "index out of range")
  | _, Err e => Err e
  end.
Proof.
  unfold column at 1. cbn [foldr]. rewrite getitem_1. fold (column 1 rows).
  destruct (row !! 1%nat); reflexivity.
Qed.

Lemma column_Ok (rows : list (list Q)) (l : list Q) :
  column 1 rows = Ok l <-> Forall2 (fun row v => row !! 1%nat = Some v) rows l.
Proof.
  revert l. induction rows as [|row rows IH]; intros l.
  - cbn. split.
    + intros [= <-]. constructor.
    + intros H. inversion H. reflexivity.
  - rewrite column_cons. split.
    + destruct (row !! 1%nat) as [v|] eqn:Hv; [ | discriminate].
      destruct (column 1 rows) as [l'|e]; [ | discriminate].
      intros [= <-]. constructor; [exact Hv | apply IH; reflexivity].
    + intros H. inversion H as [|? v ? l' Hv Hrest]; subst.
      rewrite Hv. apply IH in Hrest. rewrite Hrest. reflexivity.
Qed.

Lemma column_Err (rows : list (list Q)) :
  Exists (fun row => (length row < 2)%nat) rows ->
  column 1 rows = Err (IndexError "index out of range").
Proof.
  induction 1 as [row rows Hrow | row rows _ IH]; rewrite column_cons.
  - rewrite (lookup_ge_None_2 row 1) by lia. reflexivity.
  - rewrite IH. destruct (row !! 1%nat); reflexivity.
Qed.

Lemma column_defined (rows : list (list Q)) :
  Forall (fun row => (2 <= length row)%nat) rows ->
  exists l, column 1 rows = Ok l.
Proof.
  induction 1 as [|row rows Hrow _ IH].
  - exists []. reflexivity.
  - destruct IH as [l Hl]. rewrite column_cons, Hl.
    destruct (lookup_lt_is_Some_2 row 1 ltac:(lia)) as [v Hv]. rewrite Hv. eauto.
Qed.

Lemma column_rows (rows : list (list Q)) (l : list Q) :
  column 1 rows = Ok l ->
  length l = length rows /\ Forall (fun row => (2 <= length row)%nat) rows.
Proof.
  rewrite column_Ok. induction 1 as [|row v rows l Hv _ IH].
  - split; [reflexivity | constructor].
  - destruct IH as [IH1 IH2]. split; [cbn; lia | ].
    constructor; [ | exact IH2]. apply lookup_lt_Some in Hv. lia.
Qed.

Lemma accuracy_score_defined (a b : list Z) :
  length a = length b -> exists v, metrics.accuracy_score a b = Ok v.
Proof.
  intros H. unfold metrics.accuracy_score. rewrite H, Nat.eqb_refl. cbn [negb].
  destruct (length b); eauto.
Qed.

Lemma roc_auc_score_classes (y : list Z) (s : list Q) (v : pyfloat) :
  metrics.roc_auc_score y s = Ok v -> two_classes y /\ length y = length s.
Proof.
  unfold metrics.roc_auc_score, two_classes.
  destruct (metrics.distinct y) as [|a [|b [|c l]]]; try discriminate.
  destruct (Nat.eqb_spec (length y) (length s)); cbn [negb]; [ | discriminate].
  intros _. split; [reflexivity | assumption].
Qed.

Lemma roc_auc_score_defined (y : list Z) (s : list Q) :
  two_classes y -> length y = length s -> exists v, metrics.roc_auc_score y s = Ok v.
Proof.
  unfold metrics.roc_auc_score, two_classes. intros Hy Hl.
  destruct (metrics.distinct y) as [|a [|b [|c l]]]; try discriminate Hy.
  rewrite Hl, Nat.eqb_refl. cbn [negb].
  match goal with |- context [List.last ?l ?d] => destruct (List.last l d) end.
  eauto.
Qed.

Lemma two_classes_not_empty (y : list Z) : two_classes y -> y <> [].
Proof. intros H ->. discriminate H. Qed.

(** ** [print_scores]: what it needs, and when it prints *)

(** One step of a run of [print_scores] before it prints: when a name is
    unbound, a prediction raises or a score is not defined, the run ends
    and nothing has been printed. *)
Ltac score_step lib :=
  cbn [bind lift call_ for_each run app];
  match goal with
  | |- context [run lib (bind (load ?p ?k ?g ?x) ?f) ?w] =>
      rewrite (run_load lib p k g x f w);
      first [ match goal with E : g !! x ≫= p = _ |- _ => rewrite E end
            | destruct (g !! x ≫= p) eqn:?; [ | left; split; reflexivity] ]
  | |- context [lib ?X (predict ?m ?a) ?w] =>
      destruct (lib X (predict m a) w) as [[?|?] ?] eqn:?; [ | left; split; reflexivity]
  | |- context [lib ?X (predict_proba ?m ?a) ?w] =>
      destruct (lib X (predict_proba m a) w) as [[?|?] ?] eqn:?; [ | left; split; reflexivity]
  | |- context [lift ?r] => destruct r eqn:?; [ | left; split; reflexivity]
  end.

Ltac print_step lib :=
  cbn [bind lift call_ for_each run app];
  match goal with
  | |- context [lib ?X (print ?l) ?w] =>
      destruct (lib X (print l) w) as [[[]|?] ?] eqn:?
  end.

Lemma print_scores_cases {W : Type} (lib : forall X : Type, call X -> W -> result X * W)
    (m : model) (g : globals) (w : W) :
  (omap printed (trace (run lib (print_scores m g) w)) = [] /\
   returns (run lib (print_scores m g) w) = false) \/
  exists (s : scores) (rest : list entry),
    trace (run lib (print_scores m g) w) = scoring_trace m s ++ rest /\
    rest <> [] /\ Forall is_print rest /\
    omap printed rest `prefix_of` printed_lines s /\
    Forall (binds g) [ ("X_train", VArray (X_train s)); ("y_train", VLabels (y_train s));
                       ("X_valid", VArray (X_valid s)); ("y_valid", VLabels (y_valid s)) ] /\
    scores_computed s.
Proof.
  unfold print_scores, get_array, get_labels.
  repeat score_step lib.
  right.
  repeat match goal with
         | E : _ !! _ ≫= as_array = Some _ |- _ => apply lookup_as_array in E
         | E : _ !! _ ≫= as_labels = Some _ |- _ => apply lookup_as_labels in E
         end.
  unshelve eexists; [econstructor; shelve | ].
  repeat print_step lib;
    cbn [bind lift call_ for_each run app trace snd];
    (eexists; split; [unfold scoring_trace; cbn; reflexivity | ];
     split; [discriminate | ];
     split; [repeat constructor; discriminate | ];
     split; [eexists; cbn; reflexivity | ];
     split; [repeat constructor; cbn; eassumption | ];
     unfold scores_computed; cbn; repeat split; eassumption).
Qed.

Lemma printed_scoring_trace (m : model) (s : scores) (rest : list entry) :
  omap printed (scoring_trace m s ++ rest) = omap printed rest.
Proof. reflexivity. Qed.

(** X2. [print_scores] computes the four scores before it prints: in
    every run in which a line is printed, the four requests for predictions
    have returned and the six scores and columns are defined, what follows
    are prints only, and the lines are the four lines of the scores, or the
    first of them when a print raises. *)
Theorem X2_scores_before_printing
    (W : Type) (lib : forall X : Type, call X -> W -> result X * W) (w : W)
    (m : model) (g : globals) :
  omap printed (trace (run lib (print_scores m g) w)) <> [] ->
  exists (s : scores) (rest : list entry),
    trace (run lib (print_scores m g) w) = scoring_trace m s ++ rest /\
    Forall is_print rest /\
    omap printed (trace (run lib (print_scores m g) w)) `prefix_of` printed_lines s /\
    scores_computed s.
Proof.
  intros Hp.
  destruct (print_scores_cases lib m g w) as [[Hnone _] | (s & rest & Ht & _ & Hr & Hpre & _ & Hs)];
    [congruence | ].
  exists s, rest. rewrite Ht at 2. rewrite printed_scoring_trace. auto.
Qed.

Lemma X2_witness :
  exists (s : scores) (rest : list entry),
    trace (run reference.lib (print_scores reference.fitted_model reference.small_split)
               reference.initial)
    = scoring_trace reference.fitted_model s ++ rest /\
    Forall is_print rest /\
    omap printed (trace (run reference.lib
                             (print_scores reference.fitted_model reference.small_split)
                             reference.initial)) `prefix_of` printed_lines s /\
    scores_computed s.
Proof.
  apply (X2_scores_before_printing _ reference.lib reference.initial).
  vm_compute. discriminate.
Defined.

(** X3. A call of [print_scores] returns only if each of [y_train] and
    [y_valid] contains exactly two classes, the model answers with one
    predicted label and one row of probabilities for every label, and
    every row of probabilities has a second entry. *)
Theorem X3_print_scores_requires
    (W : Type) (lib : forall X : Type, call X -> W -> result X * W) (w : W)
    (m : model) (g : globals) :
  returns (run lib (print_scores m g) w) = true ->
  exists s : scores,
    trace (run lib (print_scores m g) w) = scoring_trace m s ++ printing_trace s /\
    Forall (binds g) [ ("X_train", VArray (X_train s)); ("y_train", VLabels (y_train s));
                       ("X_valid", VArray (X_valid s)); ("y_valid", VLabels (y_valid s)) ] /\
    two_classes (y_train s) /\ two_classes (y_valid s) /\
    length (pred_train s) = length (y_train s) /\
    length (proba_train s) = length (y_train s) /\
    Forall (fun row => (2 <= length row)%nat) (proba_train s) /\
    length (pred_valid s) = length (y_valid s) /\
    length (proba_valid s) = length (y_valid s) /\
    Forall (fun row => (2 <= length row)%nat) (proba_valid s).
Proof.
  intros Hret. destruct (returns_run _ Hret) as [u Hrun].
  destruct (print_scores_run lib m g w u _ _ Hrun) as (s & Ht & Hg & Hs).
  rewrite Hrun. cbn [trace snd]. exists s.
  destruct Hs as (Ha1 & Hc1 & Hr1 & Ha2 & Hc2 & Hr2).
  apply accuracy_score_lengths in Ha1, Ha2.
  apply roc_auc_score_classes in Hr1 as [Hy1 Hl1], Hr2 as [Hy2 Hl2].
  apply column_rows in Hc1 as [Hn1 Hrows1], Hc2 as [Hn2 Hrows2].
  repeat split; try assumption; congruence.
Qed.

Lemma X3_witness :
  exists s : scores,
    trace (run reference.lib (print_scores reference.fitted_model reference.small_split)
               reference.initial)
    = scoring_trace reference.fitted_model s ++ printing_trace s /\
    Forall (binds reference.small_split)
           [ ("X_train", VArray (X_train s)); ("y_train", VLabels (y_train s));
             ("X_valid", VArray (X_valid s)); ("y_valid", VLabels (y_valid s)) ] /\
    two_classes (y_train s) /\ two_classes (y_valid s) /\
    length (pred_train s) = length (y_train s) /\
    length (proba_train s) = length (y_train s) /\
    Forall (fun row => (2 <= length row)%nat) (proba_train s) /\
    length (pred_valid s) = length (y_valid s) /\
    length (proba_valid s) = length (y_valid s) /\
    Forall (fun row => (2 <= length row)%nat) (proba_valid s).
Proof.
  apply (X3_print_scores_requires _ reference.lib reference.initial).
  vm_compute. reflexivity.
Defined.

(** X4. [X_train], [y_train], [X_valid] and [y_valid] are read from the
    global namespace when [print_scores] is called: when [X_train] is
    unbound the call raises [NameError] before anything is asked of the
    model; when any of the four names is unbound the call does not return
    and prints nothing. *)
Theorem X4_print_scores_unbound
    (W : Type) (lib : forall X : Type, call X -> W -> result X * W) (w : W)
    (m : model) (g : globals) :
  (g !! "X_train" = None ->
   run lib (print_scores m g) w = (Err (NameError "X_train"), w, [])) /\
  (forall x : string,
     x ∈ ["X_train"; "y_train"; "X_valid"; "y_valid"] -> g !! x = None ->
     returns (run lib (print_scores m g) w) = false /\
     omap printed (trace (run lib (print_scores m g) w)) = []).
Proof.
  split.
  - intros Hx. unfold print_scores, get_array. rewrite run_load, Hx. reflexivity.
  - intros x Hx Hnone.
    destruct (print_scores_cases lib m g w) as [[Hp Hr] | (s & rest & _ & _ & _ & _ & Hg & _)];
      [auto | exfalso].
    unfold binds in Hg. rewrite !Forall_cons in Hg. cbn [fst snd] in Hg.
    rewrite !elem_of_cons, elem_of_nil in Hx.
    destruct Hx as [-> | [-> | [-> | [-> | []]]]]; intuition congruence.
Qed.

Lemma X4_witness :
  (run reference.lib (print_scores reference.fitted_model ∅) reference.initial
   = (Err (NameError "X_train"), reference.initial, [])) /\
  (returns (run reference.lib
                (print_scores reference.fitted_model (delete "y_valid" reference.small_split))
                reference.initial) = false /\
   omap printed (trace (run reference.lib
                            (print_scores reference.fitted_model
                                          (delete "y_valid" reference.small_split))
                            reference.initial)) = []).
Proof.
  split.
  - apply (proj1 (X4_print_scores_unbound _ reference.lib reference.initial
                    reference.fitted_model ∅)).
    reflexivity.
  - apply (proj2 (X4_print_scores_unbound _ reference.lib reference.initial
                    reference.fitted_model (delete "y_valid" reference.small_split))
             "y_valid").
    + rewrite !elem_of_cons. auto.
    + vm_compute. reflexivity.
Defined.

(** One step of a run of [print_scores] with a library that answers. *)
Ltac returns_step lib :=
  cbn [bind lift call_ for_each run app];
  match goal with
  | Hg : ?g !! ?x = Some _ |- context [run lib (bind (load ?p ?k ?g ?x) ?f) ?w] =>
      rewrite (run_load lib p k g x f w), Hg; cbn [mbind option_bind as_array as_labels]
  | Hp : predicts lib ?m ?X _ |- context [lib _ (predict ?m ?X) ?w] =>
      let r := fresh "r" in
      let E := fresh "E" in
      destruct (proj1 (Hp w)) as (? & E & ?);
      destruct (lib _ (predict m X) w) as [r ?]; cbn [fst] in E; subst r
  | Hp : predicts lib ?m ?X _ |- context [lib _ (predict_proba ?m ?X) ?w] =>
      let r := fresh "r" in
      let E := fresh "E" in
      destruct (proj2 (Hp w)) as (? & E & ? & ?);
      destruct (lib _ (predict_proba m X) w) as [r ?]; cbn [fst] in E; subst r
  | Hp : print_returns lib |- context [lib _ (print ?l) ?w] =>
      let r := fresh "r" in
      let E := fresh "E" in
      pose proof (Hp l w) as E;
      destruct (lib _ (print l) w) as [r ?]; cbn [fst] in E; subst r
  | |- context [lift (metrics.accuracy_score ?a ?b)] =>
      let E := fresh "E" in
      destruct (accuracy_score_defined a b) as [? E]; [congruence | rewrite E]
  | |- context [lift (column 1 ?rows)] =>
      let E := fresh "E" in
      destruct (column_defined rows) as [? E]; [assumption | ];
      pose proof (column_rows _ _ E) as [? _]; rewrite E
  | |- context [lift (metrics.roc_auc_score ?y ?s)] =>
      let E := fresh "E" in
      destruct (roc_auc_score_defined y s) as [? E]; [assumption | congruence | rewrite E]
  end.

(** X5. A call of [print_scores] returns, and prints its four lines,
    whenever the four names are bound, each of [y_train] and [y_valid]
    contains exactly two classes, the model answers with one predicted
    label and one row of at least two probabilities for every sample, and
    [print] does not raise. *)
Theorem X5_print_scores_returns
    (W : Type) (lib : forall X : Type, call X -> W -> result X * W) (w : W)
    (m : model) (g : globals) (X_tr X_va : ndarray) (y_tr y_va : list Z) :
  Forall (binds g) [ ("X_train", VArray X_tr); ("y_train", VLabels y_tr);
                     ("X_valid", VArray X_va); ("y_valid", VLabels y_va) ] ->
  two_classes y_tr -> two_classes y_va ->
  predicts lib m X_tr (length y_tr) -> predicts lib m X_va (length y_va) ->
  print_returns lib ->
  returns (run lib (print_scores m g) w) = true /\
  length (omap printed (trace (run lib (print_scores m g) w))) = 4%nat.
Proof.
  intros Hg Hy1 Hy2 Hp1 Hp2 Hpr.
  unfold binds in Hg. rewrite !Forall_cons in Hg. cbn [fst snd] in Hg.
  destruct Hg as (Hg1 & Hg2 & Hg3 & Hg4 & _).
  unfold print_scores, get_array, get_labels.
  repeat returns_step lib.
  split; reflexivity.
Qed.

Lemma reference_predicts (X : ndarray) :
  predicts reference.lib reference.fitted_model X (length (reference.rows X)).
Proof.
  intros w. split; cbn; eexists; (split; [reflexivity | ]).
  - apply length_map.
  - split; [apply length_map | ]. apply Forall_map, Forall_forall. intros; cbn. lia.
Defined.

Lemma X5_witness :
  returns (run reference.lib (print_scores reference.fitted_model reference.small_split)
               reference.initial) = true /\
  length (omap printed (trace (run reference.lib
                                   (print_scores reference.fitted_model reference.small_split)
                                   reference.initial))) = 4%nat.
Proof.
  apply (X5_print_scores_returns _ reference.lib reference.initial reference.fitted_model
           reference.small_split
           (Arr [Arr [Num 1]; Arr [Num 0]; Arr [Num (3 # 4)]; Arr [Num (1 # 4)]])
           (Arr [Arr [Num (1 # 3)]; Arr [Num (2 # 3)]])
           [1; 0; 0; 1] [0; 1]).
  - repeat constructor; vm_compute; reflexivity.
  - vm_compute. reflexivity.
  - vm_compute. reflexivity.
  - exact (reference_predicts _).
  - exact (reference_predicts _).
  - intros args w. reflexivity.
Defined.

(** ** The second column of the probabilities *)

(** X6. On an array of probabilities with a row or more,
    [predict_proba(X)[:, 1]] is, for every sample, the second entry of its
    row, and raises [IndexError] when a row has none; these are the scores
    that [print_scores] gives to [roc_auc_score], one for every label. *)
Theorem X6_second_column :
  (forall (rows : list (list Q)) (l : list Q),
     rows <> [] ->
     (column 1 rows = Ok l <-> Forall2 (fun row v => row !! 1%nat = Some v) rows l)) /\
  (forall rows : list (list Q),
     Exists (fun row => (length row < 2)%nat) rows ->
     column 1 rows = Err (IndexError "index out of range")) /\
  (forall (W : Type) (lib : forall X : Type, call X -> W -> result X * W) (w : W)
          (m : model) (g : globals),
     returns (run lib (print_scores m g) w) = true ->
     exists s : scores,
       trace (run lib (print_scores m g) w) = scoring_trace m s ++ printing_trace s /\
       proba_train s <> [] /\
       Forall2 (fun row v => row !! 1%nat = Some v) (proba_train s) (score_train s) /\
       metrics.roc_auc_score (y_train s) (score_train s) = Ok (auc_train s) /\
       length (score_train s) = length (y_train s) /\
       proba_valid s <> [] /\
       Forall2 (fun row v => row !! 1%nat = Some v) (proba_valid s) (score_valid s) /\
       metrics.roc_auc_score (y_valid s) (score_valid s) = Ok (auc_valid s) /\
       length (score_valid s) = length (y_valid s)).
Proof.
  split; [intros rows l _; apply column_Ok | split; [exact column_Err | ]].
  intros W lib w m g Hret. destruct (returns_run _ Hret) as [u Hrun].
  destruct (print_scores_run lib m g w u _ _ Hrun) as (s & Ht & _ & Hs).
  rewrite Hrun. cbn [trace snd]. exists s.
  destruct Hs as (_ & Hc1 & Hr1 & _ & Hc2 & Hr2).
  pose proof (roc_auc_score_classes _ _ _ Hr1) as [Hy1 Hl1].
  pose proof (roc_auc_score_classes _ _ _ Hr2) as [Hy2 Hl2].
  pose proof (two_classes_not_empty _ Hy1) as Hn1.
  pose proof (two_classes_not_empty _ Hy2) as Hn2.
  pose proof (proj1 (column_rows _ _ Hc1)) as Hrows1.
  pose proof (proj1 (column_rows _ _ Hc2)) as Hrows2.
  apply column_Ok in Hc1, Hc2.
  assert (Hp1 : proba_train s <> []).
  { intros E. rewrite E in Hrows1. destruct (y_train s); [congruence | ].
    destruct (score_train s); discriminate. }
  assert (Hp2 : proba_valid s <> []).
  { intros E. rewrite E in Hrows2. destruct (y_valid s); [congruence | ].
    destruct (score_valid s); discriminate. }
  auto 12.
Qed.

Lemma X6_witness :
  Forall2 (fun row v => row !! 1%nat = Some v) [[1 # 4; 3 # 4]; [1; 0]]%Q [3 # 4; 0]%Q /\
  column 1 [[1 # 4; 3 # 4]; [1]]%Q = Err (IndexError "index out of range") /\
  exists s : scores,
    trace (run reference.lib (print_scores reference.fitted_model reference.small_split)
               reference.initial)
    = scoring_trace reference.fitted_model s ++ printing_trace s /\
    proba_train s <> [] /\
    Forall2 (fun row v => row !! 1%nat = Some v) (proba_train s) (score_train s) /\
    metrics.roc_auc_score (y_train s) (score_train s) = Ok (auc_train s) /\
    length (score_train s) = length (y_train s) /\
    proba_valid s <> [] /\
    Forall2 (fun row v => row !! 1%nat = Some v) (proba_valid s) (score_valid s) /\
    metrics.roc_auc_score (y_valid s) (score_valid s) = Ok (auc_valid s) /\
    length (score_valid s) = length (y_valid s).
Proof.
  split; [ | split].
  - apply (proj1 (proj1 X6_second_column [[1 # 4; 3 # 4]; [1; 0]]%Q [3 # 4; 0]%Q
                    ltac:(discriminate))).
    reflexivity.
  - apply (proj1 (proj2 X6_second_column) [[1 # 4; 3 # 4]; [1]]%Q).
    apply Exists_cons_tl, Exists_cons_hd. cbn. lia.
  - apply (proj2 (proj2 X6_second_column) _ reference.lib reference.initial).
    vm_compute. reflexivity.
Defined.

(** ** Degenerate data *)

(** One step of a run, whatever the library answers. *)
Ltac run_step lib :=
  repeat (progress (eval_loads_goal;
    cbn [bind lift call_ assign unpack expr cell_value in_place exec for_each
         fit_transform_steps bind_names app run steps firstn]));
  match goal with
  | |- context [lib ?X ?c ?w] => destruct (lib X c w) as [[?|?] ?] eqn:?
  | |- context [match ?v with pair _ _ => _ end] => is_var v; destruct v
  | |- context [lift ?r] => destruct r eqn:?
  end.

Ltac run_prefix lib n :=
  rewrite <- (take_drop n notebook), run_exec_app;
  generalize (drop n notebook); intros later;
  unfold after_counts, after_argmin;
  expose_notebook;
  unfold get_int, get_float, get_path, get_signals, get_labels;
  cbn [firstn app];
  repeat run_step lib;
  cbn [bind lift call_ run];
  try match goal with
      | |- context [run lib ?p ?w] => destruct (run lib p w) as [[? ?] ?]
      end;
  cbn [trace outcome returns fst snd app omap printed generated raised
       entry_call entry_result mbind option_bind].

(** Each case of a run on degenerate data: the generator did not return
    this data, or the run ended as stated. *)
Ltac degenerate :=
  let Hgen := fresh "Hgen" in
  intros Hgen; cbn in Hgen; simplify_eq;
  repeat match goal with
         | H : getitem _ _ = _ |- _ => progress vm_compute in H
         | H : np.argmin _ = _ |- _ => progress vm_compute in H
         end;
  try discriminate;
  repeat split; try reflexivity;
  let Hall := fresh "Hall" in
  intros Hall; rewrite ?Forall_cons in Hall; cbn in Hall;
  first [ congruence | intuition congruence ].

(** X7. When the generator returns no series, the notebook prints that
    the number of noisy signals is 0 and then fails on
    [noisy_signals[0]]: unless a library call raised, the run ends with
    [IndexError], and nothing else is printed.  When it returns series but
    no label, the run fails on [np.argmin(labels)], with [ValueError]
    unless a library call raised, before anything is plotted or fitted. *)
Theorem X7_degenerate_data
    (W : Type) (lib : forall X : Type, call X -> W -> result X * W) (w : W) :
  (forall (gw : list (list Q)) (lab : list Z),
     omap generated (trace (run lib (exec notebook ∅) w)) = [([], gw, lab)] ->
     returns (run lib (exec notebook ∅) w) = false /\
     omap printed (trace (run lib (exec notebook ∅) w))
     = [[PrFString [Lit "Number of noisy signals: "; FmtInt 0]]] /\
     (Forall (fun e => raised e = None) (trace (run lib (exec notebook ∅) w)) ->
      outcome (run lib (exec notebook ∅) w) = Err (IndexError "index out of range"))) /\
  (forall (noisy gw : list (list Q)),
     omap generated (trace (run lib (exec notebook ∅) w)) = [(noisy, gw, [])] ->
     noisy <> [] ->
     returns (run lib (exec notebook ∅) w) = false /\
     omap stage_of (trace (run lib (exec notebook ∅) w)) = [Generation] /\
     (Forall (fun e => raised e = None) (trace (run lib (exec notebook ∅) w)) ->
      outcome (run lib (exec notebook ∅) w)
      = Err (ValueError "attempt to get argmin of an empty sequence"))).
Proof.
  split.
  - intros gw lab. run_prefix lib after_counts; degenerate.
  - intros noisy gw. run_prefix lib after_argmin; try solve [degenerate].
    intros Hgen Hne. cbn in Hgen. simplify_eq.
    destruct noisy; [congruence | ].
    match goal with H : getitem _ _ = Err _ |- _ => vm_compute in H; discriminate H end.
Qed.

Lemma X7_witness :
  (returns (run (with_generated ([], [], []) reference.lib) (exec notebook ∅)
                reference.initial) = false /\
   omap printed (trace (run (with_generated ([], [], []) reference.lib) (exec notebook ∅)
                            reference.initial))
   = [[PrFString [Lit "Number of noisy signals: "; FmtInt 0]]] /\
   outcome (run (with_generated ([], [], []) reference.lib) (exec notebook ∅)
                reference.initial)
   = Err (IndexError "index out of range")) /\
  (returns (run (with_generated ([[1; 2]%Q], [[1; 2]%Q], []) reference.lib)
                (exec notebook ∅) reference.initial) = false /\
   omap stage_of (trace (run (with_generated ([[1; 2]%Q], [[1; 2]%Q], []) reference.lib)
                             (exec notebook ∅) reference.initial))
   = [Generation] /\
   outcome (run (with_generated ([[1; 2]%Q], [[1; 2]%Q], []) reference.lib)
                (exec notebook ∅) reference.initial)
   = Err (ValueError "attempt to get argmin of an empty sequence")).
Proof.
  split.
  - destruct (proj1 (X7_degenerate_data _ (with_generated ([], [], []) reference.lib)
                       reference.initial) [] []) as (H1 & H2 & H3).
    + vm_compute. reflexivity.
    + split; [exact H1 | split; [exact H2 | apply H3]].
      vm_compute. repeat constructor.
  - destruct (proj2 (X7_degenerate_data _ (with_generated ([[1; 2]%Q], [[1; 2]%Q], [])
                                             reference.lib)
                       reference.initial) [[1; 2]%Q] [[1; 2]%Q]) as (H1 & H2 & H3).
    + vm_compute. reflexivity.
    + discriminate.
    + split; [exact H1 | split; [exact H2 | apply H3]].
      vm_compute. repeat constructor.
Defined.

(** ** The lines of the generation cell *)

(** X8. Whenever a run prints two lines or more, the first two report
    the number of series that the generator returned and the number of
    samples of the first series. *)
Theorem X8_counts_printed
    (W : Type) (lib : forall X : Type, call X -> W -> result X * W) (w : W) :
  (2 <= length (omap printed (trace (run lib (exec notebook ∅) w))))%nat ->
  exists (noisy gw : list (list Q)) (lab : list Z) (first : list Q),
    head (omap generated (trace (run lib (exec notebook ∅) w))) = Some (noisy, gw, lab) /\
    getitem noisy 0 = Ok first /\
    take 2 (omap printed (trace (run lib (exec notebook ∅) w)))
    = count_lines (len noisy) (len first).
Proof.
  run_prefix lib after_counts;
    intros Hlen; cbn in Hlen; try lia;
    do 4 eexists; (split; [reflexivity | split; [eassumption | reflexivity]]).
Qed.

Lemma X8_witness :
  exists (noisy gw : list (list Q)) (lab : list Z) (first : list Q),
    head (omap generated (trace (run reference.lib (exec notebook ∅) reference.initial)))
    = Some (noisy, gw, lab) /\
    getitem noisy 0 = Ok first /\
    take 2 (omap printed (trace (run reference.lib (exec notebook ∅) reference.initial)))
    = count_lines (len noisy) (len first).
Proof.
  apply (X8_counts_printed _ reference.lib reference.initial).
  vm_compute. lia.
Defined.

(** ** The curves *)

Lemma line_trace_indexed (ts : list Q) (name : string) : indexed (line_trace ts name).
Proof.
  unfold indexed, line_trace, range, len. cbn [x y]. rewrite Nat2Z.id. split.
  - rewrite length_map, length_seq. reflexivity.
  - intros i Hi. rewrite list_lookup_fmap, lookup_seq_lt by exact Hi. reflexivity.
Qed.

(** X9. Every curve that the notebook adds to a figure, in every run
    and from every namespace, is drawn as a line over the index of its
    samples: abscissa [i] for the sample [i], one abscissa for each
    sample. *)
Theorem X9_curves_over_sample_index
    (W : Type) (lib : forall X : Type, call X -> W -> result X * W) (w : W) (g : globals) :
  Forall (fun e => adds_indexed_lines _ (entry_call e)) (trace (run lib (exec notebook g) w)).
Proof.
  apply uses_trace, uses_exec.
  unfold notebook, cell_video_1, cell_video_2, cell_generate, cell_visualise,
    cell_embed_gw, cell_pca_gw, cell_embed_noise, cell_pipeline, cell_features,
    cell_split, cell_train.
  cbn [app].
  repeat (constructor;
    [solve [uses_stmt;
            first [exact I | split; [apply line_trace_indexed | reflexivity]]] | ]).
  constructor.
Qed.

(** ** What a cell reads first *)

(** X10. The cells that work on the data of earlier cells read, before
    they apply a library function to data, a name that an earlier cell
    binds: run in a namespace where this name is unbound, each of them
    raises [NameError] for it, and no call has been made. *)
Theorem X10_cells_need_earlier_cells
    (W : Type) (lib : forall X : Type, call X -> W -> result X * W) (w : W) (g : globals) :
  Forall (fun '(cell, x) =>
            g !! x = None -> run lib (exec cell g) w = (Err (NameError x), w, []))
         first_reads.
Proof.
  unfold first_reads, cell_visualise, cell_embed_gw, cell_pca_gw, cell_features,
    cell_split, cell_train, new_single_embedder, in_place,
    get_int, get_float, get_path, get_signals, get_series, get_labels, get_array,
    get_estimator, get_steps, get_pipeline, get_model, get_figure.
  unfold load.
  repeat (apply Forall_cons_2;
    [ intros Hx;
      repeat (progress (cbn [exec assign unpack expr bind lift call_ run
                             as_int as_estimator as_model as_array];
                        rewrite ?lookup_insert_eq, ?Hx;
                        rewrite ?lookup_insert_ne by discriminate));
      reflexivity | ]).
  apply Forall_nil_2.
Qed.

Lemma X10_witness :
  Forall (fun '(cell, x) =>
            run reference.lib (exec cell ∅) reference.initial
            = (Err (NameError x), reference.initial, []))
         first_reads.
Proof.
  eapply Forall_impl;
    [exact (X10_cells_need_earlier_cells _ reference.lib reference.initial ∅) | ].
  intros [cell x] H. apply H. reflexivity.
Defined.

(** ** The exceptions of the notebook's own operations *)

(** A run that does not return ends with the exception of its last step,
    a call that raised, or -- no call having raised -- with an exception of
    its own. *)
Lemma raises_outcome (P : exn -> Prop) {W A : Type}
    (lib : forall X : Type, call X -> W -> result X * W) (p : prog A) (w : W) (e : exn) :
  raises P p -> outcome (run lib p w) = Err e ->
  last (trace (run lib p w)) ≫= raised = Some e \/
  (Forall (fun s => raised s = None) (trace (run lib p w)) /\ P e).
Proof.
  revert w. induction p as [A a | A e' | A X c k IH | A C body IHb h IHh k IHk];
    intros w Hp Ho; cbn [raises run] in *.
  - discriminate Ho.
  - injection Ho as ->. right. split; [constructor | exact Hp].
  - destruct (lib X c w) as [[x | e'] w1].
    + specialize (IH x w1 (Hp x)). destruct (run lib (k x) w1) as [[o w2] t].
      cbn [outcome trace fst snd] in *. destruct (IH Ho) as [Hl | [Hall HP]].
      * left. destruct t as [|s t]; [discriminate Hl | ]. exact Hl.
      * right. split; [constructor; [reflexivity | exact Hall] | exact HP].
    + injection Ho as ->. left. reflexivity.
  - destruct Hp.
Qed.

Lemma getitem_error {A : Type} (l : list A) (i : Z) (e : exn) :
  getitem l i = Err e -> index_or_value_error e.
Proof.
  unfold getitem. destruct (_ <? 0); [intros [= <-]; exact I | ].
  destruct (l !! _); [discriminate | intros [= <-]; exact I].
Qed.

Lemma argmin_error (a : list Z) (e : exn) : np.argmin a = Err e -> index_or_value_error e.
Proof. destruct a; [intros [= <-]; exact I | discriminate]. Qed.

Lemma argmax_error (a : list Z) (e : exn) : np.argmax a = Err e -> index_or_value_error e.
Proof. destruct a; [intros [= <-]; exact I | discriminate]. Qed.

Lemma accuracy_score_error (a b : list Z) (e : exn) :
  metrics.accuracy_score a b = Err e -> index_or_value_error e.
Proof.
  unfold metrics.accuracy_score. destruct (negb _); [intros [= <-]; exact I | ].
  destruct (length a); discriminate.
Qed.

Lemma roc_auc_score_error (y : list Z) (s : list Q) (e : exn) :
  metrics.roc_auc_score y s = Err e -> index_or_value_error e.
Proof.
  unfold metrics.roc_auc_score.
  destruct (metrics.distinct y) as [|a [|b [|c l]]]; try (intros [= <-]; exact I).
  destruct (negb _); [intros [= <-]; exact I | ].
  match goal with |- context [List.last ?l ?d] => destruct (List.last l d) end.
  discriminate.
Qed.

Lemma column_error (rows : list (list Q)) (e : exn) :
  column 1 rows = Err e -> index_or_value_error e.
Proof.
  induction rows as [|row rows IH]; [discriminate | ]. rewrite column_cons.
  destruct (row !! 1%nat); [ | intros [= <-]; exact I].
  destruct (column 1 rows); [discriminate | ]. intros [= <-]. apply IH. reflexivity.
Qed.

Ltac own_error :=
  match goal with
  | E : getitem _ _ = Err ?e |- _ => exact (getitem_error _ _ _ E)
  | E : np.argmin _ = Err ?e |- _ => exact (argmin_error _ _ E)
  | E : np.argmax _ = Err ?e |- _ => exact (argmax_error _ _ E)
  | E : metrics.accuracy_score _ _ = Err ?e |- _ => exact (accuracy_score_error _ _ _ E)
  | E : metrics.roc_auc_score _ _ = Err ?e |- _ => exact (roc_auc_score_error _ _ _ E)
  | E : column 1 _ = Err ?e |- _ => exact (column_error _ _ E)
  end.

(** One step of the notebook: every name read is bound, and a builtin
    that raises raises one of its own exceptions. *)
Ltac raises_step :=
  repeat (progress (eval_loads_goal;
    cbn [bind lift call_ assign unpack expr cell_value in_place exec for_each
         fit_transform_steps bind_names app raises steps]));
  match goal with
  | |- True => exact I
  | |- index_or_value_error _ => own_error
  | |- forall _, _ => intros ?
  | |- context [match ?v with pair _ _ => _ end] => is_var v; destruct v
  | |- context [lift ?r] => destruct r eqn:?
  end.

Lemma notebook_raises : raises index_or_value_error (exec notebook ∅).
Proof.
  expose_goal.
  repeat raises_step.
Qed.

(** X11. Run from top to bottom, the notebook reads no name before a
    statement has bound it, to an object of the kind it needs: a run that
    does not return ends with the exception of the library call that
    raised, its last step, or -- no call having raised -- with the
    [IndexError] of an indexing or the [ValueError] of numpy or
    sklearn.metrics; never with a [NameError] or a [TypeError] of its
    own. *)
Theorem X11_names_bound_before_use
    (W : Type) (lib : forall X : Type, call X -> W -> result X * W) (w : W) (e : exn) :
  outcome (run lib (exec notebook ∅) w) = Err e ->
  last (trace (run lib (exec notebook ∅) w)) ≫= raised = Some e \/
  (Forall (fun s => raised s = None) (trace (run lib (exec notebook ∅) w)) /\
   index_or_value_error e).
Proof. apply raises_outcome, notebook_raises. Qed.

Lemma X11_witness :
  (last (trace (run reference.lib (exec notebook ∅) reference.no_data)) ≫= raised
   = Some (LibraryError "FileNotFoundError") \/
   (Forall (fun s => raised s = None)
           (trace (run reference.lib (exec notebook ∅) reference.no_data)) /\
    index_or_value_error (LibraryError "FileNotFoundError"))) /\
  (last (trace (run (with_generated ([], [], []) reference.lib) (exec notebook ∅)
                    reference.initial)) ≫= raised
   = Some (IndexError "index out of range") \/
   (Forall (fun s => raised s = None)
           (trace (run (with_generated ([], [], []) reference.lib) (exec notebook ∅)
                       reference.initial)) /\
    index_or_value_error (IndexError "index out of range"))).
Proof.
  split.
  - apply (X11_names_bound_before_use _ reference.lib reference.no_data).
    vm_compute. reflexivity.
  - apply (X11_names_bound_before_use _ (with_generated ([], [], []) reference.lib)
             reference.initial).
    vm_compute. reflexivity.
Defined.

(** ** A run that returns *)

Lemma getitem_defined {A : Type} (l : list A) (i : Z) :
  0 <= i < len l -> exists a, getitem l i = Ok a.
Proof.
  unfold len. intros Hi.
  destruct (lookup_lt_is_Some_2 l (Z.to_nat i) ltac:(lia)) as [a Ha].
  exists a. rewrite <- (Z2Nat.id i) by lia. apply getitem_nat, Ha.
Qed.

Lemma argmin_defined (a : list Z) :
  a <> [] -> exists i : Z, np.argmin a = Ok i /\ 0 <= i < len a.
Proof.
  intros Ha. destruct (np.argmin a) as [i | e] eqn:E; [ | destruct a; [congruence | discriminate E]].
  destruct (argmin_spec _ _ E) as (r & -> & m & Hm & _). eexists. split; [reflexivity | ].
  apply lookup_lt_Some in Hm. unfold len. lia.
Qed.

Lemma argmax_defined (a : list Z) :
  a <> [] -> exists i : Z, np.argmax a = Ok i /\ 0 <= i < len a.
Proof.
  intros Ha. destruct (np.argmax a) as [i | e] eqn:E; [ | destruct a; [congruence | discriminate E]].
  destruct (argmax_spec _ _ E) as (r & -> & m & Hm & _). eexists. split; [reflexivity | ].
  apply lookup_lt_Some in Hm. unfold len. lia.
Qed.

Lemma not_empty_len {A : Type} (l : list A) : l <> [] -> 0 < len l.
Proof. destruct l; [congruence | unfold len; cbn; lia]. Qed.

(** The first step of a run whose steps all satisfy [P]. *)
Lemma run_Call_inv {W A X : Type} (lib : forall X : Type, call X -> W -> result X * W)
    (P : entry -> Prop) (c : call X) (k : X -> prog A) (w : W)
    (o : result A) (w' : W) (t : list entry) :
  run lib (Call c k) w = (o, w', t) -> Forall P t ->
  exists (r : result X) (w1 : W) (t' : list entry),
    t = Entry c r :: t' /\ P (Entry c r) /\ Forall P t' /\
    match r with
    | Ok x => run lib (k x) w1 = (o, w', t')
    | Err e => True
    end.
Proof.
  cbn [run]. destruct (lib X c w) as [[x | e] w1].
  - destruct (run lib (k x) w1) as [[o1 w2] t1] eqn:Hk. intros [= <- <- <-] Hall.
    apply Forall_cons in Hall as [H1 Hall]. exists (Ok x), w1, t1. repeat split; auto.
  - intros [= <- <- <-] Hall. apply Forall_cons in Hall as [H1 Hall].
    exists (Err e), w1, []. repeat split; auto.
Qed.

(** One step of a run in which no call raises and every answer is well
    shaped: the next call returns, or the next builtin is defined. *)
Ltac shaped_step lib H Hall :=
  repeat (progress (eval_loads H;
    cbn [bind lift call_ assign unpack expr cell_value in_place exec for_each
         fit_transform_steps bind_names app steps] in H));
  match type of H with
  | run lib (Call ?c ?k) ?w = _ =>
      let r := fresh "r" in
      let Hnr := fresh "Hnr" in
      let Hws := fresh "Hws" in
      let Hall' := fresh "Hall" in
      let H' := fresh "H" in
      destruct (run_Call_inv lib _ c k w _ _ _ H Hall)
        as (r & ? & ? & -> & [Hnr Hws] & Hall' & H');
      clear H Hall; rename H' into H; rename Hall' into Hall;
      destruct r as [? | ?]; [clear Hnr | discriminate Hnr];
      repeat match goal with v : (_ * _)%type |- _ => destruct v end;
      cbn [well_shaped entry_call entry_result] in Hws;
      lazymatch type of Hws with
      | True => clear Hws
      | _ => idtac
      end;
      repeat match goal with Hc : _ /\ _ |- _ => destruct Hc end
  | context [lift (getitem ?l ?i)] =>
      let E := fresh "E" in
      destruct (getitem_defined l i) as [? E];
      [ repeat match goal with
               | Hne : ?l <> [] |- _ => apply not_empty_len in Hne
               end;
        unfold len in *; lia
      | rewrite E in H ]
  | context [lift (np.argmin ?l)] =>
      let E := fresh "E" in
      destruct (argmin_defined l) as (? & E & ?); [assumption | rewrite E in H]
  | context [lift (np.argmax ?l)] =>
      let E := fresh "E" in
      destruct (argmax_defined l) as (? & E & ?); [assumption | rewrite E in H]
  | context [lift (metrics.accuracy_score ?a ?b)] =>
      let E := fresh "E" in
      destruct (accuracy_score_defined a b) as [? E]; [congruence | rewrite E in H]
  | context [lift (column 1 ?rows)] =>
      let E := fresh "E" in
      destruct (column_defined rows) as [? E]; [assumption | ];
      pose proof (column_rows _ _ E) as [? _]; rewrite E in H
  | context [lift (metrics.roc_auc_score ?y ?s)] =>
      let E := fresh "E" in
      destruct (roc_auc_score_defined y s) as [? E];
      [assumption | congruence | rewrite E in H]
  end.

(** A run in which every call returns a well shaped answer returns. *)
Lemma notebook_returns {W : Type} (lib : forall X : Type, call X -> W -> result X * W)
    (w : W) (o : result globals) (w' : W) (t : list entry) :
  run lib (exec notebook ∅) w = (o, w', t) ->
  Forall (fun e => raised e = None /\ well_shaped e) t ->
  returns (o, w', t) = true /\ length (omap printed t) = 6%nat.
Proof.
  intros H Hall. expose H.
  repeat shaped_step lib H Hall.
  cbn [run] in H.
  pose proof (f_equal snd H) as Ht. pose proof (f_equal (fun x => fst (fst x)) H) as Ho.
  cbn [fst snd] in Ht, Ho. subst. split; reflexivity.
Qed.

(** X12. The notebook, run from top to bottom, returns, and has printed
    its six lines, whenever in this run no library call raises and the
    answers are of the shape it relies on: the generator returns three
    collections of the same length, not empty; each side of the split has
    as many labels as samples, and both classes; the model predicts one
    label and a row of two probabilities or more for every sample. *)
Theorem X12_notebook_returns
    (W : Type) (lib : forall X : Type, call X -> W -> result X * W) (w : W) :
  Forall (fun e => raised e = None) (trace (run lib (exec notebook ∅) w)) ->
  Forall well_shaped (trace (run lib (exec notebook ∅) w)) ->
  returns (run lib (exec notebook ∅) w) = true /\
  length (omap printed (trace (run lib (exec notebook ∅) w))) = 6%nat.
Proof.
  intros Hnr Hws.
  destruct (run lib (exec notebook ∅) w) as [[o w'] t] eqn:Hrun. cbn [trace snd] in *.
  eapply notebook_returns; [exact Hrun | ].
  apply Forall_and. split; assumption.
Qed.

(** What [answered_in_shape] decides. *)
Lemma answered_in_shape_spec (e : entry) :
  answered_in_shape e = true -> raised e = None /\ well_shaped e.
Proof.
  destruct e as [X c r]. unfold answered_in_shape, raised, well_shaped.
  cbn [entry_call entry_result].
  destruct c; destruct r as [a | err]; try discriminate; try (intros _; split; [reflexivity | exact I]).
  - destruct a as [[noisy gw] lab]. rewrite !andb_true_iff, negb_true_iff, !Nat.eqb_eq, Nat.eqb_neq.
    intros [[H1 H2] H3]. repeat split; try assumption. intros ->. apply H1. reflexivity.
  - destruct a as [[[X_tr X_va] y_tr] y_va]. rewrite !andb_true_iff, !Nat.eqb_eq.
    intros [[[H1 H2] H3] H4]. repeat split; assumption.
  - rewrite Nat.eqb_eq. intros H. split; [reflexivity | exact H].
  - rewrite andb_true_iff, Nat.eqb_eq, forallb_forall. intros [H1 H2].
    repeat split; [exact H1 | ]. apply Forall_forall. intros row Hrow.
    apply Nat.leb_le, H2, list_elem_of_In, Hrow.
Qed.

Lemma all_answered_in_shape (t : list entry) :
  forallb answered_in_shape t = true ->
  Forall (fun e => raised e = None) t /\ Forall well_shaped t.
Proof.
  induction t as [|e t IH]; cbn [forallb]; [split; constructor | ].
  rewrite andb_true_iff. intros [He Ht].
  destruct (answered_in_shape_spec e He), (IH Ht). split; constructor; assumption.
Defined.

Lemma X12_witness :
  returns (run reference.lib (exec notebook ∅) reference.initial) = true /\
  length (omap printed (trace (run reference.lib (exec notebook ∅) reference.initial)))
  = 6%nat.
Proof.
  apply (X12_notebook_returns _ reference.lib reference.initial);
    apply all_answered_in_shape; vm_compute; reflexivity.
Defined.

(** ** The namespace a run starts from *)

Lemma lookup_inserts (l : list (string * value)) (g : globals) (x : string) :
  inserts l g !! x = match assoc x l with Some v => Some v | None => g !! x end.
Proof.
  induction l as [|[y v] l IH]; cbn [inserts foldr assoc fst snd]; [reflexivity | ].
  destruct (String.eqb_spec x y) as [-> | Hxy].
  - apply lookup_insert_eq.
  - rewrite lookup_insert_ne by congruence. exact IH.
Qed.

Lemma load_inserts {A : Type} (proj : value -> option A) (kind : string)
    (l : list (string * value)) (g : globals) (x : string) :
  load proj kind (inserts l g) x =
  match assoc x l with
  | Some v => match proj v with Some a => Ret a | None => Raise (TypeError kind) end
  | None => load proj kind g x
  end.
Proof. unfold load. rewrite lookup_inserts. destruct (assoc x l); reflexivity. Qed.

(** Two such programs run alike. *)
Lemma sim_run {W A B : Type} (R : A -> B -> Prop)
    (lib : forall X : Type, call X -> W -> result X * W) (p : prog A) (q : prog B) (w : W) :
  sim R p q ->
  trace (run lib p w) = trace (run lib q w) /\
  snd (fst (run lib p w)) = snd (fst (run lib q w)) /\
  match outcome (run lib p w), outcome (run lib q w) with
  | Ok a, Ok b => R a b
  | Err e, Err e' => e = e'
  | _, _ => False
  end.
Proof.
  intros H. revert w. induction H as [a b Hab | e | X c k k' _ IH]; intros w; cbn [run].
  - repeat split. exact Hab.
  - repeat split.
  - destruct (lib X c w) as [[x | e] w1]; [ | repeat split].
    specialize (IH x w1).
    destruct (run lib (k x) w1) as [[o w2] t], (run lib (k' x) w1) as [[o' w2'] t'].
    cbn [trace outcome fst snd] in *. destruct IH as (-> & -> & Ho). auto.
Qed.

(** The namespace of a run as the bindings made since it started. *)
Ltac fold_inserts :=
  repeat match goal with
         | |- context [<[?x:=?v]> (inserts ?l ?g)] =>
             change (<[x:=v]> (inserts l g)) with (inserts ((x, v) :: l) g)
         end.

Ltac eval_assoc :=
  repeat match goal with
         | |- context [assoc ?x ?l] =>
             let r := eval vm_compute in (assoc x l) in
             change (assoc x l) with r
         end.

(** One step of the two runs: every name read is among the bindings made
    since the start, so that both read the same object. *)
Ltac sim_step :=
  repeat (progress (
    cbn [bind lift call_ assign unpack expr cell_value in_place exec for_each
         fit_transform_steps bind_names app steps
         as_int as_float as_path as_signals as_series as_labels as_array
         as_estimator as_steps as_pipeline as_model as_figure];
    fold_inserts; rewrite ?load_inserts; eval_assoc));
  match goal with
  | |- sim _ (Call _ _) (Call _ _) => apply sim_Call; intros ?
  | |- sim _ (Raise _) (Raise _) => apply sim_Raise
  | |- sim _ (Ret _) (Ret _) => apply sim_Ret; eexists; split; reflexivity
  | |- context [match ?v with pair _ _ => _ end] => is_var v; destruct v
  | |- context [lift ?r] => destruct r
  end.

Lemma notebook_sim (g : globals) :
  sim (same_bindings g) (exec notebook g) (exec notebook ∅).
Proof.
  change (sim (same_bindings g) (exec notebook (inserts [] g)) (exec notebook (inserts [] ∅))).
  expose_goal.
  repeat sim_step.
Qed.

Lemma inserts_union (l : list (string * value)) (g : globals) :
  inserts l g = inserts l ∅ ∪ g.
Proof.
  induction l as [|[y v] l IH]; cbn [inserts foldr fst snd].
  - symmetry. apply (left_id_L ∅ (∪)).
  - fold (inserts l g) (inserts l ∅). rewrite IH. apply insert_union_l.
Qed.

(** X13. A run of the notebook does not depend on the namespace it
    starts from: it makes the calls of the run from the empty namespace,
    with the same answers, leaves the outside world in the same state and,
    when it fails, ends with the same exception; when it returns, its
    namespace is that of the run from the empty namespace, with the
    bindings of the starting namespace for the names that the notebook does
    not bind. *)
Theorem X13_starting_namespace_irrelevant
    (W : Type) (lib : forall X : Type, call X -> W -> result X * W) (w : W) (g : globals) :
  trace (run lib (exec notebook g) w) = trace (run lib (exec notebook ∅) w) /\
  snd (fst (run lib (exec notebook g) w)) = snd (fst (run lib (exec notebook ∅) w)) /\
  (forall e : exn,
     outcome (run lib (exec notebook g) w) = Err e <->
     outcome (run lib (exec notebook ∅) w) = Err e) /\
  (returns (run lib (exec notebook ∅) w) = true ->
   final (run lib (exec notebook g) w) = final (run lib (exec notebook ∅) w) ∪ g).
Proof.
  destruct (sim_run (same_bindings g) lib _ _ w (notebook_sim g)) as (Ht & Hw & Ho).
  split; [exact Ht | split; [exact Hw | ]].
  unfold returns, final.
  destruct (outcome (run lib (exec notebook g) w)) as [g1 | e1],
           (outcome (run lib (exec notebook ∅) w)) as [g0 | e0]; try contradiction.
  - split; [split; discriminate | ]. intros _.
    destruct Ho as (l & -> & ->). apply inserts_union.
  - subst e1. split; [reflexivity | discriminate].
Qed.

Lemma X13_witness :
  final (run reference.lib (exec notebook reference.small_split) reference.initial)
  = final (run reference.lib (exec notebook ∅) reference.initial) ∪ reference.small_split.
Proof.
  apply (X13_starting_namespace_irrelevant _ reference.lib reference.initial
           reference.small_split).
  vm_compute. reflexivity.
Defined.

(** ** The definitions at work *)

Example argmin_first_occurrence : np.argmin [1; 0; 1; 0] = Ok 1.
Proof. reflexivity. Qed.

Example argmax_first_occurrence : np.argmax [0; 0; 1; 0; 1] = Ok 2.
Proof. reflexivity. Qed.

Example argmin_of_nothing :
  np.argmin [] = Err (ValueError "attempt to get argmin of an empty sequence").
Proof. reflexivity. Qed.

Example getitem_from_the_end : getitem [10; 20; 30] (-1) = Ok 30.
Proof. reflexivity. Qed.

Example accuracy_three_of_four :
  metrics.accuracy_score [1; 0; 1; 0] [1; 1; 1; 0] = Ok (Real (3 # 4)).
Proof. reflexivity. Qed.

Example accuracy_of_nothing : metrics.accuracy_score [] [] = Ok NaN.
Proof. reflexivity. Qed.

(** The example of the documentation of [roc_auc_score]. *)
Example roc_auc_three_quarters :
  exists q, metrics.roc_auc_score [0; 0; 1; 1] [1 # 10; 4 # 10; 35 # 100; 8 # 10]%Q
            = Ok (Real q) /\ (q == 3 # 4)%Q.
Proof. eexists. split; [vm_compute; reflexivity | vm_compute; reflexivity]. Qed.

Example roc_auc_with_ties :
  exists q, metrics.roc_auc_score [0; 1; 1; 1; 0] [1 # 2; 1 # 2; 1 # 2; 8 # 10; 1 # 10]%Q
            = Ok (Real q) /\ (q == 5 # 6)%Q.
Proof. eexists. split; [vm_compute; reflexivity | vm_compute; reflexivity]. Qed.

Example roc_auc_one_class :
  metrics.roc_auc_score [1; 1; 1] [1 # 2; 1 # 3; 1 # 4]%Q
  = Err (ValueError "Only one class present in y_true. ROC AUC score is not defined in that case.").
Proof. reflexivity. Qed.

Example round_ties_to_even :
  round (Real (1 # 16)) 3 = Real (62 # 1000) /\ round (Real (3 # 16)) 3 = Real (188 # 1000).
Proof. split; reflexivity. Qed.

(** What the notebook prints with the small library. *)
Example reference_stdout :
  reference.stdout (snd (fst (run reference.lib (exec notebook ∅) reference.initial)))
  = [ [PrFString [Lit "Number of noisy signals: "; FmtInt 100]];
      [PrFString [Lit "Number of timesteps per series: "; FmtInt 4]];
      [PrStr "Accuracy on train:"; PrFloat (Real (500 # 1000))];
      [PrStr "ROC AUC on train:"; PrFloat (Real (511 # 1000))];
      [PrStr "Accuracy on valid:"; PrFloat (Real (500 # 1000))];
      [PrStr "ROC AUC on valid:"; PrFloat (Real (600 # 1000))] ].
Proof. vm_compute. reflexivity. Qed.

(** With the small library nothing is written. *)
Example reference_written :
  reference.written (snd (fst (run reference.lib (exec notebook ∅) reference.initial))) = [].
Proof. vm_compute. reflexivity. Qed.

(** A handler would stop the propagation: wrapped in [try]/[except], the
    run in the world without data returns. *)
Example handler_catches :
  ~ handler_free (TryExcept (exec notebook ∅) (fun _ => Ret ∅) Ret) /\
  returns (run reference.lib (TryExcept (exec notebook ∅) (fun _ => Ret ∅) Ret)
               reference.no_data) = true.
Proof. split; [intros [] | vm_compute; reflexivity]. Qed.

(** A statement that writes a file is not in memory or output. *)
Example writing_is_seen :
  ~ uses as_written (call_ (open_write "features.npy" "0 1")).
Proof. intros [[[] _] _]. Qed.

(** A run that fails in the generator has made the first three
    operations. *)
Example operations_without_data :
  operations (trace (run reference.lib (exec notebook ∅) reference.no_data))
  = take 3 notebook_operations.
Proof. vm_compute. reflexivity. Qed.

(** From a namespace that binds [labels] to something else, the run is
    the run from the empty namespace. *)
Example labels_are_rebound :
  trace (run reference.lib (exec notebook {[ "labels" := VInt 7 ]}) reference.initial)
  = trace (run reference.lib (exec notebook ∅) reference.initial).
Proof. vm_compute. reflexivity. Qed.
